(** * pb: a remote clipboard over signed HTTPS requests

    A shallow embedding of the parts of [pb] that carry its design:
    - the request-authentication gate of the server ([authMiddleware]) and
      the loading of the authorized-keys file ([loadAuthorizedKeys]);
    - the client side that finds a private key and signs a request
      ([findPrivateKey], [getSigner], [doHTTPSRequest]);
    - the detection of command-line clipboard tools ([initCLIClipboard],
      [ReadClipboardCLI], [WriteClipboardCLI]);
    - the clipboard manager with its in-memory fallback, its timeout and its
      recovery task ([Copy], [Paste], [switchToFallback], [switchToSystem],
      [startHealthCheck]);
    - the handlers behind the gate and the clipboard of the server
      ([copyHandler], [pasteHandler], [openHandler], [quitHandler],
      [CopyToClipboard], [PasteFromClipboard]);
    - the commands [copy], [paste], [key-add] and [key-gen] of the client,
      and the conversion of line endings ([ConvertLE]).

    Layout: all definitions come first (one module per Go package or file),
    the theorems follow in modules of their own. *)

From Stdlib Require Import ZArith Lia.
From stdpp Require Import base option list gmap strings pretty.

Open Scope Z_scope.
Open Scope string_scope.

(** Go's [[]byte]. *)
Definition bytes : Type := list Byte.byte.

Global Instance byte_eq_dec : EqDecision Byte.byte := Stdlib.Strings.Byte.byte_eq_dec.

(** Go's [error] values are represented by their message. *)
Definition error : Type := string.

(** [[]byte(s)] and [string(b)]. *)
Definition bytes_of_string (s : string) : bytes := String.list_byte_of_string s.
Definition string_of_bytes (b : bytes) : string := String.string_of_list_byte b.

(** ** util/constants.go *)
Module util.
Definition ProgramName : string := "pb".
Definition DefaultPort : Z := 2850.
Definition HeaderFingerprint : string := "X-PB-Key-Fingerprint".
Definition HeaderSignature : string := "X-PB-Signature".
Definition RequestCopy : string := "/copy".
Definition RequestPaste : string := "/paste".
Definition RequestOpen : string := "/open".
Definition RequestQuit : string := "/quit".
End util.

(** ** The libraries the program is linked against

  [crypto/sha256], [encoding/base64] and [golang.org/x/crypto/ssh] are not
  part of the repository.  Their operations are the fields of one
  interface; the facts the theorems need about them are stated separately
  ([CodecLaws], [SignatureLaws]) and only where they are used. *)
Class SSHLib : Type := {
PublicKey : Type;
Signer : Type;
Signature : Type;
(** what a call draws from [rand.Reader] *)
Entropy : Type;
(** [sha256.Sum256] *)
Sum256 : bytes -> bytes;
(** [ssh.FingerprintSHA256] *)
FingerprintSHA256 : PublicKey -> string;
(** [signer.PublicKey()] *)
Signer_PublicKey : Signer -> PublicKey;
(** [signer.Sign(rand.Reader, data)]; [None] is a non-nil error *)
Signer_Sign : Signer -> Entropy -> bytes -> option Signature;
(** [pubKey.Verify(data, sig)]; [true] is a nil error *)
PublicKey_Verify : PublicKey -> bytes -> Signature -> bool;
(** [ssh.Marshal] and [ssh.Unmarshal] at type [ssh.Signature] *)
Marshal : Signature -> bytes;
Unmarshal : bytes -> option Signature;
(** [base64.StdEncoding] *)
EncodeToString : bytes -> string;
DecodeString : string -> option bytes;
(** [ssh.ParsePrivateKey] *)
ParsePrivateKey : bytes -> option Signer;
(** what [ssh.ParseAuthorizedKey] makes of one line of an authorized-keys
    file (trimming, comments and options included) *)
parseKeyLine : bytes -> option PublicKey;
}.

(** ** The part of package [os] the program uses *)
Module os.
Inductive node : Type :=
| File (content : bytes)
| Dir.

(** A file system maps a path to what is there. *)
Abbreviation FileSystem := (gmap string node).

Inductive PathError : Type :=
| ErrNotExist
| ErrOther.

(** [os.IsNotExist] *)
Definition IsNotExist (e : PathError) : bool :=
  match e with ErrNotExist => true | ErrOther => false end.

(** [os.Stat(path)]: [None] is a nil error. *)
Definition Stat (fs : FileSystem) (path : string) : option PathError :=
  match fs !! path with
  | Some _ => None
  | None => Some ErrNotExist
  end.

(** [os.ReadFile(path)] *)
Definition ReadFile (fs : FileSystem) (path : string) : bytes + PathError :=
  match fs !! path with
  | Some (File content) => inl content
  | Some Dir => inr ErrOther
  | None => inr ErrNotExist
  end.

(** [filepath.Join] on clean, non-empty elements. *)
Fixpoint Join (elems : list string) : string :=
  match elems with
  | [] => ""
  | [e] => e
  | e :: rest => e ++ "/" ++ Join rest
  end.
End os.

(** ** The part of [net/http] the program uses *)
Module http.
Definition StatusOK : Z := 200.
Definition StatusBadRequest : Z := 400.
Definition StatusUnauthorized : Z := 401.
Definition StatusInternalServerError : Z := 500.

(** [http.Header]: a key maps to the list of its values. *)
Abbreviation Header := (gmap string (list string)).

(** [h.Get(key)]: the first value of the key, [""] when there is none. *)
Definition Header_Get (h : Header) (key : string) : string :=
  match h !! key with
  | Some (v :: _) => v
  | _ => ""
  end.

(** [h.Set(key, value)] *)
Definition Header_Set (h : Header) (key value : string) : Header :=
  <[key := [value]]> h.

(** An [io.ReadCloser] that has not been read yet: the bytes it will
    deliver, and the error that ends the stream ([None] for [io.EOF]). *)
Record ReadCloser : Type := mkReadCloser {
  pending : bytes;
  failure : option error;
}.

(** [io.ReadAll] *)
Definition ReadAll (r : ReadCloser) : bytes * option error :=
  (pending r, failure r).

(** [io.NopCloser(bytes.NewBuffer(b))] *)
Definition NopCloser_NewBuffer (b : bytes) : ReadCloser :=
  mkReadCloser b None.

Record Request : Type := mkRequest {
  Method : string;
  URL : string;
  Hdr : Header;
  Body : ReadCloser;
}.

(** What a handler has sent through its [http.ResponseWriter]. *)
Record ResponseWriter : Type := mkResponseWriter {
  status : option Z;
  written : string;
}.

Definition emptyResponse : ResponseWriter := mkResponseWriter None "".

(** [w.WriteHeader(code)]; a second call changes nothing. *)
Definition WriteHeader (w : ResponseWriter) (code : Z) : ResponseWriter :=
  match status w with
  | Some _ => w
  | None => mkResponseWriter (Some code) (written w)
  end.

(** [w.Write(b)]; the first write sends status 200 when none was sent. *)
Definition Write (w : ResponseWriter) (b : string) : ResponseWriter :=
  let w' := WriteHeader w StatusOK in
  mkResponseWriter (status w') (written w' ++ b).

(** [http.Error(w, msg, code)] *)
Definition Error (w : ResponseWriter) (msg : string) (code : Z) : ResponseWriter :=
  Write (WriteHeader w code) (msg ++ String (Ascii.ascii_of_nat 10) EmptyString).

(** [http.Handler] *)
Definition Handler : Type := Request -> ResponseWriter -> ResponseWriter.
End http.

(** ** Package [server] *)
Module server.
Section WithLib.
Context {L : SSHLib}.

(** The TrustStore: fingerprint to public key. *)
Abbreviation TrustStore := (gmap string PublicKey).

(** [authMiddleware(next, authorizedKeys)] *)
Definition authMiddleware (next : http.Handler) (authorizedKeys : gmap string PublicKey)
  : http.Handler :=
  fun r w =>
    let keyFingerprint := http.Header_Get (http.Hdr r) util.HeaderFingerprint in
    let signatureB64 := http.Header_Get (http.Hdr r) util.HeaderSignature in
    if String.eqb keyFingerprint "" || String.eqb signatureB64 "" then
      http.Error w "Missing authentication headers" http.StatusUnauthorized
    else
      match authorizedKeys !! keyFingerprint with
      | None => http.Error w "Unknown public key" http.StatusUnauthorized
      | Some pubKey =>
        match http.ReadAll (http.Body r) with
        | (_, Some _) =>
          http.Error w "Failed to read request body" http.StatusInternalServerError
        | (body, None) =>
          let r := http.mkRequest (http.Method r) (http.URL r) (http.Hdr r)
                                  (http.NopCloser_NewBuffer body) in
          let hash := Sum256 body in
          match DecodeString signatureB64 with
          | None => http.Error w "Invalid signature encoding" http.StatusBadRequest
          | Some signatureBytes =>
            match Unmarshal signatureBytes with
            | None => http.Error w "Invalid SSH signature format" http.StatusBadRequest
            | Some sshSig =>
              if PublicKey_Verify pubKey hash sshSig then next r w
              else http.Error w "Signature verification failed" http.StatusUnauthorized
            end
          end
        end
      end.

(** [ssh.ParseAuthorizedKey(in)], as the library implements it: the input
    is cut at each newline, lines that do not hold a key are passed over,
    and the first line that holds one is returned with the input that
    follows it; when no line holds a key the error comes with a nil rest.
    [line] accumulates the current line, last byte first. *)
Fixpoint ParseAuthorizedKey_scan (line input : bytes) : option (PublicKey * bytes) :=
  match input with
  | [] =>
    match line with
    | [] => None
    | _ => option_map (fun k => (k, [])) (parseKeyLine (rev line))
    end
  | b :: rest =>
    if Byte.eqb b Byte.x0a then
      match parseKeyLine (rev line) with
      | Some k => Some (k, rest)
      | None => ParseAuthorizedKey_scan [] rest
      end
    else ParseAuthorizedKey_scan (b :: line) rest
  end.

(** The result is [(pubKey, rest, err)] in the source; [inr rest] is the
    error case. *)
Definition ParseAuthorizedKey (input : bytes) : PublicKey * bytes + bytes :=
  match ParseAuthorizedKey_scan [] input with
  | Some (k, rest) => inl (k, rest)
  | None => inr []
  end.

(** The loop of [loadAuthorizedKeys]; [fuel] bounds the iterations. *)
Fixpoint loadAuthorizedKeys_loop (fuel : nat) (bytes_ : bytes)
    (authorizedKeys : gmap string PublicKey) : option (gmap string PublicKey) :=
  match bytes_ with
  | [] => Some authorizedKeys
  | _ =>
    match fuel with
    | O => None
    | S fuel' =>
      match ParseAuthorizedKey bytes_ with
      | inr rest => loadAuthorizedKeys_loop fuel' rest authorizedKeys
      | inl (pubKey, rest) =>
        let fingerprint := FingerprintSHA256 pubKey in
        loadAuthorizedKeys_loop fuel' rest (<[fingerprint := pubKey]> authorizedKeys)
      end
    end
  end.

(** The outcome of [loadAuthorizedKeys]: the map and a nil error, a
    non-nil error, or a loop that has not ended within its fuel. *)
Inductive loadResult : Type :=
| Loaded (authorizedKeys : gmap string PublicKey)
| LoadError (e : os.PathError)
| LoadDiverges.

(** [loadAuthorizedKeys(path)]; log output is not part of the result. *)
Definition loadAuthorizedKeys (fs : os.FileSystem) (path : string) : loadResult :=
  match os.ReadFile fs path with
  | inr err =>
    if os.IsNotExist err then Loaded ∅ else LoadError err
  | inl bytes_ =>
    match loadAuthorizedKeys_loop (S (length bytes_)) bytes_ ∅ with
    | Some authorizedKeys => Loaded authorizedKeys
    | None => LoadDiverges
    end
  end.

(** The first steps of [Serve]: the home directory, then the keys.  The
    result is the error [Serve] returns, or the TrustStore it goes on
    with. *)
Definition Serve_authorizedKeys (home : option string) (fs : os.FileSystem)
  : gmap string PublicKey + error :=
  match home with
  | None => inr "could not get user home directory"
  | Some home =>
    match loadAuthorizedKeys fs
            (os.Join [home; ".config"; util.ProgramName; "authorized_keys"]) with
    | Loaded authorizedKeys => inl authorizedKeys
    | _ => inr "could not load authorized keys"
    end
  end.
End WithLib.
End server.

(** ** Package [commands] (the client) *)
Module commands.
(** What [client.Do] hands back: the status code and the body. *)
Record Response : Type := mkResponse {
  StatusCode : Z;
  RespBody : http.ReadCloser;
}.

(** The network as the client sees it: whether [http.NewRequest] accepts
    a method and a URL, and what [client.Do] answers to a request. *)
Record Network : Type := mkNetwork {
  NewRequest_err : string -> string -> option error;
  Do : http.Request -> Response + error;
}.

(** The process environment of the client: [os.UserHomeDir], the file
    system and the value of the [--key] flag. *)
Record Env : Type := mkEnv {
  UserHomeDir : option string;
  fs : os.FileSystem;
  keyPath : string;
}.

Definition noPrivateKeyFound : error :=
  "no private key found. Please run '" ++ util.ProgramName ++
  " key-gen' to create a new key, or specify one with the --key flag".

Definition defaultKeys : list string := ["id_ed25519"; "id_ecdsa"; "id_rsa"].

(** The [for _, keyFile := range defaultKeys] loop of [findPrivateKey]. *)
Fixpoint findPrivateKey_range (fs : os.FileSystem) (sshDir : string)
    (keys : list string) : option string :=
  match keys with
  | [] => None
  | keyFile :: keys' =>
    let path := os.Join [sshDir; keyFile] in
    match os.Stat fs path with
    | None => Some path
    | Some _ => findPrivateKey_range fs sshDir keys'
    end
  end.

(** [findPrivateKey()] *)
Definition findPrivateKey (env : Env) : string + error :=
  match UserHomeDir env with
  | None => inr "$HOME is not defined"
  | Some home =>
    let programKeyPath := os.Join [home; ".config"; util.ProgramName; "id_ed25519"] in
    match os.Stat (fs env) programKeyPath with
    | None => inl programKeyPath
    | Some _ =>
      let sshDir := os.Join [home; ".ssh"] in
      match findPrivateKey_range (fs env) sshDir defaultKeys with
      | Some path => inl path
      | None => inr noPrivateKeyFound
      end
    end
  end.

Section WithLib.
Context {L : SSHLib}.

(** [getSigner()] *)
Definition getSigner (env : Env) : Signer + error :=
  match (if String.eqb (keyPath env) "" then findPrivateKey env
         else inl (keyPath env)) with
  | inr err => inr err
  | inl pathToKey =>
    match os.ReadFile (fs env) pathToKey with
    | inr _ => inr ("could not read private key at " ++ pathToKey)
    | inl privateKeyBytes =>
      match ParsePrivateKey privateKeyBytes with
      | None => inr "could not parse private key"
      | Some signer => inl signer
      end
    end
  end.

(** [doHTTPSRequest(method, url, data)].  Next to the result stands the
    list of the requests handed to [client.Do], in order. *)
Definition doHTTPSRequest (env : Env) (rnd : Entropy) (net : Network)
    (method url data : string) : (string + error) * list http.Request :=
  match getSigner env with
  | inr err => (inr err, [])
  | inl signer =>
    let payloadHash := Sum256 (bytes_of_string data) in
    match Signer_Sign signer rnd payloadHash with
    | None => (inr "could not sign payload", [])
    | Some signature =>
      match NewRequest_err net method url with
      | Some err => (inr err, [])
      | None =>
        let req := http.mkRequest method url ∅
                     (http.NopCloser_NewBuffer (bytes_of_string data)) in
        let req := http.mkRequest (http.Method req) (http.URL req)
                     (http.Header_Set (http.Hdr req) util.HeaderFingerprint
                        (FingerprintSHA256 (Signer_PublicKey signer)))
                     (http.Body req) in
        let signatureBytes := Marshal signature in
        let req := http.mkRequest (http.Method req) (http.URL req)
                     (http.Header_Set (http.Hdr req) util.HeaderSignature
                        (EncodeToString signatureBytes))
                     (http.Body req) in
        match Do net req with
        | inr err => (inr err, [req])
        | inl resp =>
          match http.ReadAll (RespBody resp) with
          | (_, Some err) => (inr err, [req])
          | (body, None) =>
            if negb (Z.eqb (StatusCode resp) http.StatusOK) then
              (inr ("server returned non-200 status" ++ string_of_bytes body), [req])
            else (inl (string_of_bytes body), [req])
          end
        end
      end
    end
  end.

(** *** The key resolution as the specification words it

    The candidates in priority order: the explicitly supplied path when
    there is one, the program-specific key, the default SSH key files. *)
Definition spec_candidates (env : Env) : list string :=
  (if String.eqb (keyPath env) "" then [] else [keyPath env]) ++
  match UserHomeDir env with
  | None => []
  | Some home =>
    os.Join [home; ".config"; util.ProgramName; "id_ed25519"] ::
    map (fun keyFile => os.Join [os.Join [home; ".ssh"]; keyFile]) defaultKeys
  end.

(** A candidate is usable when the file exists and parses. *)
Definition spec_usable (env : Env) (path : string) : option Signer :=
  match os.ReadFile (fs env) path with
  | inl content => ParsePrivateKey content
  | inr _ => None
  end.

(** The first existing, parseable file wins. *)
Fixpoint spec_firstUsable (env : Env) (paths : list string) : option Signer :=
  match paths with
  | [] => None
  | path :: paths' =>
    match spec_usable env path with
    | Some signer => Some signer
    | None => spec_firstUsable env paths'
    end
  end.

Definition spec_resolveKey (env : Env) : option Signer :=
  spec_firstUsable env (spec_candidates env).
End WithLib.
End commands.

(** ** clipboard/clipboard_cli.go *)
Module clipboard_cli.
Definition cliXsel : string := "xsel".
Definition cliXclip : string := "xclip".
Definition cliWlcopy : string := "wl-copy".
Definition cliWlpaste : string := "wl-paste".
Definition cliTermuxClipboardGet : string := "termux-clipboard-get".
Definition cliTermuxClipboardSet : string := "termux-clipboard-set".

Definition xselPasteArgs : list string := [cliXsel; "--output"; "--clipboard"].
Definition xselCopyArgs : list string := [cliXsel; "--input"; "--clipboard"].
Definition xclipPasteArgs : list string := [cliXclip; "-out"; "-selection"; "clipboard"].
Definition xclipCopyArgs : list string := [cliXclip; "-in"; "-selection"; "clipboard"].
Definition wlpasteArgs : list string := [cliWlpaste; "--no-newline"].
Definition wlcopyArgs : list string := [cliWlcopy].
Definition termuxPasteArgs : list string := [cliTermuxClipboardGet].
Definition termuxCopyArgs : list string := [cliTermuxClipboardSet].

Definition clipboardUnavailableErr : error :=
  "no clipboard utilities available: install xsel, xclip, wl-clipboard, or enable Termux:API".

(** The package-level variables. *)
Record Globals : Type := mkGlobals {
  CLIClipboardAvailable : bool;
  pasteCmdArgs : list string;
  copyCmdArgs : list string;
}.

(** Their values before [init] runs. *)
Definition initialGlobals : Globals := mkGlobals false [] [].

(** The host: environment variables and the commands on the PATH. *)
Record Host : Type := mkHost {
  Getenv : string -> string;
  LookPath_ok : string -> bool;
}.

(** [hasCommand(cmd)] *)
Definition hasCommand (h : Host) (cmd : string) : bool := LookPath_ok h cmd.

(** [initCLIClipboard()] *)
Definition initCLIClipboard (h : Host) (g : Globals) : Globals :=
  if negb (String.eqb (Getenv h "WAYLAND_DISPLAY") "")
     && (hasCommand h cliWlcopy && hasCommand h cliWlpaste) then
    mkGlobals true wlpasteArgs wlcopyArgs
  else if hasCommand h cliXclip then
    mkGlobals true xclipPasteArgs xclipCopyArgs
  else if hasCommand h cliXsel then
    mkGlobals true xselPasteArgs xselCopyArgs
  else if hasCommand h cliTermuxClipboardSet && hasCommand h cliTermuxClipboardGet then
    mkGlobals true termuxPasteArgs termuxCopyArgs
  else g.

(** An [*exec.Cmd] as the two functions use it: every call that can fail
    and what it yields. *)
Record Cmd : Type := mkCmd {
  Output : bytes + error;
  StdinPipe : option error;
  Start : option error;
  Stdin_Write : bytes -> option error;
  Stdin_Close : option error;
  Wait : option error;
}.

(** The outcome of a call: a return value, or a run-time panic. *)
Inductive outcome (A : Type) : Type :=
| Returns (a : A)
| Panics (msg : string).
Arguments Returns {A} a.
Arguments Panics {A} msg.

(** [ReadClipboardCLI()]; [exec_Command] is [exec.Command]. *)
Definition ReadClipboardCLI (exec_Command : string -> list string -> Cmd)
    (g : Globals) : outcome (bytes + error) :=
  if negb (CLIClipboardAvailable g) then Returns (inr clipboardUnavailableErr)
  else
    match pasteCmdArgs g with
    | [] => Panics "index out of range [0] with length 0"
    | name :: args =>
      let cmd := exec_Command name args in
      match Output cmd with
      | inr err => Returns (inr err)
      | inl out => Returns (inl out)
      end
    end.

(** [WriteClipboardCLI(data)]; [None] is a nil error. *)
Definition WriteClipboardCLI (exec_Command : string -> list string -> Cmd)
    (g : Globals) (data : bytes) : outcome (option error) :=
  if negb (CLIClipboardAvailable g) then Returns (Some clipboardUnavailableErr)
  else
    match copyCmdArgs g with
    | [] => Panics "index out of range [0] with length 0"
    | name :: args =>
      let cmd := exec_Command name args in
      match StdinPipe cmd with
      | Some err => Returns (Some err)
      | None =>
        match Start cmd with
        | Some err => Returns (Some err)
        | None =>
          match Stdin_Write cmd data with
          | Some err => Returns (Some err)
          | None =>
            match Stdin_Close cmd with
            | Some err => Returns (Some err)
            | None => Returns (Wait cmd)
            end
          end
        end
      end
    end.
End clipboard_cli.

(** ** clipboard/clipboard.go and its platform files *)
Module clipboard.
(** [time.Duration] counts nanoseconds. *)
Definition Second : Z := 1000000000.
Definition clipboardTimeout : Z := 2 * Second.
Definition healthCheckInterval : Z := 5 * Second.

(** The values the interface variable [state.active] can hold: the
    manager's own [*inMemoryClipboard] (the pointer [state.fallback]), a
    [*systemClipboard] or a [*cliClipboard]. *)
Inductive clipboarder : Type :=
| InMemory
| System
| Cli.

Global Instance clipboarder_eq_dec : EqDecision clipboarder.
Proof. solve_decision. Defined.

Record inMemoryClipboard : Type := mkInMemory {
  data : bytes;
}.

(** [(c *inMemoryClipboard) Copy(data)] *)
Definition inMemoryClipboard_Copy (c : inMemoryClipboard) (d : bytes)
  : inMemoryClipboard * option error :=
  (mkInMemory d, None).

(** [(c *inMemoryClipboard) Paste()] *)
Definition inMemoryClipboard_Paste (c : inMemoryClipboard) : bytes * option error :=
  (data c, None).

(** [clipboardState]; [active] is [None] for a nil interface.  The
    channel [healthCheckDone] is unbuffered and holds nothing. *)
Record clipboardState : Type := mkState {
  active : option clipboarder;
  fallback : inMemoryClipboard;
  usingFallback : bool;
}.

(** What the platform files depend on: the build tag, whether the native
    clipboard initialises, whether a command-line tool was found. *)
Record Platform : Type := mkPlatform {
  android : bool;
  nativeInit_ok : bool;
  CLIClipboardAvailable : bool;
}.

(** [initPlatformClipboard(fallback)], both build variants. *)
Definition initPlatformClipboard (p : Platform) (st : clipboardState) : clipboardState :=
  if android p then
    if CLIClipboardAvailable p then mkState (Some Cli) (fallback st) false
    else mkState (Some InMemory) (fallback st) true
  else
    if nativeInit_ok p then mkState (Some System) (fallback st) false
    else if CLIClipboardAvailable p then mkState (Some Cli) (fallback st) false
    else mkState (Some InMemory) (fallback st) true.

(** [getPrimaryClipboard()] *)
Definition getPrimaryClipboard (p : Platform) : clipboarder :=
  if android p then Cli else System.

(** [getCLIClipboard()] *)
Definition getCLIClipboard : clipboarder := Cli.

(** [Init()]; the package variable [state] is [None] while it is nil. *)
Definition Init (p : Platform) (state : option clipboardState) : option clipboardState :=
  match state with
  | Some _ => state
  | None => Some (initPlatformClipboard p (mkState None (mkInMemory []) false))
  end.

(** [UseInMemoryClipboard()] *)
Definition UseInMemoryClipboard (state : option clipboardState) : option clipboardState :=
  match state with
  | None => None
  | Some st => Some (mkState (Some InMemory) (fallback st) true)
  end.

(** [UseCliClipboard()] *)
Definition UseCliClipboard (state : option clipboardState)
  : option error * option clipboardState :=
  match state with
  | None => (Some "clipboard not initialized", None)
  | Some st => (None, Some (mkState (Some getCLIClipboard) (fallback st) false))
  end.

(** [getActiveClipboard()] *)
Definition getActiveClipboard (state : option clipboardState) : option clipboarder :=
  match state with
  | None => None
  | Some st => active st
  end.

(** [isUsingFallback()] *)
Definition isUsingFallback (state : option clipboardState) : bool :=
  match state with
  | None => true
  | Some st => usingFallback st
  end.

(** The critical section of [switchToFallback]: the value read into
    [wasUsingFallback] and the state at [Unlock]. *)
Definition switchToFallback_locked (st : clipboardState) : bool * clipboardState :=
  (usingFallback st, mkState (Some InMemory) (fallback st) true).

(** The critical section of [switchToSystem]. *)
Definition switchToSystem_locked (p : Platform) (st : clipboardState) : clipboardState :=
  mkState (Some (getPrimaryClipboard p)) (fallback st) false.

(** *** Time

    How a call that is raced against a deadline answers: after so many
    nanoseconds with a value, or never. *)
Inductive response (A : Type) : Type :=
| Responds (after : Z) (v : A)
| Hangs.
Arguments Responds {A} after v.
Arguments Hangs {A}.

(** [select] between the channel of the call and [ctx.Done()] of a
    context with the given timeout: the case that is ready first is
    taken, and [tie] decides when both are ready at once. *)
Definition selectWithin {A : Type} (timeout : Z) (r : response A) (tie : bool) : option A :=
  match r with
  | Hangs => None
  | Responds after v =>
    if (after <? timeout)%Z then Some v
    else if (after =? timeout)%Z then (if tie then Some v else None)
    else None
  end.

(** The call does not complete within the timeout. *)
Definition exceeds {A : Type} (timeout : Z) (r : response A) : Prop :=
  match r with
  | Hangs => True
  | Responds after _ => (timeout < after)%Z
  end.

(** [isClipboardResponsive()]: a test read raced against
    [clipboardTimeout]. *)
Definition isClipboardResponsive (probe : response unit) (tie : bool) : bool :=
  match selectWithin clipboardTimeout probe tie with
  | Some _ => true
  | None => false
  end.

(** *** Calls on a [clipboarder]

    The in-memory clipboard answers at once and changes the state; what
    the system clipboard or the command-line tool answers is given by the
    host ([sys]) and leaves the state alone. *)
Definition clipboarder_Copy (a : clipboarder) (d : bytes)
    (sys : response (option error)) (st : clipboardState)
  : response (option error) * clipboardState :=
  match a with
  | InMemory =>
    let '(c, err) := inMemoryClipboard_Copy (fallback st) d in
    (Responds 0 err, mkState (active st) c (usingFallback st))
  | System | Cli => (sys, st)
  end.

Definition clipboarder_Paste (a : clipboarder)
    (sys : response (bytes * option error)) (st : clipboardState)
  : response (bytes * option error) :=
  match a with
  | InMemory => Responds 0 (inMemoryClipboard_Paste (fallback st))
  | System | Cli => sys
  end.

(** *** The manager, one call at a time

    The state and the number of [startHealthCheck] goroutines that have
    been started and have not returned. *)
Record manager : Type := mkManager {
  state : option clipboardState;
  healthChecks : nat;
}.

(** A call returns a value or never returns. *)
Inductive completion (A : Type) : Type :=
| Returns (a : A)
| NeverReturns.
Arguments Returns {A} a.
Arguments NeverReturns {A}.

(** [switchToFallback()] with [go startHealthCheck()] *)
Definition switchToFallback (m : manager) : manager :=
  match state m with
  | None => m
  | Some st =>
    let '(wasUsingFallback, st') := switchToFallback_locked st in
    mkManager (Some st')
              (if negb wasUsingFallback then S (healthChecks m) else healthChecks m)
  end.

(** [Copy(data)]; [sys] and [tie] say how the host answers this call. *)
Definition Copy (sys : response (option error)) (tie : bool) (d : bytes) (m : manager)
  : completion (option error) * manager :=
  match state m with
  | None => (Returns (Some "clipboard not initialized"), m)
  | Some st =>
    match active st with
    | None => (Returns (Some "clipboard not initialized"), m)
    | Some active_ =>
      let '(answer, st1) := clipboarder_Copy active_ d sys st in
      if isUsingFallback (state m) then
        match answer with
        | Responds _ err => (Returns err, mkManager (Some st1) (healthChecks m))
        | Hangs => (NeverReturns, m)
        end
      else
        match selectWithin clipboardTimeout answer tie with
        | Some err => (Returns err, mkManager (Some st1) (healthChecks m))
        | None =>
          let m2 := switchToFallback m in
          match state m2 with
          | None => (NeverReturns, m2)
          | Some st2 =>
            let '(c, err) := inMemoryClipboard_Copy (fallback st2) d in
            (Returns err,
             mkManager (Some (mkState (active st2) c (usingFallback st2)))
                       (healthChecks m2))
          end
        end
    end
  end.

(** [Paste()] *)
Definition Paste (sys : response (bytes * option error)) (tie : bool) (m : manager)
  : completion (bytes * option error) * manager :=
  match state m with
  | None => (Returns ([], Some "clipboard not initialized"), m)
  | Some st =>
    match active st with
    | None => (Returns ([], Some "clipboard not initialized"), m)
    | Some active_ =>
      let answer := clipboarder_Paste active_ sys st in
      if isUsingFallback (state m) then
        match answer with
        | Responds _ res => (Returns res, m)
        | Hangs => (NeverReturns, m)
        end
      else
        match selectWithin clipboardTimeout answer tie with
        | Some (d, None) => (Returns (d, None), m)
        | Some (_, Some err) => (Returns ([], Some err), m)
        | None =>
          let m2 := switchToFallback m in
          match state m2 with
          | None => (NeverReturns, m2)
          | Some st2 => (Returns (inMemoryClipboard_Paste (fallback st2)), m2)
          end
        end
    end
  end.

(** The invariant of [clipboardState]: [usingFallback] says whether the
    active backend is the fallback instance. *)
Definition consistent (st : clipboardState) : Prop :=
  usingFallback st = true <-> active st = Some InMemory.

(** *** The manager under concurrency

    Goroutines interleave at the grain of the critical sections.  A
    goroutine inside [Copy] or [Paste] is at one of these points. *)
Inductive call : Type :=
| CallCopy (d : bytes)
| CallPaste.

(** What a call returns; [Copy] leaves the bytes empty. *)
Definition result : Type := bytes * option error.

Inductive pc : Type :=
| AtStart                      (* before [getActiveClipboard()] *)
| GotActive (a : clipboarder)  (* before [isUsingFallback()] *)
| Direct (a : clipboarder)     (* before [return active.Copy(data)] *)
| Racing (a : clipboarder)     (* in the [select] *)
| TimedOut                     (* [ctx.Done()] taken, before [switchToFallback()] *)
| Unlocked (wasUsingFallback : bool)  (* after [state.mu.Unlock()] *)
| Retry                        (* before [state.fallback.Copy(data)] *)
| Finished (res : result).

(** The package variable [state], the [startHealthCheck] goroutines by
    where they are, and the goroutines inside [Copy] and [Paste].
    - [waiting]: blocked in the [select] of the loop;
    - [probing]: the ticker has fired, [isClipboardResponsive()] runs;
    - [leaving]: past the critical section of [switchToSystem], before
      the send on [healthCheckDone] and the return. *)
Record config : Type := mkConfig {
  shared : option clipboardState;
  waiting : nat;
  probing : nat;
  leaving : nat;
  threads : list (call * pc);
}.

Definition initialConfig : config := mkConfig None 0 0 0 [].

Inductive label : Type :=
| LInit
| LUseInMemoryClipboard
| LUseCliClipboard
| LCall (cl : call)
| LGetActive (i : nat)
| LIsUsingFallback (i : nat)
| LDirect (i : nat) (sys : response result)
| LRace (i : nat) (sys : response result) (tie : bool)
| LLock (i : nat)
| LSpawn (i : nat)
| LRetry (i : nat)
| LTick
| LProbe (probe : response unit) (tie : bool)
| LSignal (received : bool).

Definition response_map {A B : Type} (f : A -> B) (r : response A) : response B :=
  match r with
  | Responds after v => Responds after (f v)
  | Hangs => Hangs
  end.

(** The call of a goroutine on the backend it holds. *)
Definition perform (a : clipboarder) (cl : call) (sys : response result)
    (st : clipboardState) : response result * clipboardState :=
  match cl with
  | CallCopy d =>
    let '(answer, st1) := clipboarder_Copy a d (response_map snd sys) st in
    (response_map (fun err => ([], err)) answer, st1)
  | CallPaste => (clipboarder_Paste a sys st, st)
  end.

(** What the [select] of [Paste] makes of the two channels. *)
Definition raced (res : result) : result :=
  match res with
  | (d, None) => (d, None)
  | (_, Some err) => ([], Some err)
  end.

(** The retry on [state.fallback]. *)
Definition retry (cl : call) (st : clipboardState) : result * clipboardState :=
  match cl with
  | CallCopy d =>
    let '(c, err) := inMemoryClipboard_Copy (fallback st) d in
    (([], err), mkState (active st) c (usingFallback st))
  | CallPaste => (inMemoryClipboard_Paste (fallback st), st)
  end.

Definition setThread (c : config) (i : nat) (t : call * pc)
    (shared' : option clipboardState) (waiting' : nat) : config :=
  mkConfig shared' waiting' (probing c) (leaving c) (<[i := t]> (threads c)).

(** One step; [None] when the step is not enabled. *)
Definition step (p : Platform) (l : label) (c : config) : option config :=
  match l with
  | LInit =>
    Some (mkConfig (Init p (shared c)) (waiting c) (probing c) (leaving c) (threads c))
  | LUseInMemoryClipboard =>
    Some (mkConfig (UseInMemoryClipboard (shared c))
                   (waiting c) (probing c) (leaving c) (threads c))
  | LUseCliClipboard =>
    Some (mkConfig (snd (UseCliClipboard (shared c)))
                   (waiting c) (probing c) (leaving c) (threads c))
  | LCall cl =>
    Some (mkConfig (shared c) (waiting c) (probing c) (leaving c)
                   (threads c ++ [(cl, AtStart)]))
  | LGetActive i =>
    match threads c !! i with
    | Some (cl, AtStart) =>
      match getActiveClipboard (shared c) with
      | None =>
        Some (setThread c i (cl, Finished ([], Some "clipboard not initialized"))
                        (shared c) (waiting c))
      | Some a => Some (setThread c i (cl, GotActive a) (shared c) (waiting c))
      end
    | _ => None
    end
  | LIsUsingFallback i =>
    match threads c !! i with
    | Some (cl, GotActive a) =>
      if isUsingFallback (shared c)
      then Some (setThread c i (cl, Direct a) (shared c) (waiting c))
      else Some (setThread c i (cl, Racing a) (shared c) (waiting c))
    | _ => None
    end
  | LDirect i sys =>
    match threads c !! i, shared c with
    | Some (cl, Direct a), Some st =>
      match perform a cl sys st with
      | (Responds _ res, st1) =>
        Some (setThread c i (cl, Finished res) (Some st1) (waiting c))
      | (Hangs, _) => None
      end
    | _, _ => None
    end
  | LRace i sys tie =>
    match threads c !! i, shared c with
    | Some (cl, Racing a), Some st =>
      let '(answer, st1) := perform a cl sys st in
      match selectWithin clipboardTimeout answer tie with
      | Some res => Some (setThread c i (cl, Finished (raced res)) (Some st1) (waiting c))
      | None => Some (setThread c i (cl, TimedOut) (shared c) (waiting c))
      end
    | _, _ => None
    end
  | LLock i =>
    match threads c !! i, shared c with
    | Some (cl, TimedOut), Some st =>
      let '(wasUsingFallback, st') := switchToFallback_locked st in
      Some (setThread c i (cl, Unlocked wasUsingFallback) (Some st') (waiting c))
    | _, _ => None
    end
  | LSpawn i =>
    match threads c !! i with
    | Some (cl, Unlocked wasUsingFallback) =>
      Some (setThread c i (cl, Retry) (shared c)
              (if negb wasUsingFallback then S (waiting c) else waiting c))
    | _ => None
    end
  | LRetry i =>
    match threads c !! i, shared c with
    | Some (cl, Retry), Some st =>
      let '(res, st') := retry cl st in
      Some (setThread c i (cl, Finished res) (Some st') (waiting c))
    | _, _ => None
    end
  | LTick =>
    match waiting c with
    | S n => Some (mkConfig (shared c) n (S (probing c)) (leaving c) (threads c))
    | O => None
    end
  | LProbe probe tie =>
    match probing c with
    | S n =>
      if isClipboardResponsive probe tie then
        match shared c with
        | Some st =>
          Some (mkConfig (Some (switchToSystem_locked p st))
                         (waiting c) n (S (leaving c)) (threads c))
        | None => Some (mkConfig None (waiting c) n (leaving c) (threads c))
        end
      else Some (mkConfig (shared c) (S (waiting c)) n (leaving c) (threads c))
    | O => None
    end
  | LSignal received =>
    (* [select { case state.healthCheckDone <- struct{}{}: default: }] and
       the return: the send is taken when a task blocked in its [select]
       receives it, and that task returns too *)
    match leaving c with
    | S n =>
      if received then
        match waiting c with
        | S w => Some (mkConfig (shared c) w (probing c) n (threads c))
        | O => None
        end
      else Some (mkConfig (shared c) (waiting c) (probing c) n (threads c))
    | O => None
    end
  end.

(** A run: the steps of [ls] in order, each of them allowed by [guard]
    where it is taken. *)
Fixpoint run (p : Platform) (guard : label -> config -> bool)
    (ls : list label) (c : config) : option config :=
  match ls with
  | [] => Some c
  | l :: ls' =>
    if guard l c then
      match step p l c with
      | Some c' => run p guard ls' c'
      | None => None
      end
    else None
  end.

(** Every step is allowed. *)
Definition anyStep (l : label) (c : config) : bool := true.

(** The recovery tasks that still poll, and those about to be started
    (a goroutine between the [Unlock] of [switchToFallback] and its
    [go startHealthCheck()]). *)
Definition pollingTasks (c : config) : nat := (waiting c + probing c)%nat.

Definition pendingSpawn (t : call * pc) : nat :=
  match snd t with
  | Unlocked false => 1%nat
  | _ => 0%nat
  end.

Definition pendingSpawns (c : config) : nat := sum_list_with pendingSpawn (threads c).

(** [UseCliClipboard] is called only while no recovery task polls or is
    about to be started. *)
Definition cliOverrideWhenIdle (l : label) (c : config) : bool :=
  match l with
  | LUseCliClipboard => Nat.eqb (pollingTasks c + pendingSpawns c) 0
  | _ => true
  end.
End clipboard.

(** ** Line endings: [ConvertLE] of clipboard/clipboard.go (the same
    function stands in server/clipboard.go) *)
Module strings.
Definition isUpper (c : Ascii.ascii) : bool :=
  (65 <=? Ascii.nat_of_ascii c)%nat && (Ascii.nat_of_ascii c <=? 90)%nat.

(** Two bytes are equal under simple case folding. *)
Definition equalFoldByte (sr tr : Ascii.ascii) : bool :=
  Ascii.eqb sr tr
  || (isUpper sr && (Ascii.nat_of_ascii tr =? Ascii.nat_of_ascii sr + 32)%nat)
  || (isUpper tr && (Ascii.nat_of_ascii sr =? Ascii.nat_of_ascii tr + 32)%nat).

(** [strings.EqualFold] on ASCII text: bytes are compared up to the case of
    the letters A to Z.  Bytes above 127 are compared as they are; Go
    decodes them as UTF-8 and folds the runes, which makes no difference
    when one argument is ["lf"] or ["crlf"], whose letters have no case
    variants outside ASCII. *)
Fixpoint EqualFold (s t : string) : bool :=
  match s, t with
  | EmptyString, EmptyString => true
  | String sr s', String tr t' => equalFoldByte sr tr && EqualFold s' t'
  | _, _ => false
  end.

(** [strings.ReplaceAll(s, old, new)] for a non-empty [old]: the
    non-overlapping occurrences of [old] are replaced from left to right;
    [skip] counts the bytes of an occurrence that are still to be passed
    over. *)
Fixpoint ReplaceAll_from (old new : string) (skip : nat) (s : string) : string :=
  match s with
  | EmptyString => EmptyString
  | String c s' =>
    match skip with
    | S k => ReplaceAll_from old new k s'
    | O =>
      if String.prefix old (String c s')
      then new ++ ReplaceAll_from old new (String.length old - 1) s'
      else String c (ReplaceAll_from old new 0 s')
    end
  end.

Definition ReplaceAll (s old new : string) : string := ReplaceAll_from old new 0 s.
End strings.

Module lineendings.
Definition CR : Ascii.ascii := Ascii.ascii_of_nat 13.
Definition LF : Ascii.ascii := Ascii.ascii_of_nat 10.

Section WithRegexp.
(** [regexp.MustCompile(pattern).ReplaceAllString(src, repl)], which is
    library code. *)
Variable ReplaceAllString : string -> string -> string -> string.

Definition ConvertLE (text op : string) : string :=
  if strings.EqualFold "lf" op then
    let text := strings.ReplaceAll text (String CR (String LF "")) (String LF "") in
    strings.ReplaceAll text (String CR "") (String LF "")
  else if strings.EqualFold "crlf" op then
    let text := ReplaceAllString "\r(.)|\r$" text (String CR (String LF "$1")) in
    let text := ReplaceAllString "([^\r])\n|^\n" text ("$1" ++ String CR (String LF "")) in
    text
  else text.
End WithRegexp.
End lineendings.

(** ** The host of the server

    [golang.design/x/clipboard] and [github.com/skratchdot/open-golang]
    are library code: the system clipboard is a state that [Write] changes
    and [Read] reads, and [open.Run] may fail. *)
Class HostLib : Type := {
  SystemClipboard : Type;
  clipboard_Write : bytes -> SystemClipboard -> SystemClipboard;
  clipboard_Read : SystemClipboard -> bytes;
  open_Run : string -> option error;
}.

(** ** server/clipboard.go: the clipboard of the server *)
Module server_clipboard.
Section WithHost.
Context {H : HostLib}.

(** The two implementations of [clipboarder]; the in-memory one is shown
    with what it holds. *)
Inductive clipboarder : Type :=
| inMemoryClipboard (data : bytes)
| systemClipboard.

(** What the handlers of the server act on: the package variable
    [activeClipboard] ([None] for nil), the system clipboard, the URLs
    handed to [open.Run], and whether [os.Exit] was called. *)
Record World : Type := mkWorld {
  activeClipboard : option clipboarder;
  system : SystemClipboard;
  opened : list string;
  exited : bool;
}.

Definition setActive (world : World) (c : option clipboarder) : World :=
  mkWorld c (system world) (opened world) (exited world).

(** [init()]; [clipboard_Init] is what [clipboard.Init()] returns. *)
Definition init (clipboard_Init : option error) (world : World) : World :=
  match clipboard_Init with
  | Some _ => setActive world (Some (inMemoryClipboard []))
  | None => setActive world (Some systemClipboard)
  end.

(** [UseInMemoryClipboard()] *)
Definition UseInMemoryClipboard (world : World) : World :=
  setActive world (Some (inMemoryClipboard [])).

(** [CopyToClipboard(data)] with the [Copy] methods *)
Definition CopyToClipboard (data : bytes) (world : World) : option error * World :=
  match activeClipboard world with
  | None => (Some "clipboard not initialized", world)
  | Some (inMemoryClipboard _) => (None, setActive world (Some (inMemoryClipboard data)))
  | Some systemClipboard =>
    (None, mkWorld (activeClipboard world) (clipboard_Write data (system world))
             (opened world) (exited world))
  end.

(** [PasteFromClipboard()] with the [Paste] methods *)
Definition PasteFromClipboard (world : World) : bytes * option error :=
  match activeClipboard world with
  | None => ([], Some "clipboard not initialized")
  | Some (inMemoryClipboard data) => (data, None)
  | Some systemClipboard => (clipboard_Read (system world), None)
  end.
End WithHost.
End server_clipboard.

(** ** Package [server]: the handlers behind the gate *)
Module server_handlers.
Import server_clipboard.
Section WithLibs.
Context {L : SSHLib} {H : HostLib}.

(** A handler that acts on the world of the server. *)
Definition Handler : Type :=
  http.Request -> http.ResponseWriter -> World -> http.ResponseWriter * World.

(** [copyHandler(w, r)] *)
Definition copyHandler : Handler :=
  fun r w world =>
    match http.ReadAll (http.Body r) with
    | (_, Some _) =>
      (http.Error w "Failed to read request body" http.StatusInternalServerError, world)
    | (body, None) =>
      match CopyToClipboard body world with
      | (Some _, world') =>
        (http.Error w "Failed to write to clipboard" http.StatusInternalServerError, world')
      | (None, world') => (http.WriteHeader w http.StatusOK, world')
      end
    end.

(** [pasteHandler(w, r)] *)
Definition pasteHandler : Handler :=
  fun r w world =>
    match PasteFromClipboard world with
    | (_, Some _) =>
      (http.Error w "Failed to read from clipboard" http.StatusInternalServerError, world)
    | (content, None) => (http.Write w (string_of_bytes content), world)
    end.

(** [openHandler(w, r)] *)
Definition openHandler : Handler :=
  fun r w world =>
    match http.ReadAll (http.Body r) with
    | (_, Some _) =>
      (http.Error w "Failed to read request body" http.StatusInternalServerError, world)
    | (body, None) =>
      let urlToOpen := string_of_bytes body in
      let world' := mkWorld (activeClipboard world) (system world)
                  (opened world ++ [urlToOpen])%list (exited world) in
      match open_Run urlToOpen with
      | Some _ => (http.Error w "Failed to open URL" http.StatusInternalServerError, world')
      | None => (http.WriteHeader w http.StatusOK, world')
      end
    end.

(** [quitHandler(w, r)] *)
Definition quitHandler : Handler :=
  fun r w world =>
    (http.WriteHeader w http.StatusOK,
     mkWorld (activeClipboard world) (system world) (opened world) true).

(** The [http.ServeMux] of [Serve] with its four patterns.  A pattern
    without a trailing slash matches the path that equals it; what the
    library answers to every other path (404, or a redirect to the cleaned
    path) is [unmatched].  [URL_Path] gives the path of a request URL. *)
Definition mux (URL_Path : string -> string) (unmatched : http.Handler) : Handler :=
  fun r w world =>
    let path := URL_Path (http.URL r) in
    if String.eqb path util.RequestCopy then copyHandler r w world
    else if String.eqb path util.RequestPaste then pasteHandler r w world
    else if String.eqb path util.RequestOpen then openHandler r w world
    else if String.eqb path util.RequestQuit then quitHandler r w world
    else (unmatched r w, world).

(** [authMiddleware(next, authorizedKeys)] around a handler that acts on
    the world. *)
Definition authMiddleware (next : Handler) (authorizedKeys : gmap string PublicKey)
  : Handler :=
  fun r w world =>
    let keyFingerprint := http.Header_Get (http.Hdr r) util.HeaderFingerprint in
    let signatureB64 := http.Header_Get (http.Hdr r) util.HeaderSignature in
    if String.eqb keyFingerprint "" || String.eqb signatureB64 "" then
      (http.Error w "Missing authentication headers" http.StatusUnauthorized, world)
    else
      match authorizedKeys !! keyFingerprint with
      | None => (http.Error w "Unknown public key" http.StatusUnauthorized, world)
      | Some pubKey =>
        match http.ReadAll (http.Body r) with
        | (_, Some _) =>
          (http.Error w "Failed to read request body" http.StatusInternalServerError, world)
        | (body, None) =>
          let r := http.mkRequest (http.Method r) (http.URL r) (http.Hdr r)
                                  (http.NopCloser_NewBuffer body) in
          let hash := Sum256 body in
          match DecodeString signatureB64 with
          | None => (http.Error w "Invalid signature encoding" http.StatusBadRequest, world)
          | Some signatureBytes =>
            match Unmarshal signatureBytes with
            | None =>
              (http.Error w "Invalid SSH signature format" http.StatusBadRequest, world)
            | Some sshSig =>
              if PublicKey_Verify pubKey hash sshSig then next r w world
              else
                (http.Error w "Signature verification failed" http.StatusUnauthorized, world)
            end
          end
        end
      end.

(** The handler of the [http.Server] that [Serve] starts. *)
Definition Serve_Handler (URL_Path : string -> string) (unmatched : http.Handler)
    (authorizedKeys : gmap string PublicKey) : Handler :=
  authMiddleware (mux URL_Path unmatched) authorizedKeys.
End WithLibs.
End server_handlers.

(** ** Package [commands]: the [copy], [paste] and [key-add] commands *)
Module commands_run.
Import commands.

Definition maxClipboardSize : Z := 200 * 1024 * 1024.

(** The flags [--server], [--port] and [--rosebud]. *)
Record Flags : Type := mkFlags {
  serverAddress : string;
  port : Z;
  rosebudFlag : bool;
}.

(** [fmt.Sprintf("https://%s:%d%s", serverAddress, port, request)] *)
Definition requestURL (f : Flags) (request : string) : string :=
  "https://" ++ serverAddress f ++ ":" ++ pretty (port f) ++ request.

(** What a run of a command leaves: what [RunE] returned, what was
    printed, the clipboard manager of the client, and the requests that
    were handed to the network. *)
Record Outcome : Type := mkOutcome {
  returned : clipboard.completion (option error);
  printed : string;
  manager_ : clipboard.manager;
  requests : list http.Request;
}.

(** [filepath.Join] on clean elements; empty elements are left out. *)
Definition Join (elems : list string) : string :=
  os.Join (List.filter (fun e => negb (String.eqb e "")) elems).

Section WithLib.
Context {L : SSHLib}.

(** The data of [copyCmd]: the argument when there is one, the standard
    input otherwise. *)
Definition dataToCopy (args : list string) (stdin : http.ReadCloser) : bytes + error :=
  match args with
  | [arg] => inl (bytes_of_string arg)
  | _ =>
    match http.ReadAll stdin with
    | (_, Some err) => inr err
    | (b, None) => inl b
    end
  end.

(** [RunE] of [copyCmd].  [stdin] is the standard input; [p], [sys] and
    [tie] say how the clipboard of the client behaves, [m] is its manager
    before the command. *)
Definition copy_RunE (env : Env) (rnd : Entropy) (net : Network)
    (p : clipboard.Platform) (sys : clipboard.response (option error)) (tie : bool)
    (f : Flags) (args : list string) (stdin : http.ReadCloser) (m : clipboard.manager)
  : Outcome :=
  match dataToCopy args stdin with
  | inr err =>
    mkOutcome (clipboard.Returns (Some ("failed to read from stdin: " ++ err))) "" m []
  | inl data =>
    if (Z.of_nat (length data) >? maxClipboardSize) && negb (rosebudFlag f) then
      mkOutcome
        (clipboard.Returns
           (Some ("data too large: " ++ pretty (Z.of_nat (length data))
                  ++ " bytes (max " ++ pretty maxClipboardSize
                  ++ " bytes, use --rosebud to bypass)")))
        "" m []
    else
      let url := requestURL f util.RequestCopy in
      match doHTTPSRequest env rnd net "POST" url (string_of_bytes data) with
      | (inl _, sent) => mkOutcome (clipboard.Returns None) "" m sent
      | (inr _, sent) =>
        (* [clipboard.Init()] returns nil on every platform *)
        let m := clipboard.mkManager (clipboard.Init p (clipboard.state m))
                   (clipboard.healthChecks m) in
        match clipboard.Copy sys tie data m with
        | (clipboard.Returns (Some err), m') =>
          mkOutcome
            (clipboard.Returns
               (Some ("server unreachable and failed to write to local clipboard: "
                      ++ err)))
            "" m' sent
        | (clipboard.Returns None, m') => mkOutcome (clipboard.Returns None) "" m' sent
        | (clipboard.NeverReturns, m') => mkOutcome clipboard.NeverReturns "" m' sent
        end
      end
  end.

(** [RunE] of [pasteCmd], in the version that falls back to the clipboard
    of the client. *)
Definition paste_RunE (env : Env) (rnd : Entropy) (net : Network)
    (p : clipboard.Platform) (sys : clipboard.response (bytes * option error))
    (tie : bool) (f : Flags) (m : clipboard.manager) : Outcome :=
  let url := requestURL f util.RequestPaste in
  match doHTTPSRequest env rnd net "GET" url "" with
  | (inl pastedText, sent) => mkOutcome (clipboard.Returns None) pastedText m sent
  | (inr _, sent) =>
    let m := clipboard.mkManager (clipboard.Init p (clipboard.state m))
               (clipboard.healthChecks m) in
    match clipboard.Paste sys tie m with
    | (clipboard.Returns (_, Some err), m') =>
      mkOutcome
        (clipboard.Returns
           (Some ("server unreachable and failed to read from local clipboard: "
                  ++ err)))
        "" m' sent
    | (clipboard.Returns (data, None), m') =>
      mkOutcome (clipboard.Returns None) (string_of_bytes data) m' sent
    | (clipboard.NeverReturns, m') => mkOutcome clipboard.NeverReturns "" m' sent
    end
  end.

(** [RunE] of [addKeyCmd].  [TrimSpace] is [strings.TrimSpace];
    [MkdirAll] and [WriteString_err] say whether the directory can be made
    and whether the write fails (a failed write is taken to write
    nothing).  The result is the error returned and the file system. *)
Definition addKey_RunE (TrimSpace : string -> string) (home : option string)
    (MkdirAll : string -> option error) (WriteString_err : option error)
    (fs : os.FileSystem) (args : list string) (stdin : http.ReadCloser)
  : option error * os.FileSystem :=
  match (match args with
         | [arg] => inl arg
         | _ =>
           match http.ReadAll stdin with
           | (_, Some err) => inr err
           | (b, None) => inl (string_of_bytes b)
           end
         end) with
  | inr err => (Some ("failed to read public key from stdin: " ++ err), fs)
  | inl keyToAdd =>
    let keyToAdd := TrimSpace keyToAdd in
    match server.ParseAuthorizedKey (bytes_of_string keyToAdd) with
    | inr _ => (Some "invalid public key provided", fs)
    | inl _ =>
      let home := default "" home in
      let configDir := Join [home; ".config"; util.ProgramName] in
      match MkdirAll configDir with
      | Some err => (Some ("could not create config directory: " ++ err), fs)
      | None =>
        let authKeysPath := Join [configDir; "authorized_keys"] in
        match fs !! authKeysPath with
        | Some os.Dir => (Some "could not open authorized_keys file", fs)
        | opened =>
          let old := match opened with Some (os.File content) => content | _ => [] end in
          match WriteString_err with
          | Some err =>
            (Some ("failed to write to authorized_keys file: " ++ err),
             <[authKeysPath := os.File old]> fs)
          | None =>
            let line := bytes_of_string (keyToAdd ++ String (Ascii.ascii_of_nat 10) "") in
            (None, <[authKeysPath := os.File (old ++ line)%list]> fs)
          end
        end
      end
    end
  end.
End WithLib.
End commands_run.

(** ** [util.GenerateSSHKeys] and the [key-gen] command

    [crypto/ed25519], [crypto/x509], [encoding/pem] and the key functions
    of [golang.org/x/crypto/ssh] are library code. *)
Class KeyGenLib {L : SSHLib} : Type := {
  EdPublic : Type;
  EdPrivate : Type;
  ed25519_GenerateKey : Entropy -> option (EdPublic * EdPrivate);
  x509_MarshalPKCS8PrivateKey : EdPrivate -> option bytes;
  (** [pem.EncodeToMemory] of a block with the given type and bytes *)
  pem_EncodeToMemory : string -> bytes -> bytes;
  ssh_NewPublicKey : EdPublic -> option PublicKey;
  ssh_MarshalAuthorizedKey : PublicKey -> bytes;
}.

Module keygen.
Section WithLibs.
Context {L : SSHLib} {G : KeyGenLib}.

(** What the operating system adds to the file system: whether
    [os.MkdirAll] fails at a path, and whether [os.WriteFile] fails at a
    path for a reason other than a directory standing there. *)
Record Host : Type := mkHost {
  MkdirAll : string -> option error;
  WriteFile_err : string -> option error;
}.

(** [os.WriteFile(path, data, perm)]; a failed write is taken to write
    nothing. *)
Definition WriteFile (h : Host) (fs : os.FileSystem) (path : string) (data : bytes)
  : os.FileSystem + error :=
  match fs !! path with
  | Some os.Dir => inr "is a directory"
  | _ =>
    match WriteFile_err h path with
    | Some err => inr err
    | None => inl (<[path := os.File data]> fs)
    end
  end.

(** [GenerateSSHKeys(keyDir)]: the error returned and the file system. *)
Definition GenerateSSHKeys (h : Host) (rnd : Entropy) (fs : os.FileSystem)
    (keyDir : string) : option error * os.FileSystem :=
  match MkdirAll h keyDir with
  | Some err => (Some ("cannot create keys directory " ++ keyDir ++ ": " ++ err), fs)
  | None =>
    match ed25519_GenerateKey rnd with
    | None => (Some "cannot generate ed25519 key", fs)
    | Some (pubKey, privKey) =>
      match x509_MarshalPKCS8PrivateKey privKey with
      | None => (Some "could not marshal private key", fs)
      | Some pkcs8Key =>
        let privatePEM := pem_EncodeToMemory "OPENSSH PRIVATE KEY" pkcs8Key in
        match WriteFile h fs (commands_run.Join [keyDir; "id_ed25519"]) privatePEM with
        | inr err => (Some ("unable to save private key: " ++ err), fs)
        | inl fs =>
          match ssh_NewPublicKey pubKey with
          | None => (Some "unable to generate public key", fs)
          | Some publicKey =>
            let pubKeyBytes := ssh_MarshalAuthorizedKey publicKey in
            match WriteFile h fs (commands_run.Join [keyDir; "id_ed25519.pub"])
                    pubKeyBytes with
            | inr err => (Some ("unable to save public key: " ++ err), fs)
            | inl fs => (None, fs)
            end
          end
        end
      end
    end
  end.

(** [RunE] of [genkeyCmd]; what it prints is left out. *)
Definition genkey_RunE (h : Host) (rnd : Entropy) (home : option string)
    (fs : os.FileSystem) : option error * os.FileSystem :=
  let home := default "" home in
  let keyDir := commands_run.Join [home; ".config"; util.ProgramName] in
  let keyPath := commands_run.Join [keyDir; "id_ed25519"] in
  match os.Stat fs keyPath with
  | None => (Some (util.ProgramName ++ " key already exists at " ++ keyPath), fs)
  | Some _ =>
    match GenerateSSHKeys h rnd fs keyDir with
    | (Some err, fs') => (Some ("failed to generate keys: " ++ err), fs')
    | (None, fs') => (None, fs')
    end
  end.
End WithLibs.
End keygen.

(** ** Auxiliary definitions for the statements *)

(** The facts about [encoding/base64] and [ssh.Marshal] that a request
  built by the client relies on: decoding undoes encoding, and neither a
  fingerprint nor an encoded signature is the empty string. *)
Class CodecLaws (L : SSHLib) : Prop := {
DecodeString_EncodeToString : forall b : bytes, DecodeString (EncodeToString b) = Some b;
Unmarshal_Marshal : forall s : Signature, Unmarshal (Marshal s) = Some s;
EncodeToString_Marshal_nonempty : forall s : Signature, EncodeToString (Marshal s) <> "";
FingerprintSHA256_nonempty : forall k : PublicKey, FingerprintSHA256 k <> "";
}.

(** The signature scheme, idealised: a signature verifies under the key
  that made it, for the data it was made over and for no other data. *)
Class SignatureLaws (L : SSHLib) : Prop := {
Verify_Sign : forall (K : Signer) (rnd : Entropy) (h : bytes) (sig : Signature),
  Signer_Sign K rnd h = Some sig ->
  PublicKey_Verify (Signer_PublicKey K) h sig = true;
Verify_only_signed : forall (K : Signer) (rnd : Entropy) (h h' : bytes) (sig : Signature),
  Signer_Sign K rnd h = Some sig ->
  PublicKey_Verify (Signer_PublicKey K) h' sig = true ->
  h' = h;
}.

Module aux.
Section WithLib.
Context {L : SSHLib}.

(** A request with its body replaced. *)
Definition withBody (r : http.Request) (b : bytes) : http.Request :=
  http.mkRequest (http.Method r) (http.URL r) (http.Hdr r) (http.NopCloser_NewBuffer b).

(** The lines of an authorized-keys file, cut as [ParseAuthorizedKey]
    cuts them; [line] is the current line, last byte first. *)
Fixpoint lines_from (line input : bytes) : list bytes :=
  match input with
  | [] =>
    match line with
    | [] => []
    | _ => [rev line]
    end
  | b :: rest =>
    if Byte.eqb b Byte.x0a then rev line :: lines_from [] rest
    else lines_from (b :: line) rest
  end.

Definition lines (input : bytes) : list bytes := lines_from [] input.

(** The store that holds the keys of a list of lines: every line that
    parses is entered under its fingerprint, in order. *)
Definition enter (m : gmap string PublicKey) (pubKey : PublicKey)
  : gmap string PublicKey :=
  <[FingerprintSHA256 pubKey := pubKey]> m.

Definition storeOf (ls : list bytes) : gmap string PublicKey :=
  fold_left enter (omap parseKeyLine ls) ∅.

(** A file made of the given lines, each ended by a newline. *)
Definition joinLines (ls : list bytes) : bytes :=
  concat (map (fun l => (l ++ [Byte.x0a])%list) ls).

(** The files [findPrivateKey] looks for under a home directory, in the
    order it looks for them. *)
Definition searchPath (home : string) : list string :=
  os.Join [home; ".config"; util.ProgramName; "id_ed25519"] ::
  map (fun keyFile => os.Join [os.Join [home; ".ssh"]; keyFile]) commands.defaultKeys.

(** Reading and parsing the one file that was chosen. *)
Definition readAndParse (env : commands.Env) (pathToKey : string) : Signer + error :=
  match os.ReadFile (commands.fs env) pathToKey with
  | inr _ => inr ("could not read private key at " ++ pathToKey)
  | inl privateKeyBytes =>
    match ParsePrivateKey privateKeyBytes with
    | None => inr "could not parse private key"
    | Some signer => inl signer
    end
  end.

(** The argument lists are there whenever the tools are said to be. *)
Definition argsPresent (g : clipboard_cli.Globals) : Prop :=
  clipboard_cli.CLIClipboardAvailable g = true ->
  clipboard_cli.pasteCmdArgs g <> [] /\ clipboard_cli.copyCmdArgs g <> [].

(** The invariant of the package variable [state], nil or not. *)
Definition stateConsistent (state : option clipboard.clipboardState) : Prop :=
  match state with
  | Some st => clipboard.consistent st
  | None => True
  end.

(** At most one recovery task polls or is about to be started, and when
    there is one the manager is on the fallback. *)
Definition recoveryInvariant (c : clipboard.config) : Prop :=
  (clipboard.pollingTasks c + clipboard.pendingSpawns c <= 1)%nat
  /\ ((1 <= clipboard.pollingTasks c + clipboard.pendingSpawns c)%nat ->
      exists st, clipboard.shared c = Some st /\ clipboard.usingFallback st = true).

(** The manager of the one-call-at-a-time view as a configuration with no
    goroutine inside [Copy] or [Paste]. *)
Definition solo (m : clipboard.manager) : clipboard.config :=
  clipboard.mkConfig (clipboard.state m) (clipboard.healthChecks m) 0 0 [].

(** The same with one goroutine that has returned [res] from call [cl]. *)
Definition soloDone (m : clipboard.manager) (cl : clipboard.call)
    (res : clipboard.result) : clipboard.config :=
  clipboard.mkConfig (clipboard.state m) (clipboard.healthChecks m) 0 0
    [(cl, clipboard.Finished res)].
End WithLib.
End aux.

(** A small instance of the library interface, for concrete runs: a key
  is one byte, a signature is the key with the data it signs. *)
Module toy.
Definition fingerprint (k : Byte.byte) : string := "SHA256:" ++ string_of_bytes [k].

Definition sign (k : Byte.byte) (_ : unit) (h : bytes) : option (Byte.byte * bytes) :=
  Some (k, h).

Definition verify (k : Byte.byte) (h : bytes) (sig : Byte.byte * bytes) : bool :=
  bool_decide (sig = (k, h)).

Definition marshal (sig : Byte.byte * bytes) : bytes := fst sig :: snd sig.

Definition unmarshal (b : bytes) : option (Byte.byte * bytes) :=
  match b with
  | [] => None
  | k :: h => Some (k, h)
  end.

Definition encode (b : bytes) : string := "=" ++ string_of_bytes b.

Definition decode (s : string) : option bytes :=
  match s with
  | String c s' => if Ascii.eqb c (Ascii.ascii_of_nat 61) then Some (bytes_of_string s') else None
  | EmptyString => None
  end.

(** A private key file holds the letter K and the key byte. *)
Definition parsePrivateKey (b : bytes) : option Byte.byte :=
  match b with
  | [c; k] => if Byte.eqb c Byte.x4b then Some k else None
  | _ => None
  end.

(** A line of an authorized-keys file holds the letter k and the key
    byte. *)
Definition parseLine (b : bytes) : option Byte.byte :=
  match b with
  | [c; k] => if Byte.eqb c Byte.x6b then Some k else None
  | _ => None
  end.

Definition lib : SSHLib := {|
  PublicKey := Byte.byte;
  Signer := Byte.byte;
  Signature := Byte.byte * bytes;
  Entropy := unit;
  Sum256 := fun b => b;
  FingerprintSHA256 := fingerprint;
  Signer_PublicKey := fun k => k;
  Signer_Sign := sign;
  PublicKey_Verify := verify;
  Marshal := marshal;
  Unmarshal := unmarshal;
  EncodeToString := encode;
  DecodeString := decode;
  ParsePrivateKey := parsePrivateKey;
  parseKeyLine := parseLine;
|}.

(** *** Concrete inputs *)

Definition home : string := "/home/u".

(** A client whose program-specific key file holds key 7, and a network
    that refuses the connection. *)
Definition env : commands.Env :=
  commands.mkEnv (Some home)
    {[ "/home/u/.config/pb/id_ed25519" := os.File [Byte.x4b; Byte.x07] ]} "".

Definition net : commands.Network :=
  commands.mkNetwork (fun _ _ => None) (fun _ => inr "connection refused").

(** A client whose program-specific key file does not parse while its
    [~/.ssh/id_ed25519] holds key 7. *)
Definition env_unparseable_first : commands.Env :=
  commands.mkEnv (Some home)
    {[ "/home/u/.config/pb/id_ed25519" := os.File [Byte.x00];
       "/home/u/.ssh/id_ed25519" := os.File [Byte.x4b; Byte.x07] ]} "".

(** A client with an explicit key path and one without any key. *)
Definition env_explicit : commands.Env :=
  commands.mkEnv (Some home)
    {[ "/tmp/key" := os.File [Byte.x4b; Byte.x09];
       "/home/u/.ssh/id_rsa" := os.File [Byte.x4b; Byte.x07] ]} "/tmp/key".

Definition env_no_key : commands.Env := commands.mkEnv (Some home) ∅ "".

(** The TrustStore that holds key 7. *)
Definition store : gmap string Byte.byte := {[ fingerprint Byte.x07 := Byte.x07 ]}.

(** The request the client sends for payload [data], signed by [signer]. *)
Definition request (signer : Byte.byte) (data : string) : http.Request :=
  http.mkRequest "POST" "https://localhost:2850/copy"
    (http.Header_Set
       (http.Header_Set ∅ util.HeaderFingerprint (fingerprint Byte.x07))
       util.HeaderSignature (encode (marshal (signer, bytes_of_string data))))
    (http.NopCloser_NewBuffer (bytes_of_string data)).

(** Requests the gate turns away: without headers, from an unknown key,
    with a signature header that is not base64. *)
Definition request_bare : http.Request :=
  http.mkRequest "GET" "https://localhost:2850/paste" ∅ (http.NopCloser_NewBuffer []).

Definition request_unknown : http.Request :=
  http.mkRequest "GET" "https://localhost:2850/paste"
    (http.Header_Set (http.Header_Set ∅ util.HeaderFingerprint (fingerprint Byte.x08))
       util.HeaderSignature (encode (marshal (Byte.x08, []))))
    (http.NopCloser_NewBuffer []).

Definition request_garbled : http.Request :=
  http.mkRequest "GET" "https://localhost:2850/paste"
    (http.Header_Set (http.Header_Set ∅ util.HeaderFingerprint (fingerprint Byte.x07))
       util.HeaderSignature "not base64")
    (http.NopCloser_NewBuffer []).

(** A handler that answers 200 with the body it reads. *)
Definition echo : http.Handler :=
  fun r w => http.Write w (string_of_bytes (fst (http.ReadAll (http.Body r)))).

(** An authorized-keys file with the keys 1 and 2 and a line of garbage
    between them. *)
Definition keyLines : list bytes :=
  [[Byte.x6b; Byte.x01]; bytes_of_string "garbage"; [Byte.x6b; Byte.x02]].

Definition fs_keys : gmap string os.node :=
  {[ "/home/u/.config/pb/authorized_keys" :=
       os.File (concat (map (fun l => (l ++ [Byte.x0a])%list) keyLines)) ]}.

(** A host on which only [xclip] is installed, and commands that succeed
    and print nothing. *)
Definition host_xclip : clipboard_cli.Host :=
  clipboard_cli.mkHost (fun _ => "") (fun cmd => String.eqb cmd "xclip").

Definition exec_ok (name : string) (args : list string) : clipboard_cli.Cmd :=
  clipboard_cli.mkCmd (inl []) None None (fun _ => None) None None.

(** A desktop on which the native clipboard initialises. *)
Definition desktop : clipboard.Platform := clipboard.mkPlatform false true false.

(** The manager after [Init] on that desktop. *)
Definition manager_system : clipboard.manager :=
  clipboard.mkManager
    (Some (clipboard.mkState (Some clipboard.System) (clipboard.mkInMemory []) false)) 0.

(** The manager switched to the in-memory clipboard by hand. *)
Definition manager_fallback : clipboard.manager :=
  clipboard.mkManager
    (Some (clipboard.mkState (Some clipboard.InMemory) (clipboard.mkInMemory []) true)) 0.

(** One failure episode: a [Copy] times out, the recovery task is started,
    its first probe fails and its second probe succeeds. *)
Definition trace_episode : list clipboard.label :=
  [clipboard.LInit;
   clipboard.LCall (clipboard.CallCopy [Byte.x41]);
   clipboard.LGetActive 0; clipboard.LIsUsingFallback 0;
   clipboard.LRace 0 clipboard.Hangs false;
   clipboard.LLock 0; clipboard.LSpawn 0; clipboard.LRetry 0;
   clipboard.LTick; clipboard.LProbe clipboard.Hangs false;
   clipboard.LTick; clipboard.LProbe (clipboard.Responds 1000 tt) false].

(** The same failure, then [UseCliClipboard] while the recovery task
    polls, then a second failure. *)
Definition trace_cli_override : list clipboard.label :=
  [clipboard.LInit;
   clipboard.LCall (clipboard.CallCopy [Byte.x41]);
   clipboard.LGetActive 0; clipboard.LIsUsingFallback 0;
   clipboard.LRace 0 clipboard.Hangs false;
   clipboard.LLock 0; clipboard.LSpawn 0; clipboard.LRetry 0;
   clipboard.LUseCliClipboard;
   clipboard.LCall clipboard.CallPaste;
   clipboard.LGetActive 1; clipboard.LIsUsingFallback 1;
   clipboard.LRace 1 clipboard.Hangs false;
   clipboard.LLock 1; clipboard.LSpawn 1; clipboard.LRetry 1].
End toy.

(** ** Further definitions for the statements about the manager *)
Module aux_clipboard.
Import clipboard.

(** The byte sequences of the [Copy] calls that goroutines have entered. *)
Definition copied (c : config) : list bytes :=
  omap (fun t : call * pc =>
          match fst t with
          | CallCopy d => Some d
          | CallPaste => None
          end) (threads c).

(** What the in-memory clipboard holds was given to some [Copy], unless it
    was never written. *)
Definition storedWasCopied (c : config) : Prop :=
  forall st, shared c = Some st ->
    data (fallback st) = [] \/ data (fallback st) ∈ copied c.

(** Only the goroutines inside [Copy] and [Paste] move: no [Init] and no
    manual switch. *)
Definition callsOnly (l : label) (c : config) : bool :=
  match l with
  | LInit | LUseInMemoryClipboard | LUseCliClipboard => false
  | _ => true
  end.

(** A manager that is on the fallback, which holds [d0]; no goroutine is
    inside a call and no recovery task runs. *)
Definition onFallback (d0 : bytes) : config :=
  mkConfig (Some (mkState (Some InMemory) (mkInMemory d0) true)) 0 0 0 [].

(** Where a goroutine can be while the manager stays on the fallback, and
    what it has returned. *)
Definition servedByFallback (t : call * pc) : Prop :=
  match t with
  | (_, AtStart) => True
  | (_, GotActive InMemory) => True
  | (_, Direct InMemory) => True
  | (CallCopy _, Finished res) => res = ([], None)
  | (CallPaste, Finished res) => snd res = None
  | _ => False
  end.

Definition fallbackOnly (c : config) : Prop :=
  exists st,
    shared c = Some st /\ active st = Some InMemory /\ usingFallback st = true
    /\ waiting c = 0%nat /\ probing c = 0%nat /\ leaving c = 0%nat
    /\ Forall servedByFallback (threads c)
    /\ ((exists d res, (CallCopy d, Finished res) ∈ threads c) ->
        data (fallback st) ∈ copied c).
End aux_clipboard.

(** ** Further definitions for the statements about the tools *)
Module aux_cli.
Import clipboard_cli.

(** Some complete set of tools is installed. *)
Definition toolFound (h : Host) : bool :=
  (negb (String.eqb (Getenv h "WAYLAND_DISPLAY") "")
   && (hasCommand h cliWlcopy && hasCommand h cliWlpaste))
  || hasCommand h cliXclip
  || hasCommand h cliXsel
  || (hasCommand h cliTermuxClipboardSet && hasCommand h cliTermuxClipboardGet).
End aux_cli.

(** ** Further definitions for the statements about line endings *)
Module aux_lineendings.
Import lineendings.

(** One pass over the text: a carriage return with the line feed after it,
    and a carriage return on its own, each become one line feed. *)
Fixpoint toLF (s : string) : string :=
  match s with
  | EmptyString => EmptyString
  | String c s' =>
    if Ascii.eqb c CR then
      String LF
        match s' with
        | String d s'' => if Ascii.eqb d LF then toLF s'' else toLF s'
        | EmptyString => EmptyString
        end
    else String c (toLF s')
  end.

(** The text holds a carriage return. *)
Fixpoint hasCR (s : string) : bool :=
  match s with
  | EmptyString => false
  | String c s' => Ascii.eqb c CR || hasCR s'
  end.

(** The number of line ends of a text in which lines end in CR LF, CR or
    LF. *)
Fixpoint lineEnds (s : string) : nat :=
  match s with
  | EmptyString => 0
  | String c s' =>
    if Ascii.eqb c CR then
      S match s' with
        | String d s'' => if Ascii.eqb d LF then lineEnds s'' else lineEnds s'
        | EmptyString => 0
        end
    else if Ascii.eqb c LF then S (lineEnds s')
    else lineEnds s'
  end.
End aux_lineendings.

(** ** The client and the server put together *)
Module aux_server.
Import server_clipboard server_handlers.
Section WithLibs.
Context {L : SSHLib} {H : HostLib}.
Variable URL_Path : string -> string.
Variable unmatched : http.Handler.

(** What the server sends back for a request that reaches it in [world],
    and the world after; a handler that returns without setting a status
    sends 200. *)
Definition serve (ks : gmap string PublicKey) (world : World) (req : http.Request)
  : commands.Response * World :=
  let '(w, world') := Serve_Handler URL_Path unmatched ks req http.emptyResponse world in
  (commands.mkResponse (default http.StatusOK (http.status w))
     (http.NopCloser_NewBuffer (bytes_of_string (http.written w))),
   world').

(** A network that delivers a request to that server as it was sent, and
    the answer back. *)
Definition networkTo (ks : gmap string PublicKey) (world : World) : commands.Network :=
  commands.mkNetwork (fun _ _ => None) (fun req => inl (fst (serve ks world req))).

(** The request [doHTTPSRequest] builds for a signature [sig] of [K]. *)
Definition signedRequest (K : Signer) (sig : Signature) (method url data : string)
  : http.Request :=
  http.mkRequest method url
    (http.Header_Set
       (http.Header_Set ∅ util.HeaderFingerprint (FingerprintSHA256 (Signer_PublicKey K)))
       util.HeaderSignature (EncodeToString (Marshal sig)))
    (http.NopCloser_NewBuffer (bytes_of_string data)).

(** What a [Paste] of the server returns after a [Copy] of [b]. *)
Definition pastedAfterCopy (b : bytes) (world : World) : bytes :=
  fst (PasteFromClipboard (snd (CopyToClipboard b world))).
End WithLibs.
End aux_server.

(** ** Further definitions for the statements about the key files *)
Module aux_keys.
(** The file at [path] is absent, is empty, or ends in a newline. *)
Definition endsInNewline (fs : os.FileSystem) (path : string) : Prop :=
  fs !! path = None
  \/ fs !! path = Some (os.File [])
  \/ exists old, fs !! path = Some (os.File (old ++ [Byte.x0a])%list).
End aux_keys.

(** ** Further concrete inputs *)
Module toy_more.
(** Two goroutines call [Copy] while the manager is on the fallback; the
    second call is served first. *)
Definition trace_two_copies : list clipboard.label :=
  [clipboard.LCall (clipboard.CallCopy [Byte.x41]);
   clipboard.LCall (clipboard.CallCopy [Byte.x42]);
   clipboard.LGetActive 0; clipboard.LGetActive 1;
   clipboard.LIsUsingFallback 1; clipboard.LIsUsingFallback 0;
   clipboard.LDirect 1 (clipboard.Responds 0 ([], None));
   clipboard.LDirect 0 (clipboard.Responds 0 ([], None))].

(** A [Paste] reads the system clipboard as the active backend; before it
    asks [isUsingFallback], a [Copy] of another goroutine times out and
    switches the manager to the fallback. *)
Definition trace_stale_backend : list clipboard.label :=
  [clipboard.LInit;
   clipboard.LCall clipboard.CallPaste;
   clipboard.LGetActive 0;
   clipboard.LCall (clipboard.CallCopy [Byte.x41]);
   clipboard.LGetActive 1; clipboard.LIsUsingFallback 1;
   clipboard.LRace 1 clipboard.Hangs false;
   clipboard.LLock 1].

(** A network whose server answers every request with 200 and a body. *)
Definition net_ok : commands.Network :=
  commands.mkNetwork (fun _ _ => None)
    (fun _ => inl (commands.mkResponse 200
                     (http.NopCloser_NewBuffer (bytes_of_string "pasted")))).

(** A client whose program-specific key file holds key 1, the first key of
    [toy.fs_keys]. *)
Definition env_key1 : commands.Env :=
  commands.mkEnv (Some toy.home)
    {[ "/home/u/.config/pb/id_ed25519" := os.File [Byte.x4b; Byte.x01] ]} "".

(** A host whose system clipboard holds the bytes last written, and on
    which every URL opens. *)
Definition host : HostLib := {|
  SystemClipboard := bytes;
  clipboard_Write := fun d _ => d;
  clipboard_Read := fun c => c;
  open_Run := fun _ => None;
|}.

(** The path of a URL: what follows the host and the port. *)
Definition pathOf (url : string) : string :=
  match String.index 8 "/" url with
  | Some n => String.substring n (String.length url - n) url
  | None => ""
  end.

Definition notFound : http.Handler :=
  fun _ w => http.Error w "404 page not found" 404.

(** The flags as they are by default. *)
Definition flags : commands_run.Flags := commands_run.mkFlags "localhost" 2850 false.

(** A server that was started with [--fallback]. *)
Definition world_fallback : server_clipboard.World (H := host) :=
  server_clipboard.mkWorld (H := host) (Some (server_clipboard.inMemoryClipboard []))
    [] [] false.

(** A line of an authorized-keys file that holds key 3. *)
Definition key3_line : string := string_of_bytes [Byte.x6b; Byte.x03].

(** Key generation in the small instance: the key pair is the byte 5
    twice, a private key file holds the letter K and the key byte, a
    public key line the letter k and the key byte. *)
Definition keygen_lib : KeyGenLib (L := toy.lib) := {|
  EdPublic := Byte.byte;
  EdPrivate := Byte.byte;
  ed25519_GenerateKey := fun _ => Some (Byte.x05, Byte.x05);
  x509_MarshalPKCS8PrivateKey := fun k => Some [k];
  pem_EncodeToMemory := fun _ b => Byte.x4b :: b;
  ssh_NewPublicKey := fun k : Byte.byte => @Some (@PublicKey toy.lib) k;
  ssh_MarshalAuthorizedKey := fun k : @PublicKey toy.lib => [Byte.x6b; k; Byte.x0a];
|}.

(** The same with a library that cannot make the public key. *)
Definition keygen_lib_failing : KeyGenLib (L := toy.lib) := {|
  EdPublic := Byte.byte;
  EdPrivate := Byte.byte;
  ed25519_GenerateKey := fun _ => Some (Byte.x05, Byte.x05);
  x509_MarshalPKCS8PrivateKey := fun k => Some [k];
  pem_EncodeToMemory := fun _ b => Byte.x4b :: b;
  ssh_NewPublicKey := fun _ : Byte.byte => @None (@PublicKey toy.lib);
  ssh_MarshalAuthorizedKey := fun k : @PublicKey toy.lib => [Byte.x6b; k; Byte.x0a];
|}.

(** An operating system on which every directory can be made and every
    file written. *)
Definition keygen_host : keygen.Host := keygen.mkHost (fun _ => None) (fun _ => None).

(** A home directory with a default SSH key and no key of the program. *)
Definition fs_ssh_key : gmap string os.node :=
  {[ "/home/u/.ssh/id_rsa" := os.File [Byte.x4b; Byte.x07] ]}.
End toy_more.

(** * Theorems *)

(** ** The authentication gate *)
Module server_proofs.
Import server aux.

Section Gate.
Context {L : SSHLib}.
Implicit Types (next : http.Handler) (ks : gmap string PublicKey)
               (r : http.Request) (w : http.ResponseWriter).

Lemma eqb_empty_false (s : string) : s <> "" -> String.eqb s "" = false.
Proof. intros H. apply String.eqb_neq. exact H. Qed.

(** [http.Error] on a writer that has sent nothing sends the status. *)
Lemma Error_status (msg : string) (code : Z) :
  http.status (http.Error http.emptyResponse msg code) = Some code.
Proof. reflexivity. Qed.

(** The gate with both headers present and the key known. *)
Lemma authMiddleware_known next ks r w (pubKey : PublicKey) :
  http.Header_Get (http.Hdr r) util.HeaderFingerprint <> "" ->
  http.Header_Get (http.Hdr r) util.HeaderSignature <> "" ->
  ks !! http.Header_Get (http.Hdr r) util.HeaderFingerprint = Some pubKey ->
  authMiddleware next ks r w =
    match http.ReadAll (http.Body r) with
    | (_, Some _) =>
      http.Error w "Failed to read request body" http.StatusInternalServerError
    | (body, None) =>
      match DecodeString (http.Header_Get (http.Hdr r) util.HeaderSignature) with
      | None => http.Error w "Invalid signature encoding" http.StatusBadRequest
      | Some signatureBytes =>
        match Unmarshal signatureBytes with
        | None => http.Error w "Invalid SSH signature format" http.StatusBadRequest
        | Some sshSig =>
          if PublicKey_Verify pubKey (Sum256 body) sshSig then next (withBody r body) w
          else http.Error w "Signature verification failed" http.StatusUnauthorized
        end
      end
    end.
Proof.
  intros Hf Hs Hk. unfold authMiddleware.
  rewrite (eqb_empty_false _ Hf), (eqb_empty_false _ Hs). simpl.
  rewrite Hk. reflexivity.
Qed.

(** C3.  The gate rejects, without calling the wrapped handler (the
    response is the same whatever [next] is):
    - with 401 when the fingerprint header or the signature header is
      absent;
    - with 401 when the fingerprint is not in the TrustStore, whatever the
      signature is, the message being "Unknown public key" when both
      headers are there;
    - with 400 when the signature header does not decode as base64 or the
      decoded bytes do not unmarshal as an SSH signature;
    - with 401 when the signature does not verify over the digest of the
      body.
    The last two cases are reached with both headers present, a known
    fingerprint and a body that could be read. *)
Theorem authMiddleware_rejections ks r :
  let keyFingerprint := http.Header_Get (http.Hdr r) util.HeaderFingerprint in
  let signatureB64 := http.Header_Get (http.Hdr r) util.HeaderSignature in
  (keyFingerprint = "" \/ signatureB64 = "" ->
     forall next w, authMiddleware next ks r w =
       http.Error w "Missing authentication headers" 401)
  /\ (ks !! keyFingerprint = None ->
      exists msg, (forall next w, authMiddleware next ks r w = http.Error w msg 401)
        /\ (keyFingerprint <> "" -> signatureB64 <> "" -> msg = "Unknown public key"))
  /\ (forall pubKey body,
      keyFingerprint <> "" -> signatureB64 <> "" ->
      ks !! keyFingerprint = Some pubKey ->
      http.ReadAll (http.Body r) = (body, None) ->
      (DecodeString signatureB64 = None
       \/ exists signatureBytes, DecodeString signatureB64 = Some signatureBytes
            /\ Unmarshal signatureBytes = None) ->
      exists msg, forall next w, authMiddleware next ks r w = http.Error w msg 400)
  /\ (forall pubKey body signatureBytes sshSig,
      keyFingerprint <> "" -> signatureB64 <> "" ->
      ks !! keyFingerprint = Some pubKey ->
      http.ReadAll (http.Body r) = (body, None) ->
      DecodeString signatureB64 = Some signatureBytes ->
      Unmarshal signatureBytes = Some sshSig ->
      PublicKey_Verify pubKey (Sum256 body) sshSig = false ->
      forall next w, authMiddleware next ks r w =
        http.Error w "Signature verification failed" 401).
Proof.
  intros keyFingerprint signatureB64. repeat split.
  - intros Hmissing next w. unfold authMiddleware.
    fold keyFingerprint signatureB64.
    destruct Hmissing as [-> | ->]; simpl; [reflexivity |].
    rewrite orb_true_r. reflexivity.
  - intros Hunknown.
    destruct (String.eqb keyFingerprint "" || String.eqb signatureB64 "") eqn:Hhdr.
    + exists "Missing authentication headers". split.
      * intros next w. unfold authMiddleware. fold keyFingerprint signatureB64.
        rewrite Hhdr. reflexivity.
      * intros Hf Hs. rewrite (eqb_empty_false _ Hf), (eqb_empty_false _ Hs) in Hhdr.
        discriminate.
    + exists "Unknown public key". split; [| reflexivity].
      intros next w. unfold authMiddleware. fold keyFingerprint signatureB64.
      rewrite Hhdr, Hunknown. reflexivity.
  - intros pubKey body Hf Hs Hk Hbody Hbad.
    destruct Hbad as [Hdec | (signatureBytes & Hdec & Hun)].
    + exists "Invalid signature encoding". intros next w.
      rewrite (authMiddleware_known next ks r w pubKey Hf Hs Hk), Hbody.
      fold signatureB64. rewrite Hdec. reflexivity.
    + exists "Invalid SSH signature format". intros next w.
      rewrite (authMiddleware_known next ks r w pubKey Hf Hs Hk), Hbody.
      fold signatureB64. rewrite Hdec, Hun. reflexivity.
  - intros pubKey body signatureBytes sshSig Hf Hs Hk Hbody Hdec Hun Hver next w.
    rewrite (authMiddleware_known next ks r w pubKey Hf Hs Hk), Hbody.
    fold signatureB64. rewrite Hdec, Hun, Hver. reflexivity.
Qed.

End Gate.

(** *** Loading the authorized keys *)
Section Load.
Context {L : SSHLib}.
Local Open Scope list_scope.

Lemma omap_cons_parse (l : bytes) (ls : list bytes) :
  omap parseKeyLine (l :: ls) =
  match parseKeyLine l with
  | Some k => k :: omap parseKeyLine ls
  | None => omap parseKeyLine ls
  end.
Proof. reflexivity. Qed.

(** What [ParseAuthorizedKey] returns, in terms of the lines of its
    input: the key of the first line that holds one, and a rest that
    holds the lines after it. *)
Lemma scan_lines (input : bytes) : forall line : bytes,
  match ParseAuthorizedKey_scan line input with
  | Some (k, rest) =>
    omap parseKeyLine (lines_from line input) = k :: omap parseKeyLine (lines_from [] rest)
    /\ (length rest <= length input)%nat
    /\ (input <> [] -> (length rest < length input)%nat)
  | None => omap parseKeyLine (lines_from line input) = []
  end.
Proof.
  induction input as [| b rest IH]; intros line; simpl.
  - destruct line as [| c line']; [reflexivity |].
    rewrite omap_cons_parse.
    destruct (parseKeyLine (rev (c :: line'))) as [k |]; simpl.
    + split; [reflexivity | split; [lia | congruence]].
    + reflexivity.
  - destruct (Byte.eqb b Byte.x0a).
    + rewrite omap_cons_parse.
      destruct (parseKeyLine (rev line)) as [k |].
      * split; [reflexivity | split; [lia | intros _; lia]].
      * specialize (IH []).
        destruct (ParseAuthorizedKey_scan [] rest) as [[k rest'] |]; [| exact IH].
        destruct IH as (Hk & Hle & _). split; [exact Hk | split; [lia | intros _; lia]].
    + specialize (IH (b :: line)).
      destruct (ParseAuthorizedKey_scan (b :: line) rest) as [[k rest'] |]; [| exact IH].
      destruct IH as (Hk & Hle & _). split; [exact Hk | split; [lia | intros _; lia]].
Qed.

(** The loop ends within its fuel and enters the keys of the lines that
    parse, in order. *)
Lemma loadAuthorizedKeys_loop_lines (fuel : nat) :
  forall (input : bytes) (m : gmap string PublicKey),
  (length input < fuel)%nat ->
  loadAuthorizedKeys_loop fuel input m =
  Some (fold_left enter (omap parseKeyLine (lines input)) m).
Proof.
  induction fuel as [| fuel IH]; intros input m Hfuel; [lia |].
  destruct input as [| b input']; [reflexivity |].
  cbn [loadAuthorizedKeys_loop]. unfold ParseAuthorizedKey, lines.
  pose proof (scan_lines (b :: input') []) as Hscan.
  destruct (ParseAuthorizedKey_scan [] (b :: input')) as [[k rest] |].
  - destruct Hscan as (Hk & _ & Hlt). rewrite Hk. cbn [fold_left].
    apply IH. specialize (Hlt ltac:(discriminate)). lia.
  - rewrite Hscan. cbn [fold_left].
    destruct fuel; reflexivity.
Qed.

(** A file made of newline-free lines is cut back into these lines. *)
Lemma lines_from_app (l rest : bytes) : forall line : bytes,
  Byte.x0a ∉ l ->
  lines_from line (l ++ Byte.x0a :: rest) = rev (rev l ++ line) :: lines_from [] rest.
Proof.
  induction l as [| c l IH]; intros line Hnl; simpl.
  - reflexivity.
  - destruct (Byte.eqb c Byte.x0a) eqn:Hc.
    + apply Byte.byte_dec_bl in Hc. subst c. exfalso. apply Hnl. left.
    + rewrite IH by (intros Hin; apply Hnl; right; exact Hin).
      rewrite <- app_assoc. reflexivity.
Qed.

Lemma lines_joinLines (ls : list bytes) :
  Forall (fun l => Byte.x0a ∉ l) ls -> lines (joinLines ls) = ls.
Proof.
  unfold lines, joinLines. induction 1 as [| l ls Hl _ IH]; [reflexivity |].
  cbn [map concat]. rewrite <- app_assoc. cbn [app].
  rewrite lines_from_app by exact Hl.
  rewrite app_nil_r, rev_involutive, IH. reflexivity.
Qed.

(** Two keys with different fingerprints make a store of two entries,
    in whichever order they are entered. *)
Lemma storeOf_two (k1 k2 : PublicKey) (ks : list PublicKey) :
  FingerprintSHA256 k1 <> FingerprintSHA256 k2 ->
  ks ≡ₚ [k1; k2] ->
  let m := fold_left enter ks ∅ in
  size m = 2%nat
  /\ m !! FingerprintSHA256 k1 = Some k1
  /\ m !! FingerprintSHA256 k2 = Some k2
  /\ (forall fp, is_Some (m !! fp) -> fp = FingerprintSHA256 k1 \/ fp = FingerprintSHA256 k2).
Proof.
  intros Hne Hperm.
  assert (ks = [k1; k2] \/ ks = [k2; k1]) as [-> | ->].
  { apply Permutation_length_2_inv. symmetry. exact Hperm. }
  - cbn [fold_left]. unfold enter. repeat split.
    + rewrite map_size_insert_None.
      * rewrite map_size_insert_None by apply lookup_empty.
        rewrite map_size_empty. reflexivity.
      * rewrite lookup_insert_ne by congruence. apply lookup_empty.
    + rewrite lookup_insert_ne by congruence. apply lookup_insert_eq.
    + apply lookup_insert_eq.
    + intros fp [k Hk]. rewrite lookup_insert in Hk.
      case_decide; [right; congruence |].
      rewrite lookup_insert in Hk. case_decide; [left; congruence |].
      rewrite lookup_empty in Hk. discriminate.
  - cbn [fold_left]. unfold enter. repeat split.
    + rewrite map_size_insert_None.
      * rewrite map_size_insert_None by apply lookup_empty.
        rewrite map_size_empty. reflexivity.
      * rewrite lookup_insert_ne by congruence. apply lookup_empty.
    + apply lookup_insert_eq.
    + rewrite lookup_insert_ne by congruence. apply lookup_insert_eq.
    + intros fp [k Hk]. rewrite lookup_insert in Hk.
      case_decide; [left; congruence |].
      rewrite lookup_insert in Hk. case_decide; [right; congruence |].
      rewrite lookup_empty in Hk. discriminate.
Qed.

Lemma loadAuthorizedKeys_file (fs : os.FileSystem) (path : string) (content : bytes) :
  fs !! path = Some (os.File content) ->
  loadAuthorizedKeys fs path = Loaded (storeOf (lines content)).
Proof.
  intros Hfile. unfold loadAuthorizedKeys, os.ReadFile. rewrite Hfile.
  rewrite loadAuthorizedKeys_loop_lines by lia. reflexivity.
Qed.

Lemma loadAuthorizedKeys_absent (fs : os.FileSystem) (path : string) :
  fs !! path = None -> loadAuthorizedKeys fs path = Loaded ∅.
Proof.
  intros Hnone. unfold loadAuthorizedKeys, os.ReadFile. rewrite Hnone. reflexivity.
Qed.

(** C4.  Loading never fails on the content of the file: whatever the
    bytes are, the result is the store of the lines that parse, each
    line taken by itself and the others passed over.  A file of two
    lines that hold keys (of different fingerprints) and one line that
    holds none, in any order, gives a store of exactly two entries under
    the fingerprints of the two keys.  A file that does not exist gives
    the empty store and no error.  In both cases [Serve] gets past the
    loading of the keys. *)
Theorem loadAuthorizedKeys_total (fs : os.FileSystem) (path : string) :
  (forall content, fs !! path = Some (os.File content) ->
     loadAuthorizedKeys fs path = Loaded (storeOf (lines content)))
  /\ (forall ls l1 l2 g k1 k2,
        fs !! path = Some (os.File (joinLines ls)) ->
        ls ≡ₚ [l1; l2; g] ->
        Forall (fun l => Byte.x0a ∉ l) [l1; l2; g] ->
        parseKeyLine l1 = Some k1 -> parseKeyLine l2 = Some k2 ->
        parseKeyLine g = None ->
        FingerprintSHA256 k1 <> FingerprintSHA256 k2 ->
        exists m, loadAuthorizedKeys fs path = Loaded m
          /\ size m = 2%nat
          /\ m !! FingerprintSHA256 k1 = Some k1
          /\ m !! FingerprintSHA256 k2 = Some k2
          /\ (forall fp, is_Some (m !! fp) ->
                fp = FingerprintSHA256 k1 \/ fp = FingerprintSHA256 k2))
  /\ (fs !! path = None -> loadAuthorizedKeys fs path = Loaded ∅)
  /\ (forall home,
        path = os.Join [home; ".config"; util.ProgramName; "authorized_keys"] ->
        fs !! path <> Some os.Dir ->
        exists store, loadAuthorizedKeys fs path = Loaded store
          /\ Serve_authorizedKeys (Some home) fs = inl store).
Proof.
  split; [| split; [| split]].
  - intros content. apply loadAuthorizedKeys_file.
  - intros ls l1 l2 g k1 k2 Hfile Hperm Hnl Hp1 Hp2 Hpg Hne.
    exists (storeOf (lines (joinLines ls))).
    split; [apply loadAuthorizedKeys_file; exact Hfile |].
    assert (Forall (fun l => Byte.x0a ∉ l) ls) as Hnl'.
    { rewrite Hperm. exact Hnl. }
    rewrite (lines_joinLines ls Hnl'). unfold storeOf.
    apply storeOf_two; [exact Hne |].
    rewrite Hperm. rewrite !omap_cons_parse, Hp1, Hp2, Hpg. reflexivity.
  - apply loadAuthorizedKeys_absent.
  - intros home -> Hnodir. unfold Serve_authorizedKeys.
    destruct (fs !! os.Join [home; ".config"; util.ProgramName; "authorized_keys"])
      as [[content |] |] eqn:Hlook.
    + exists (storeOf (lines content)).
      rewrite (loadAuthorizedKeys_file _ _ _ Hlook). split; reflexivity.
    + congruence.
    + exists ∅. rewrite (loadAuthorizedKeys_absent _ _ Hlook). split; reflexivity.
Qed.
End Load.
End server_proofs.

(** ** A request signed by the client, at the gate of the server *)
Module endtoend_proofs.
Import server commands aux server_proofs.

Section EndToEnd.
Context {L : SSHLib}.

(** The requests [doHTTPSRequest] hands to the network: at most one, with
    the payload as its body and the two authentication headers. *)
Lemma doHTTPSRequest_sent (env : Env) (rnd : Entropy) (net : Network)
    (method url data : string) (K : Signer) (res : string + error)
    (sent : list http.Request) (req : http.Request) :
  getSigner env = inl K ->
  doHTTPSRequest env rnd net method url data = (res, sent) ->
  req ∈ sent ->
  exists sig,
    Signer_Sign K rnd (Sum256 (bytes_of_string data)) = Some sig
    /\ req = http.mkRequest method url
               (http.Header_Set
                  (http.Header_Set ∅ util.HeaderFingerprint
                     (FingerprintSHA256 (Signer_PublicKey K)))
                  util.HeaderSignature (EncodeToString (Marshal sig)))
               (http.NopCloser_NewBuffer (bytes_of_string data)).
Proof.
  intros HK Hdo Hin. unfold doHTTPSRequest in Hdo. rewrite HK in Hdo.
  destruct (Signer_Sign K rnd (Sum256 (bytes_of_string data))) as [sig |];
    [| inversion Hdo; subst; inversion Hin].
  destruct (NewRequest_err net method url);
    [inversion Hdo; subst; inversion Hin |].
  exists sig. split; [reflexivity |]. cbn [http.Method http.URL http.Hdr http.Body] in Hdo.
  assert (sent = [http.mkRequest method url
               (http.Header_Set
                  (http.Header_Set ∅ util.HeaderFingerprint
                     (FingerprintSHA256 (Signer_PublicKey K)))
                  util.HeaderSignature (EncodeToString (Marshal sig)))
               (http.NopCloser_NewBuffer (bytes_of_string data))]) as ->.
  { destruct (Do net _) as [resp | err]; [| inversion Hdo; reflexivity].
    destruct (http.ReadAll (RespBody resp)) as [body [err |]];
      [inversion Hdo; reflexivity |].
    destruct (negb _); inversion Hdo; reflexivity. }
  apply list_elem_of_singleton in Hin. exact Hin.
Qed.

Lemma Header_Get_fingerprint (fp sig64 : string) :
  http.Header_Get
    (http.Header_Set (http.Header_Set ∅ util.HeaderFingerprint fp)
       util.HeaderSignature sig64) util.HeaderFingerprint = fp.
Proof.
  unfold http.Header_Get, http.Header_Set.
  rewrite lookup_insert_ne by discriminate. rewrite lookup_insert_eq. reflexivity.
Qed.

Lemma Header_Get_signature (fp sig64 : string) :
  http.Header_Get
    (http.Header_Set (http.Header_Set ∅ util.HeaderFingerprint fp)
       util.HeaderSignature sig64) util.HeaderSignature = sig64.
Proof.
  unfold http.Header_Get, http.Header_Set. rewrite lookup_insert_eq. reflexivity.
Qed.

(** C1.  Let the client sign payload [data] with a key [K] that the
    TrustStore holds under its fingerprint.  Every request the client
    sends carries [data] as its body, the fingerprint of [K] and the
    base64 text of the marshalled signature of [K] over the SHA-256
    digest of [data]; the gate forwards it to the wrapped handler.  On the
    same request with any body in place of the payload the gate verifies
    the signature against the SHA-256 digest of that body and of nothing
    else; so a body whose digest differs from the digest of the payload
    (which any body that differs from the payload has, short of a
    collision of SHA-256) is rejected with 401. *)
Theorem signed_request_passes_gate
    (CL : CodecLaws L) (SL : SignatureLaws L)
    (env : Env) (rnd : Entropy) (net : Network) (method url data : string)
    (ks : gmap string PublicKey) (K : Signer) (res : string + error)
    (sent : list http.Request) (req : http.Request) :
  getSigner env = inl K ->
  ks !! FingerprintSHA256 (Signer_PublicKey K) = Some (Signer_PublicKey K) ->
  doHTTPSRequest env rnd net method url data = (res, sent) ->
  req ∈ sent ->
  exists sig,
    Signer_Sign K rnd (Sum256 (bytes_of_string data)) = Some sig
    /\ http.ReadAll (http.Body req) = (bytes_of_string data, None)
    /\ http.Header_Get (http.Hdr req) util.HeaderFingerprint =
       FingerprintSHA256 (Signer_PublicKey K)
    /\ http.Header_Get (http.Hdr req) util.HeaderSignature =
       EncodeToString (Marshal sig)
    /\ (forall next w, authMiddleware next ks req w = next req w)
    /\ (forall body' next w,
          authMiddleware next ks (withBody req body') w =
          if PublicKey_Verify (Signer_PublicKey K) (Sum256 body') sig
          then next (withBody req body') w
          else http.Error w "Signature verification failed" 401)
    /\ (forall body',
          Sum256 body' <> Sum256 (bytes_of_string data) ->
          forall next w,
            authMiddleware next ks (withBody req body') w =
            http.Error w "Signature verification failed" 401).
Proof.
  intros HK Hks Hdo Hin.
  destruct (doHTTPSRequest_sent env rnd net method url data K res sent req HK Hdo Hin)
    as (sig & Hsig & ->).
  exists sig. split; [exact Hsig |]. split; [reflexivity |].
  cbn [http.Hdr]. rewrite Header_Get_fingerprint, Header_Get_signature.
  split; [reflexivity |]. split; [reflexivity |].
  assert (forall body' next w,
    authMiddleware next ks
      (withBody (http.mkRequest method url
         (http.Header_Set
            (http.Header_Set ∅ util.HeaderFingerprint
               (FingerprintSHA256 (Signer_PublicKey K)))
            util.HeaderSignature (EncodeToString (Marshal sig)))
         (http.NopCloser_NewBuffer (bytes_of_string data))) body') w =
    if PublicKey_Verify (Signer_PublicKey K) (Sum256 body') sig
    then next (withBody (http.mkRequest method url
         (http.Header_Set
            (http.Header_Set ∅ util.HeaderFingerprint
               (FingerprintSHA256 (Signer_PublicKey K)))
            util.HeaderSignature (EncodeToString (Marshal sig)))
         (http.NopCloser_NewBuffer (bytes_of_string data))) body') w
    else http.Error w "Signature verification failed" 401) as Hgate.
  { intros body' next w.
    rewrite (authMiddleware_known next ks _ w (Signer_PublicKey K)).
    - cbn [withBody http.Hdr http.Body http.ReadAll http.NopCloser_NewBuffer
           http.pending http.failure http.Method http.URL].
      rewrite Header_Get_signature.
      rewrite DecodeString_EncodeToString, Unmarshal_Marshal. reflexivity.
    - cbn [withBody http.Hdr]. rewrite Header_Get_fingerprint.
      apply FingerprintSHA256_nonempty.
    - cbn [withBody http.Hdr]. rewrite Header_Get_signature.
      apply EncodeToString_Marshal_nonempty.
    - cbn [withBody http.Hdr]. rewrite Header_Get_fingerprint. exact Hks. }
  split; [| split].
  - intros next w.
    specialize (Hgate (bytes_of_string data) next w).
    rewrite (Verify_Sign K rnd _ sig Hsig) in Hgate. exact Hgate.
  - exact Hgate.
  - intros body' Hdigest next w. rewrite Hgate.
    destruct (PublicKey_Verify (Signer_PublicKey K) (Sum256 body') sig) eqn:Hver;
      [| reflexivity].
    exfalso. apply Hdigest.
    exact (Verify_only_signed K rnd _ _ sig Hsig Hver).
Qed.
End EndToEnd.
End endtoend_proofs.

(** ** The client: finding and loading the signing key *)
Module commands_proofs.
Import commands aux.

Section Keys.
Context {L : SSHLib}.

Lemma Stat_None (fs : gmap string os.node) (path : string) :
  os.Stat fs path = None <-> is_Some (fs !! path).
Proof.
  unfold os.Stat. destruct (fs !! path); split; intros H; try reflexivity; try discriminate.
  - eauto.
  - destruct H as [? H]. discriminate.
Qed.

(** The loop over the default key files returns the first that exists. *)
Lemma findPrivateKey_range_find (fs : gmap string os.node) (sshDir : string)
    (keys : list string) :
  findPrivateKey_range fs sshDir keys =
  snd <$> list_find (fun path => is_Some (fs !! path))
            (map (fun keyFile => os.Join [sshDir; keyFile]) keys).
Proof.
  induction keys as [| keyFile keys IH]; [reflexivity |].
  cbn [findPrivateKey_range map list_find].
  destruct (os.Stat fs (os.Join [sshDir; keyFile])) eqn:Hstat.
  - rewrite decide_False.
    + rewrite IH. destruct (list_find _ _) as [[i path] |]; reflexivity.
    + intros Hsome. apply Stat_None in Hsome. congruence.
  - rewrite decide_True by (apply Stat_None; exact Hstat). reflexivity.
Qed.

(** [findPrivateKey] returns the first file of the search path that
    exists. *)
Lemma findPrivateKey_find (env : Env) (home : string) :
  UserHomeDir env = Some home ->
  findPrivateKey env =
  match list_find (fun path => is_Some (fs env !! path)) (searchPath home) with
  | Some (_, path) => inl path
  | None => inr noPrivateKeyFound
  end.
Proof.
  intros Hhome. unfold findPrivateKey, searchPath. rewrite Hhome.
  cbn [list_find].
  destruct (os.Stat (fs env) (os.Join [home; ".config"; util.ProgramName; "id_ed25519"]))
    eqn:Hstat.
  - rewrite decide_False by (intros Hsome; apply Stat_None in Hsome; congruence).
    rewrite findPrivateKey_range_find.
    destruct (list_find _ _) as [[i path] |]; reflexivity.
  - rewrite decide_True by (apply Stat_None; exact Hstat). reflexivity.
Qed.

(** C8, as the code has it.  The signing key is taken from one file,
    chosen in priority order: the explicitly supplied path when there is
    one (whether or not it exists); otherwise the first file that exists
    among the program-specific key and the default SSH key files
    [id_ed25519], [id_ecdsa], [id_rsa].  The chosen file has to be read
    and parsed, and when that fails the operation fails without a look at
    the files after it.  Without an explicit path and with none of the
    files there, the error names [key-gen] as the way to create a key.
    Whenever no signer is obtained, the request is not built and nothing
    is handed to the network. *)
Theorem getSigner_first_existing (env : Env) :
  (keyPath env <> "" -> getSigner env = readAndParse env (keyPath env))
  /\ (forall home,
        keyPath env = "" -> UserHomeDir env = Some home ->
        searchPath home =
          [os.Join [home; ".config"; "pb"; "id_ed25519"];
           os.Join [os.Join [home; ".ssh"]; "id_ed25519"];
           os.Join [os.Join [home; ".ssh"]; "id_ecdsa"];
           os.Join [os.Join [home; ".ssh"]; "id_rsa"]]
        /\ getSigner env =
           match list_find (fun path => is_Some (fs env !! path)) (searchPath home) with
           | Some (_, path) => readAndParse env path
           | None =>
             inr "no private key found. Please run 'pb key-gen' to create a new key, or specify one with the --key flag"
           end)
  /\ (forall err rnd net method url data,
        getSigner env = inr err ->
        doHTTPSRequest env rnd net method url data = (inr err, [])).
Proof.
  split; [| split].
  - intros Hkey. unfold getSigner, readAndParse.
    apply String.eqb_neq in Hkey. rewrite Hkey. reflexivity.
  - intros home Hkey Hhome. split; [reflexivity |].
    unfold getSigner. rewrite Hkey. cbn [String.eqb].
    rewrite (findPrivateKey_find env home Hhome).
    destruct (list_find _ _) as [[i path] |]; reflexivity.
  - intros err rnd net method url data Herr. unfold doHTTPSRequest.
    rewrite Herr. reflexivity.
Qed.
End Keys.
End commands_proofs.

(** ** The command-line clipboard tools *)
Module clipboard_cli_proofs.
Import clipboard_cli aux.

Lemma initCLIClipboard_argsPresent (h : Host) (g : Globals) :
  argsPresent g -> argsPresent (initCLIClipboard h g).
Proof.
  intros Hg. unfold initCLIClipboard.
  repeat match goal with
  | |- argsPresent (if ?b then _ else _) => destruct b
  end; try exact Hg; intros _; split; discriminate.
Qed.

(** C10.  While [CLIClipboardAvailable] is false both functions return the
    "no clipboard utilities available" error, whatever the argument lists
    hold (they are not looked at).  When [initCLIClipboard] turns the flag
    from false to true it has set both argument lists to non-empty lists.
    So from the initial values of the variables on, the argument lists are
    non-empty whenever the flag is true, and neither function ever indexes
    an empty list. *)
Theorem cli_args_never_empty (h : Host) (exec_Command : string -> list string -> Cmd) :
  (forall g data,
     CLIClipboardAvailable g = false ->
     ReadClipboardCLI exec_Command g = Returns (inr clipboardUnavailableErr)
     /\ WriteClipboardCLI exec_Command g data = Returns (Some clipboardUnavailableErr))
  /\ (forall g,
        CLIClipboardAvailable g = false ->
        CLIClipboardAvailable (initCLIClipboard h g) = true ->
        pasteCmdArgs (initCLIClipboard h g) <> []
        /\ copyCmdArgs (initCLIClipboard h g) <> [])
  /\ argsPresent initialGlobals
  /\ (forall g, argsPresent g -> argsPresent (initCLIClipboard h g))
  /\ (forall g data,
        argsPresent g ->
        (exists res, ReadClipboardCLI exec_Command g = Returns res)
        /\ (exists res, WriteClipboardCLI exec_Command g data = Returns res)).
Proof.
  split; [| split; [| split; [| split]]].
  - intros g data Hoff. unfold ReadClipboardCLI, WriteClipboardCLI.
    rewrite Hoff. split; reflexivity.
  - intros g Hoff Hon.
    apply (initCLIClipboard_argsPresent h g); [| exact Hon].
    intros Habs. congruence.
  - intros Habs. discriminate.
  - intros g. apply initCLIClipboard_argsPresent.
  - intros g data Hg. unfold ReadClipboardCLI, WriteClipboardCLI.
    destruct (CLIClipboardAvailable g) eqn:Hav; cbn [negb].
    + destruct (Hg Hav) as [Hpaste Hcopy].
      destruct (pasteCmdArgs g) as [| pname pargs]; [congruence |].
      destruct (copyCmdArgs g) as [| cname cargs]; [congruence |].
      split.
      * destruct (Output _); eauto.
      * destruct (StdinPipe _); eauto. destruct (Start _); eauto.
        destruct (Stdin_Write _ _); eauto. destruct (Stdin_Close _); eauto.
    + split; eauto.
Qed.
End clipboard_cli_proofs.

(** ** The clipboard manager *)
Module clipboard_proofs.
Import clipboard aux.
Local Open Scope list_scope.

(** Takes a hypothesis of the form [step ... = Some c'] apart, one case
    for each way the step can be taken. *)
Ltac step_cases H :=
  repeat match type of H with
  | context [match ?x with _ => _ end] =>
    let E := fresh "E" in destruct x eqn:E; try discriminate H
  end;
  try (injection H as <-).

Lemma selectWithin_exceeds {A : Type} (timeout : Z) (r : response A) (tie : bool) :
  exceeds timeout r -> selectWithin timeout r tie = None.
Proof.
  destruct r as [after v |]; [| reflexivity]. cbn [exceeds selectWithin]. intros Hlate.
  destruct (Z.ltb_spec after timeout); [lia |].
  destruct (Z.eqb_spec after timeout); [lia |]. reflexivity.
Qed.

Lemma selectWithin_Some {A : Type} (timeout : Z) (r : response A) (tie : bool) (v : A) :
  selectWithin timeout r tie = Some v ->
  exists after, r = Responds after v /\ (after <= timeout)%Z.
Proof.
  destruct r as [after v' |]; [| discriminate]. cbn [selectWithin].
  destruct (Z.ltb_spec after timeout).
  - intros [= ->]. exists after. split; [reflexivity | lia].
  - destruct (Z.eqb_spec after timeout); [| discriminate].
    destruct tie; [| discriminate]. intros [= ->]. exists after. split; [reflexivity | lia].
Qed.

(** *** The invariant of the state *)

Lemma initPlatformClipboard_consistent (p : Platform) (st : clipboardState) :
  consistent (initPlatformClipboard p st).
Proof.
  unfold initPlatformClipboard, consistent.
  destruct (android p), (nativeInit_ok p), (CLIClipboardAvailable p);
    cbn; split; congruence.
Qed.

Lemma switchToSystem_locked_consistent (p : Platform) (st : clipboardState) :
  consistent (switchToSystem_locked p st).
Proof.
  unfold switchToSystem_locked, getPrimaryClipboard, consistent.
  destruct (android p); cbn; split; congruence.
Qed.

Lemma consistent_fallback_data (st : clipboardState) (c : inMemoryClipboard) :
  consistent st -> consistent (mkState (active st) c (usingFallback st)).
Proof. unfold consistent. cbn. tauto. Qed.

Lemma perform_consistent (a : clipboarder) (cl : call) (sys : response result)
    (st st1 : clipboardState) (answer : response result) :
  perform a cl sys st = (answer, st1) -> consistent st -> consistent st1.
Proof.
  unfold perform, clipboarder_Copy. intros Hperf Hst.
  destruct cl as [d |]; [| injection Hperf as _ <-; exact Hst].
  destruct a; cbn in Hperf; injection Hperf as _ <-;
    [apply consistent_fallback_data |..]; exact Hst.
Qed.

Lemma retry_consistent (cl : call) (st st' : clipboardState) (res : result) :
  retry cl st = (res, st') -> consistent st -> consistent st'.
Proof.
  unfold retry. intros Hretry Hst. destruct cl as [d |]; cbn in Hretry;
    injection Hretry as _ <-; [apply consistent_fallback_data |]; exact Hst.
Qed.

Lemma step_consistent (p : Platform) (l : label) (c c' : config) :
  step p l c = Some c' -> stateConsistent (shared c) -> stateConsistent (shared c').
Proof.
  intros Hstep Hc. destruct l; cbn [step] in Hstep.
  - injection Hstep as <-. cbn. destruct (shared c); [exact Hc |].
    cbn. apply initPlatformClipboard_consistent.
  - injection Hstep as <-. cbn. destruct (shared c); cbn; [| exact I].
    unfold consistent. cbn. tauto.
  - injection Hstep as <-. cbn. destruct (shared c); cbn; [| exact I].
    unfold consistent, getCLIClipboard. cbn. split; intros; discriminate.
  - injection Hstep as <-. exact Hc.
  - step_cases Hstep; exact Hc.
  - step_cases Hstep; exact Hc.
  - destruct (threads c !! i) as [[cl []] |]; try discriminate.
    destruct (shared c) as [st |] eqn:Hsh; [| discriminate].
    destruct (perform a cl sys st) as [[after res |] st1] eqn:Hperf; [| discriminate].
    injection Hstep as <-. cbn. eapply perform_consistent; eauto.
  - destruct (threads c !! i) as [[cl []] |]; try discriminate.
    destruct (shared c) as [st |] eqn:Hsh; [| discriminate].
    destruct (perform a cl sys st) as [answer st1] eqn:Hperf.
    destruct (selectWithin clipboardTimeout answer tie); injection Hstep as <-; cbn.
    + eapply perform_consistent; eauto.
    + exact Hc.
  - destruct (threads c !! i) as [[cl []] |]; try discriminate.
    destruct (shared c) as [st |]; [| discriminate].
    unfold switchToFallback_locked in Hstep. injection Hstep as <-. cbn.
    unfold consistent. cbn. tauto.
  - step_cases Hstep; exact Hc.
  - destruct (threads c !! i) as [[cl []] |]; try discriminate.
    destruct (shared c) as [st |] eqn:Hsh; [| discriminate].
    destruct (retry cl st) as [res st'] eqn:Hretry. injection Hstep as <-. cbn.
    eapply retry_consistent; eauto.
  - step_cases Hstep. exact Hc.
  - destruct (probing c); [discriminate |].
    destruct (isClipboardResponsive probe tie).
    + destruct (shared c); injection Hstep as <-; cbn; [| exact I].
      apply switchToSystem_locked_consistent.
    + injection Hstep as <-. exact Hc.
  - destruct (leaving c); [discriminate |].
    destruct received; [destruct (waiting c); [discriminate |] |];
      injection Hstep as <-; exact Hc.
Qed.

Lemma run_consistent (p : Platform) (guard : label -> config -> bool) (ls : list label) :
  forall c c', run p guard ls c = Some c' ->
    stateConsistent (shared c) -> stateConsistent (shared c').
Proof.
  induction ls as [| l ls IH]; intros c c' Hrun Hc; cbn [run] in Hrun.
  - injection Hrun as <-. exact Hc.
  - destruct (guard l c); [| discriminate].
    destruct (step p l c) as [c1 |] eqn:Hstep; [| discriminate].
    eapply IH; [exact Hrun |]. eapply step_consistent; eauto.
Qed.

Lemma switchToFallback_state (m : manager) (st : clipboardState) :
  state m = Some st ->
  switchToFallback m =
  mkManager (Some (mkState (Some InMemory) (fallback st) true))
            (if usingFallback st then healthChecks m else S (healthChecks m)).
Proof.
  intros Hst. unfold switchToFallback, switchToFallback_locked. rewrite Hst.
  destruct (usingFallback st); reflexivity.
Qed.

Lemma Copy_consistent (sys : response (option error)) (tie : bool) (d : bytes)
    (m : manager) :
  stateConsistent (state m) -> stateConsistent (state (snd (Copy sys tie d m))).
Proof.
  intros Hm. unfold Copy.
  destruct (state m) as [st |] eqn:Hst; [| cbn; rewrite Hst; exact I].
  destruct (active st) as [a |] eqn:Ha; [| cbn; rewrite Hst; exact Hm].
  destruct (clipboarder_Copy a d sys st) as [answer st1] eqn:Hcall.
  assert (consistent st1) as Hst1.
  { unfold clipboarder_Copy in Hcall. destruct a; cbn in Hcall;
      injection Hcall as _ <-; [apply consistent_fallback_data |..]; exact Hm. }
  cbn [isUsingFallback]. destruct (usingFallback st).
  - destruct answer; cbn; [exact Hst1 | rewrite Hst; exact Hm].
  - destruct (selectWithin clipboardTimeout answer tie); [exact Hst1 |].
    rewrite (switchToFallback_state m st Hst). cbn.
    unfold consistent. cbn. tauto.
Qed.

Lemma Paste_consistent (sys : response (bytes * option error)) (tie : bool) (m : manager) :
  stateConsistent (state m) -> stateConsistent (state (snd (Paste sys tie m))).
Proof.
  intros Hm. unfold Paste.
  destruct (state m) as [st |] eqn:Hst; [| cbn; rewrite Hst; exact I].
  destruct (active st) as [a |] eqn:Ha; [| cbn; rewrite Hst; exact Hm].
  cbn [isUsingFallback]. destruct (usingFallback st).
  - destruct (clipboarder_Paste a sys st); cbn; rewrite Hst; exact Hm.
  - destruct (selectWithin clipboardTimeout (clipboarder_Paste a sys st) tie)
      as [[dd [err |]] |]; cbn; try (rewrite Hst; exact Hm).
    rewrite (switchToFallback_state m st Hst). cbn.
    unfold consistent. cbn. tauto.
Qed.

(** C7.  [usingFallback] is true exactly when the active backend is the
    manager's own in-memory clipboard: [Init] establishes this, the
    critical sections of [switchToFallback] and [switchToSystem] and the
    two manual switches [UseInMemoryClipboard] and [UseCliClipboard] leave
    a state that satisfies it, so do [Copy] and [Paste], and every state
    that concurrent goroutines can reach from the start satisfies it. *)
Theorem usingFallback_iff_fallback_active (p : Platform) :
  (forall st, Init p None = Some st -> consistent st)
  /\ (forall st, consistent (snd (switchToFallback_locked st)))
  /\ (forall st, consistent (switchToSystem_locked p st))
  /\ (forall state, stateConsistent state -> stateConsistent (UseInMemoryClipboard state))
  /\ (forall state, stateConsistent state -> stateConsistent (snd (UseCliClipboard state)))
  /\ (forall sys tie d m,
        stateConsistent (state m) -> stateConsistent (state (snd (Copy sys tie d m))))
  /\ (forall sys tie m,
        stateConsistent (state m) -> stateConsistent (state (snd (Paste sys tie m))))
  /\ (forall ls c,
        run p anyStep ls initialConfig = Some c ->
        forall st, shared c = Some st ->
        (usingFallback st = true <-> active st = Some InMemory)).
Proof.
  split; [| split; [| split; [| split; [| split; [| split; [| split]]]]]].
  - intros st Hinit. cbn in Hinit. injection Hinit as <-.
    apply initPlatformClipboard_consistent.
  - intros st. unfold consistent. cbn. tauto.
  - intros st. apply switchToSystem_locked_consistent.
  - intros state _. destruct state; cbn; [| exact I]. unfold consistent. cbn. tauto.
  - intros state _. destruct state; cbn; [| exact I].
    unfold consistent, getCLIClipboard. cbn. split; intros; discriminate.
  - intros sys tie d m. apply Copy_consistent.
  - intros sys tie m. apply Paste_consistent.
  - intros ls c Hrun st Hshared.
    pose proof (run_consistent p anyStep ls initialConfig c Hrun I) as Hc.
    rewrite Hshared in Hc. exact Hc.
Qed.

(** *** Failover *)

Lemma Copy_timeout (m : manager) (st : clipboardState) (a : clipboarder)
    (tie : bool) (d : bytes) (sys : response (option error)) :
  state m = Some st -> active st = Some a -> a <> InMemory -> usingFallback st = false ->
  exceeds clipboardTimeout sys ->
  Copy sys tie d m =
  (Returns None,
   mkManager (Some (mkState (Some InMemory) (mkInMemory d) true)) (S (healthChecks m))).
Proof.
  intros Hst Ha Hprimary Hfb Hlate. unfold Copy. rewrite Hst, Ha.
  assert (clipboarder_Copy a d sys st = (sys, st)) as ->.
  { destruct a; [congruence | reflexivity | reflexivity]. }
  cbn [isUsingFallback]. rewrite Hfb.
  rewrite (selectWithin_exceeds clipboardTimeout sys tie Hlate).
  rewrite (switchToFallback_state m st Hst), Hfb. reflexivity.
Qed.

Lemma Paste_timeout (m : manager) (st : clipboardState) (a : clipboarder)
    (tie : bool) (sys : response (bytes * option error)) :
  state m = Some st -> active st = Some a -> a <> InMemory -> usingFallback st = false ->
  exceeds clipboardTimeout sys ->
  Paste sys tie m =
  (Returns (data (fallback st), None),
   mkManager (Some (mkState (Some InMemory) (fallback st) true)) (S (healthChecks m))).
Proof.
  intros Hst Ha Hprimary Hfb Hlate. unfold Paste. rewrite Hst, Ha.
  assert (clipboarder_Paste a sys st = sys) as ->.
  { destruct a; [congruence | reflexivity | reflexivity]. }
  cbn [isUsingFallback]. rewrite Hfb.
  rewrite (selectWithin_exceeds clipboardTimeout sys tie Hlate).
  rewrite (switchToFallback_state m st Hst), Hfb. reflexivity.
Qed.

(** On the fallback, [Paste] returns what the fallback holds, whatever
    the host would answer. *)
Lemma Paste_on_fallback (d : bytes) (n : nat) (sys : response (bytes * option error))
    (tie : bool) :
  Paste sys tie (mkManager (Some (mkState (Some InMemory) (mkInMemory d) true)) n) =
  (Returns (d, None), mkManager (Some (mkState (Some InMemory) (mkInMemory d) true)) n).
Proof. reflexivity. Qed.

(** C2.  Let the active backend be a primary one (the manager is not on
    the fallback).  A [Copy(data)] that the backend does not complete
    within the timeout of two seconds returns a nil error and leaves the
    manager with the in-memory fallback active, [data] stored in it and
    one more recovery task started; whatever the host would then answer,
    a [Paste()] that follows returns [data] from the fallback, without a
    timeout being involved and without a change of the manager.  In the
    same way a [Paste()] that the backend does not complete in time
    switches to the fallback and returns what the fallback holds. *)
Theorem timeout_fails_over (m : manager) (st : clipboardState) (a : clipboarder)
    (tie : bool) :
  state m = Some st -> active st = Some a -> a <> InMemory -> usingFallback st = false ->
  (forall (d : bytes) (sys : response (option error)),
     exceeds (2 * Second) sys ->
     let m' := mkManager (Some (mkState (Some InMemory) (mkInMemory d) true))
                         (S (healthChecks m)) in
     Copy sys tie d m = (Returns None, m')
     /\ getActiveClipboard (state m') = Some InMemory
     /\ isUsingFallback (state m') = true
     /\ (forall sys' tie', Paste sys' tie' m' = (Returns (d, None), m')))
  /\ (forall sys : response (bytes * option error),
        exceeds (2 * Second) sys ->
        let m' := mkManager (Some (mkState (Some InMemory) (fallback st) true))
                            (S (healthChecks m)) in
        Paste sys tie m = (Returns (data (fallback st), None), m')
        /\ getActiveClipboard (state m') = Some InMemory
        /\ isUsingFallback (state m') = true).
Proof.
  intros Hst Ha Hprimary Hfb. split.
  - intros d sys Hlate m'. split; [| split; [| split]].
    + apply (Copy_timeout m st a tie d sys Hst Ha Hprimary Hfb Hlate).
    + reflexivity.
    + reflexivity.
    + intros sys' tie'. apply Paste_on_fallback.
  - intros sys Hlate m'. split; [| split; reflexivity].
    apply (Paste_timeout m st a tie sys Hst Ha Hprimary Hfb Hlate).
Qed.

(** *** Round trip *)

(** C6, as the code has it.  For every byte sequence [X]: the in-memory
    clipboard returns exactly [X] after [Copy(X)]; so does the manager when
    it is on the fallback at the time of [Copy(X)], and when [Copy(X)]
    itself fails over, whatever the host answers.  When a primary backend
    answers [Paste()] in time and without an error, the manager returns
    the bytes of the backend as they are. *)
Theorem Copy_Paste_in_memory (X : bytes) :
  (forall c, inMemoryClipboard_Paste (fst (inMemoryClipboard_Copy c X)) = (X, None))
  /\ (forall m st sysC tieC,
        state m = Some st -> consistent st -> usingFallback st = true ->
        exists m',
          Copy sysC tieC X m = (Returns None, m')
          /\ forall sysP tieP, Paste sysP tieP m' = (Returns (X, None), m'))
  /\ (forall m st a sysC tieC,
        state m = Some st -> active st = Some a -> a <> InMemory ->
        usingFallback st = false -> exceeds clipboardTimeout sysC ->
        exists m',
          Copy sysC tieC X m = (Returns None, m')
          /\ forall sysP tieP, Paste sysP tieP m' = (Returns (X, None), m'))
  /\ (forall m st a after tieP,
        state m = Some st -> active st = Some a -> a <> InMemory ->
        usingFallback st = false -> (after < clipboardTimeout)%Z ->
        Paste (Responds after (X, None)) tieP m = (Returns (X, None), m)).
Proof.
  split; [| split; [| split]].
  - intros c. reflexivity.
  - intros m st sysC tieC Hst Hcons Hfb.
    assert (active st = Some InMemory) as Ha by (apply Hcons; exact Hfb).
    exists (mkManager (Some (mkState (Some InMemory) (mkInMemory X) true)) (healthChecks m)).
    split.
    + unfold Copy. rewrite Hst, Ha. cbn. rewrite Hfb, Ha. reflexivity.
    + intros sysP tieP. reflexivity.
  - intros m st a sysC tieC Hst Ha Hprimary Hfb Hlate.
    eexists. split.
    + apply (Copy_timeout m st a tieC X sysC Hst Ha Hprimary Hfb Hlate).
    + intros sysP tieP. apply Paste_on_fallback.
  - intros m st a after tieP Hst Ha Hprimary Hfb Hintime.
    unfold Paste. rewrite Hst, Ha.
    assert (clipboarder_Paste a (Responds after (X, None)) st = Responds after (X, None)) as ->.
    { destruct a; [congruence | reflexivity | reflexivity]. }
    cbn [isUsingFallback selectWithin]. rewrite Hfb.
    destruct (Z.ltb_spec after clipboardTimeout); [reflexivity | lia].
Qed.

(** *** The two views of the manager agree

    A call that runs alone, as a goroutine of the concurrent view, ends
    with the result and in the state that [Copy] and [Paste] compute. *)

Lemma response_map_snd_pair (sys : response (option error)) :
  response_map snd (response_map (fun err => (([] : bytes), err)) sys) = sys.
Proof. destruct sys; reflexivity. Qed.

Lemma selectWithin_map {A B : Type} (f : A -> B) (timeout : Z) (r : response A)
    (tie : bool) :
  selectWithin timeout (response_map f r) tie = option_map f (selectWithin timeout r tie).
Proof.
  destruct r as [after v |]; [| reflexivity]. cbn.
  destruct (after <? timeout)%Z; [reflexivity |].
  destruct (after =? timeout)%Z; [destruct tie |]; reflexivity.
Qed.

Lemma Copy_solo (p : Platform) (sys : response (option error)) (tie : bool)
    (d : bytes) (m m' : manager) (err : option error) :
  Copy sys tie d m = (Returns err, m') ->
  exists ls,
    run p anyStep (LCall (CallCopy d) :: ls) (solo m)
    = Some (soloDone m' (CallCopy d) ([], err)).
Proof.
  unfold Copy, solo, soloDone. intros Hcopy.
  destruct (state m) as [st |] eqn:Hst.
  2:{ injection Hcopy as <- <-. exists [LGetActive 0]. cbn. rewrite Hst. reflexivity. }
  destruct (active st) as [a |] eqn:Ha.
  2:{ injection Hcopy as <- <-. exists [LGetActive 0]. cbn. rewrite Ha, Hst. reflexivity. }
  destruct (clipboarder_Copy a d sys st) as [answer st1] eqn:Hcall.
  cbn [isUsingFallback] in Hcopy.
  destruct (usingFallback st) eqn:Hfb.
  - destruct answer as [after err' |]; [| discriminate]. injection Hcopy as <- <-.
    exists [LGetActive 0; LIsUsingFallback 0;
            LDirect 0 (response_map (fun e => ([], e)) sys)].
    cbn. rewrite Ha. cbn. rewrite Hfb. cbn.
    rewrite response_map_snd_pair, Hcall. reflexivity.
  - destruct (selectWithin clipboardTimeout answer tie) as [err' |] eqn:Hsel.
    + injection Hcopy as <- <-.
      exists [LGetActive 0; LIsUsingFallback 0;
              LRace 0 (response_map (fun e => ([], e)) sys) tie].
      cbn -[selectWithin]. rewrite Ha. cbn -[selectWithin]. rewrite Hfb.
      cbn -[selectWithin].
      rewrite response_map_snd_pair, Hcall, selectWithin_map, Hsel.
      destruct err'; reflexivity.
    + rewrite (switchToFallback_state m st Hst), Hfb in Hcopy. cbn in Hcopy.
      injection Hcopy as <- <-.
      exists [LGetActive 0; LIsUsingFallback 0;
              LRace 0 (response_map (fun e => ([], e)) sys) tie;
              LLock 0; LSpawn 0; LRetry 0].
      cbn -[selectWithin]. rewrite Ha. cbn -[selectWithin]. rewrite Hfb.
      cbn -[selectWithin].
      rewrite response_map_snd_pair, Hcall, selectWithin_map, Hsel.
      cbn. rewrite Hfb. reflexivity.
Qed.

Lemma Paste_solo (p : Platform) (sys : response (bytes * option error)) (tie : bool)
    (m m' : manager) (res : bytes * option error) :
  Paste sys tie m = (Returns res, m') ->
  exists ls,
    run p anyStep (LCall CallPaste :: ls) (solo m) = Some (soloDone m' CallPaste res).
Proof.
  unfold Paste, solo, soloDone. intros Hpaste.
  destruct (state m) as [st |] eqn:Hst.
  2:{ injection Hpaste as <- <-. exists [LGetActive 0]. cbn. rewrite Hst. reflexivity. }
  destruct (active st) as [a |] eqn:Ha.
  2:{ injection Hpaste as <- <-. exists [LGetActive 0]. cbn. rewrite Ha, Hst. reflexivity. }
  cbn [isUsingFallback] in Hpaste.
  destruct (usingFallback st) eqn:Hfb.
  - destruct (clipboarder_Paste a sys st) as [after res' |] eqn:Hcall; [| discriminate].
    injection Hpaste as <- <-.
    exists [LGetActive 0; LIsUsingFallback 0; LDirect 0 sys].
    cbn -[clipboarder_Paste]. rewrite Ha. cbn -[clipboarder_Paste]. rewrite Hfb.
    cbn -[clipboarder_Paste]. rewrite Hcall, Hst. reflexivity.
  - destruct (selectWithin clipboardTimeout (clipboarder_Paste a sys st) tie)
      as [[dd [e |]] |] eqn:Hsel.
    + injection Hpaste as <- <-.
      exists [LGetActive 0; LIsUsingFallback 0; LRace 0 sys tie].
      cbn -[selectWithin clipboarder_Paste]. rewrite Ha.
      cbn -[selectWithin clipboarder_Paste]. rewrite Hfb.
      cbn -[selectWithin clipboarder_Paste]. unfold result. rewrite Hsel, Hst. reflexivity.
    + injection Hpaste as <- <-.
      exists [LGetActive 0; LIsUsingFallback 0; LRace 0 sys tie].
      cbn -[selectWithin clipboarder_Paste]. rewrite Ha.
      cbn -[selectWithin clipboarder_Paste]. rewrite Hfb.
      cbn -[selectWithin clipboarder_Paste]. unfold result. rewrite Hsel, Hst. reflexivity.
    + rewrite (switchToFallback_state m st Hst), Hfb in Hpaste. cbn in Hpaste.
      injection Hpaste as <- <-.
      exists [LGetActive 0; LIsUsingFallback 0; LRace 0 sys tie;
              LLock 0; LSpawn 0; LRetry 0].
      cbn -[selectWithin clipboarder_Paste]. rewrite Ha.
      cbn -[selectWithin clipboarder_Paste]. rewrite Hfb.
      cbn -[selectWithin clipboarder_Paste]. unfold result. rewrite Hsel.
      cbn. rewrite Hfb. reflexivity.
Qed.

(** *** The recovery task *)

Lemma pendingSpawns_insert (ts : list (call * pc)) : forall (i : nat) (t t' : call * pc),
  ts !! i = Some t ->
  (sum_list_with pendingSpawn (<[i := t']> ts) + pendingSpawn t =
   sum_list_with pendingSpawn ts + pendingSpawn t')%nat.
Proof.
  induction ts as [| t0 ts IH]; intros [| i] t t' Hi; cbn in Hi; try discriminate.
  - injection Hi as ->. cbn. lia.
  - change (<[S i := t']> (t0 :: ts)) with (t0 :: <[i := t']> ts).
    cbn [sum_list_with]. specialize (IH i t t' Hi). lia.
Qed.

(** The tasks counted by the invariant, after a goroutine has moved. *)
Lemma setThread_tasks (c : config) (i : nat) (t t' : call * pc)
    (sh : option clipboardState) (w : nat) :
  threads c !! i = Some t ->
  (pollingTasks (setThread c i t' sh w) + pendingSpawns (setThread c i t' sh w)
   + pendingSpawn t + waiting c =
   pollingTasks c + pendingSpawns c + pendingSpawn t' + w)%nat.
Proof.
  intros Hi. unfold pollingTasks, pendingSpawns, setThread. cbn.
  pose proof (pendingSpawns_insert (threads c) i t t' Hi). lia.
Qed.

Lemma perform_usingFallback (a : clipboarder) (cl : call) (sys : response result)
    (st st1 : clipboardState) (answer : response result) :
  perform a cl sys st = (answer, st1) -> usingFallback st1 = usingFallback st.
Proof.
  unfold perform, clipboarder_Copy. intros Hperf.
  destruct cl as [d |]; [| injection Hperf as _ <-; reflexivity].
  destruct a; cbn in Hperf; injection Hperf as _ <-; reflexivity.
Qed.

Lemma retry_usingFallback (cl : call) (st st' : clipboardState) (res : result) :
  retry cl st = (res, st') -> usingFallback st' = usingFallback st.
Proof.
  unfold retry. intros Hretry.
  destruct cl as [d |]; cbn in Hretry; injection Hretry as _ <-; reflexivity.
Qed.

(** A goroutine moves without a change of the count and of the flag. *)
Lemma recoveryInvariant_move (c : config) (i : nat) (t t' : call * pc)
    (sh : option clipboardState) (w : nat) :
  threads c !! i = Some t ->
  (pendingSpawn t' + w = pendingSpawn t + waiting c)%nat ->
  (forall st, shared c = Some st -> usingFallback st = true ->
     exists st', sh = Some st' /\ usingFallback st' = true) ->
  recoveryInvariant c -> recoveryInvariant (setThread c i t' sh w).
Proof.
  intros Hi Hsum Hflag [Hle Hfb].
  pose proof (setThread_tasks c i t t' sh w Hi) as Htasks.
  split; [lia |]. intros Hone.
  destruct Hfb as (st & Hst & Hst'); [lia |]. exact (Hflag st Hst Hst').
Qed.

Lemma step_recoveryInvariant (p : Platform) (l : label) (c c' : config) :
  cliOverrideWhenIdle l c = true ->
  step p l c = Some c' -> recoveryInvariant c -> recoveryInvariant c'.
Proof.
  intros Hguard Hstep Hinv. destruct l; cbn [step] in Hstep.
  - (* Init *)
    injection Hstep as <-. destruct Hinv as [Hle Hfb].
    split; [exact Hle |]. cbn. intros Hone.
    destruct (Hfb Hone) as (st & Hst & Hst'). rewrite Hst. cbn. eauto.
  - (* UseInMemoryClipboard *)
    injection Hstep as <-. destruct Hinv as [Hle Hfb].
    split; [exact Hle |]. cbn. intros Hone.
    destruct (Hfb Hone) as (st & Hst & Hst'). rewrite Hst. cbn. eauto.
  - (* UseCliClipboard *)
    injection Hstep as <-. cbn in Hguard. apply Nat.eqb_eq in Hguard.
    split; [exact (proj1 Hinv) |]. intros Hone.
    unfold pollingTasks, pendingSpawns in *. cbn in Hone. lia.
  - (* a new call *)
    injection Hstep as <-. destruct Hinv as [Hle Hfb].
    unfold recoveryInvariant, pollingTasks, pendingSpawns in *. cbn.
    rewrite sum_list_with_app. cbn. rewrite !Nat.add_0_r. split; [exact Hle | exact Hfb].
  - (* getActiveClipboard *)
    destruct (threads c !! i) as [[cl []] |] eqn:Hi; try discriminate.
    destruct (getActiveClipboard (shared c)); injection Hstep as <-;
      (eapply recoveryInvariant_move; [exact Hi | reflexivity | eauto | exact Hinv]).
  - (* isUsingFallback *)
    destruct (threads c !! i) as [[cl []] |] eqn:Hi; try discriminate.
    destruct (isUsingFallback (shared c)); injection Hstep as <-;
      (eapply recoveryInvariant_move; [exact Hi | reflexivity | eauto | exact Hinv]).
  - (* the direct call *)
    destruct (threads c !! i) as [[cl []] |] eqn:Hi; try discriminate.
    destruct (shared c) as [st |] eqn:Hsh; [| discriminate].
    destruct (perform a cl sys st) as [[after res |] st1] eqn:Hperf; [| discriminate].
    injection Hstep as <-.
    eapply recoveryInvariant_move; [exact Hi | reflexivity | | exact Hinv].
    intros st0 Hst0 Hfb. rewrite Hsh in Hst0. injection Hst0 as <-.
    exists st1. split; [reflexivity |].
    rewrite (perform_usingFallback _ _ _ _ _ _ Hperf). exact Hfb.
  - (* the race *)
    destruct (threads c !! i) as [[cl []] |] eqn:Hi; try discriminate.
    destruct (shared c) as [st |] eqn:Hsh; [| discriminate].
    destruct (perform a cl sys st) as [answer st1] eqn:Hperf.
    destruct (selectWithin clipboardTimeout answer tie); injection Hstep as <-.
    + eapply recoveryInvariant_move; [exact Hi | reflexivity | | exact Hinv].
      intros st0 Hst0 Hfb. rewrite Hsh in Hst0. injection Hst0 as <-.
      exists st1. split; [reflexivity |].
      rewrite (perform_usingFallback _ _ _ _ _ _ Hperf). exact Hfb.
    + eapply recoveryInvariant_move; [exact Hi | reflexivity | | exact Hinv].
      intros st0 Hst0 Hfb. rewrite Hsh in Hst0. injection Hst0 as <-. eauto.
  - (* the critical section of switchToFallback *)
    destruct (threads c !! i) as [[cl []] |] eqn:Hi; try discriminate.
    destruct (shared c) as [st |] eqn:Hsh; [| discriminate].
    unfold switchToFallback_locked in Hstep. injection Hstep as <-.
    pose proof (setThread_tasks c i (cl, TimedOut)
                  (cl, Unlocked (usingFallback st))
                  (Some (mkState (Some InMemory) (fallback st) true)) (waiting c) Hi)
      as Htasks.
    destruct Hinv as [Hle Hfb]. cbn [pendingSpawn snd] in Htasks.
    destruct (usingFallback st) eqn:Hwas.
    + split; [lia |]. intros _. eexists. split; [reflexivity |]. reflexivity.
    + assert ((pollingTasks c + pendingSpawns c = 0)%nat) as Hzero.
      { destruct (Nat.eq_dec (pollingTasks c + pendingSpawns c)%nat 0%nat) as [Hz | Hnz];
          [exact Hz |].
        destruct Hfb as (st0 & Hst0 & Hfb0); [lia |].
        rewrite Hsh in Hst0. injection Hst0 as <-. congruence. }
      split; [lia |]. intros _. eexists. split; [reflexivity |]. reflexivity.
  - (* go startHealthCheck() *)
    destruct (threads c !! i) as [[cl []] |] eqn:Hi; try discriminate.
    injection Hstep as <-.
    eapply recoveryInvariant_move; [exact Hi | | eauto | exact Hinv].
    destruct wasUsingFallback; cbn; lia.
  - (* the retry on the fallback *)
    destruct (threads c !! i) as [[cl []] |] eqn:Hi; try discriminate.
    destruct (shared c) as [st |] eqn:Hsh; [| discriminate].
    destruct (retry cl st) as [res st'] eqn:Hretry. injection Hstep as <-.
    eapply recoveryInvariant_move; [exact Hi | reflexivity | | exact Hinv].
    intros st0 Hst0 Hfb. rewrite Hsh in Hst0. injection Hst0 as <-.
    exists st'. split; [reflexivity |].
    rewrite (retry_usingFallback _ _ _ _ Hretry). exact Hfb.
  - (* the ticker *)
    destruct (waiting c) as [| n] eqn:Hw; [discriminate |]. injection Hstep as <-.
    unfold recoveryInvariant, pollingTasks, pendingSpawns in *. cbn.
    rewrite Hw in Hinv. destruct Hinv as [Hle Hfb]. split; [lia |].
    intros Hone. apply Hfb. lia.
  - (* the probe *)
    destruct (probing c) as [| n] eqn:Hp; [discriminate |].
    unfold recoveryInvariant, pollingTasks, pendingSpawns in *.
    rewrite Hp in Hinv. destruct Hinv as [Hle Hfb].
    destruct (isClipboardResponsive probe tie).
    + destruct (shared c); injection Hstep as <-; cbn; split; try lia;
        intros Hone; lia.
    + injection Hstep as <-. cbn. split; [lia |]. intros Hone. apply Hfb. lia.
  - (* the signal and the return *)
    destruct (leaving c) as [| n]; [discriminate |].
    unfold recoveryInvariant, pollingTasks, pendingSpawns in *.
    destruct Hinv as [Hle Hfb].
    destruct received; [destruct (waiting c) as [| w] eqn:Hw; [discriminate |] |];
      injection Hstep as <-; cbn; (split; [lia |]); intros Hone; apply Hfb; lia.
Qed.

Lemma run_recoveryInvariant (p : Platform) (ls : list label) :
  forall c c', run p cliOverrideWhenIdle ls c = Some c' ->
    recoveryInvariant c -> recoveryInvariant c'.
Proof.
  induction ls as [| l ls IH]; intros c c' Hrun Hc; cbn [run] in Hrun.
  - injection Hrun as <-. exact Hc.
  - destruct (cliOverrideWhenIdle l c) eqn:Hguard; [| discriminate].
    destruct (step p l c) as [c1 |] eqn:Hstep; [| discriminate].
    eapply IH; [exact Hrun |]. eapply step_recoveryInvariant; eauto.
Qed.

Lemma recoveryInvariant_initial : recoveryInvariant initialConfig.
Proof. split; cbn; [lia |]. intros Hone. lia. Qed.

(** A probe that succeeds has answered within [clipboardTimeout]. *)
Lemma isClipboardResponsive_true (probe : response unit) (tie : bool) :
  isClipboardResponsive probe tie = true ->
  exists after, probe = Responds after tt /\ (after <= 2 * Second)%Z.
Proof.
  unfold isClipboardResponsive.
  destruct (selectWithin clipboardTimeout probe tie) as [[] |] eqn:Hsel; [| discriminate].
  intros _. exact (selectWithin_Some _ _ _ _ Hsel).
Qed.

(** The number of polling tasks grows only where a goroutine that read
    [wasUsingFallback] as false runs [go startHealthCheck()]. *)
Lemma step_spawn (p : Platform) (l : label) (c c' : config) :
  step p l c = Some c' -> (pollingTasks c < pollingTasks c')%nat ->
  exists i cl, l = LSpawn i /\ threads c !! i = Some (cl, Unlocked false)
    /\ pollingTasks c' = S (pollingTasks c).
Proof.
  intros Hstep Hgrow. unfold pollingTasks in *.
  destruct l; cbn [step] in Hstep;
    try (injection Hstep as <-; cbn in Hgrow; lia).
  - destruct (threads c !! i) as [[cl []] |]; try discriminate.
    destruct (getActiveClipboard (shared c)); injection Hstep as <-; cbn in Hgrow; lia.
  - destruct (threads c !! i) as [[cl []] |]; try discriminate.
    destruct (isUsingFallback (shared c)); injection Hstep as <-; cbn in Hgrow; lia.
  - destruct (threads c !! i) as [[cl []] |]; try discriminate.
    destruct (shared c) as [st |]; [| discriminate].
    destruct (perform a cl sys st) as [[after res |] st1]; [| discriminate].
    injection Hstep as <-. cbn in Hgrow. lia.
  - destruct (threads c !! i) as [[cl []] |]; try discriminate.
    destruct (shared c) as [st |]; [| discriminate].
    destruct (perform a cl sys st) as [answer st1].
    destruct (selectWithin clipboardTimeout answer tie); injection Hstep as <-;
      cbn in Hgrow; lia.
  - destruct (threads c !! i) as [[cl []] |]; try discriminate.
    destruct (shared c) as [st |]; [| discriminate].
    unfold switchToFallback_locked in Hstep. injection Hstep as <-. cbn in Hgrow. lia.
  - destruct (threads c !! i) as [[cl []] |] eqn:Hi; try discriminate.
    injection Hstep as <-. destruct wasUsingFallback; cbn in Hgrow; [lia |].
    exists i, cl. split; [reflexivity |]. split; [exact Hi |]. cbn. lia.
  - destruct (threads c !! i) as [[cl []] |]; try discriminate.
    destruct (shared c) as [st |]; [| discriminate].
    destruct (retry cl st) as [res st']. injection Hstep as <-. cbn in Hgrow. lia.
  - destruct (waiting c); [discriminate |]. injection Hstep as <-. cbn in Hgrow. lia.
  - destruct (probing c); [discriminate |].
    destruct (isClipboardResponsive probe tie); [destruct (shared c) |];
      injection Hstep as <-; cbn in Hgrow; lia.
  - destruct (leaving c); [discriminate |].
    destruct received; [destruct (waiting c) as [| w] eqn:Hw; [discriminate |] |];
      injection Hstep as <-; cbn in Hgrow; lia.
Qed.

(** The flag goes from true to false only in [UseCliClipboard] and in the
    critical section of [switchToSystem], which a task runs after a
    successful probe and which takes the task out of the polling ones. *)
Lemma step_leaves_fallback (p : Platform) (l : label) (c c' : config)
    (st st' : clipboardState) :
  step p l c = Some c' ->
  shared c = Some st -> usingFallback st = true ->
  shared c' = Some st' -> usingFallback st' = false ->
  l = LUseCliClipboard
  \/ exists probe tie,
       l = LProbe probe tie
       /\ isClipboardResponsive probe tie = true
       /\ st' = switchToSystem_locked p st
       /\ S (pollingTasks c') = pollingTasks c
       /\ leaving c' = S (leaving c).
Proof.
  intros Hstep Hst Hfb Hst' Hfb'.
  destruct l; cbn [step] in Hstep; rewrite ?Hst in Hstep.
  - injection Hstep as <-. cbn in Hst'. congruence.
  - injection Hstep as <-. cbn in Hst'. injection Hst' as <-. discriminate.
  - left. reflexivity.
  - injection Hstep as <-. cbn in Hst'. congruence.
  - destruct (threads c !! i) as [[cl []] |]; try discriminate.
    destruct (getActiveClipboard (Some st)); injection Hstep as <-;
      cbn in Hst'; congruence.
  - destruct (threads c !! i) as [[cl []] |]; try discriminate.
    destruct (isUsingFallback (Some st)); injection Hstep as <-; cbn in Hst'; congruence.
  - destruct (threads c !! i) as [[cl []] |]; try discriminate.
    destruct (perform a cl sys st) as [[after res |] st1] eqn:Hperf; [| discriminate].
    injection Hstep as <-. cbn in Hst'. injection Hst' as <-.
    rewrite (perform_usingFallback _ _ _ _ _ _ Hperf) in Hfb'. congruence.
  - destruct (threads c !! i) as [[cl []] |]; try discriminate.
    destruct (perform a cl sys st) as [answer st1] eqn:Hperf.
    destruct (selectWithin clipboardTimeout answer tie); injection Hstep as <-;
      cbn in Hst'; injection Hst' as <-; [| congruence].
    rewrite (perform_usingFallback _ _ _ _ _ _ Hperf) in Hfb'. congruence.
  - destruct (threads c !! i) as [[cl []] |]; try discriminate.
    unfold switchToFallback_locked in Hstep. injection Hstep as <-.
    cbn in Hst'. injection Hst' as <-. discriminate.
  - destruct (threads c !! i) as [[cl []] |]; try discriminate.
    injection Hstep as <-. cbn in Hst'. congruence.
  - destruct (threads c !! i) as [[cl []] |]; try discriminate.
    destruct (retry cl st) as [res st1] eqn:Hretry. injection Hstep as <-.
    cbn in Hst'. injection Hst' as <-.
    rewrite (retry_usingFallback _ _ _ _ Hretry) in Hfb'. congruence.
  - destruct (waiting c); [discriminate |]. injection Hstep as <-.
    cbn in Hst'. congruence.
  - destruct (probing c) as [| n] eqn:Hp; [discriminate |].
    destruct (isClipboardResponsive probe tie) eqn:Hprobe.
    + injection Hstep as <-. cbn in Hst'. injection Hst' as <-.
      right. exists probe, tie. unfold pollingTasks. cbn. rewrite Hp.
      repeat split; try reflexivity; [exact Hprobe | lia].
    + injection Hstep as <-. cbn in Hst'. congruence.
  - destruct (leaving c); [discriminate |].
    destruct received; [destruct (waiting c); [discriminate |] |];
      injection Hstep as <-; cbn in Hst'; congruence.
Qed.

(** C5, as the code has it.  In every execution in which
    [UseCliClipboard] is called only while no recovery task polls or is
    about to be started:
    - at most one recovery task polls at any time, and while one polls
      the manager is on the fallback;
    - a polling task is added only by [go startHealthCheck()] of a
      goroutine whose [switchToFallback] read [usingFallback] as false, the
      flag being read and set in one critical section;
    - [usingFallback] goes from true to false only by the manual switch
      [UseCliClipboard] or in the critical section of [switchToSystem],
      which a recovery task runs after its probe has answered within the
      timeout of two seconds;
    - that task then polls no more: all it can do, and can always do, is
      to send on [healthCheckDone] without blocking and to return. *)
Theorem one_polling_task (p : Platform) :
  (forall ls c,
     run p cliOverrideWhenIdle ls initialConfig = Some c ->
     (pollingTasks c <= 1)%nat
     /\ ((1 <= pollingTasks c)%nat ->
         exists st, shared c = Some st /\ usingFallback st = true))
  /\ (forall l c c',
        step p l c = Some c' -> (pollingTasks c < pollingTasks c')%nat ->
        exists i cl, l = LSpawn i /\ threads c !! i = Some (cl, Unlocked false)
          /\ pollingTasks c' = S (pollingTasks c))
  /\ (forall i c c',
        step p (LLock i) c = Some c' ->
        exists cl st,
          threads c !! i = Some (cl, TimedOut) /\ shared c = Some st
          /\ threads c' !! i = Some (cl, Unlocked (usingFallback st))
          /\ shared c' = Some (mkState (Some InMemory) (fallback st) true))
  /\ (forall l c c' st st',
        step p l c = Some c' ->
        shared c = Some st -> usingFallback st = true ->
        shared c' = Some st' -> usingFallback st' = false ->
        l = LUseCliClipboard
        \/ exists probe tie after,
             l = LProbe probe tie
             /\ probe = Responds after tt /\ (after <= 2 * Second)%Z
             /\ st' = switchToSystem_locked p st
             /\ S (pollingTasks c') = pollingTasks c
             /\ leaving c' = S (leaving c))
  /\ (forall c,
        (0 < leaving c)%nat ->
        (exists c', step p (LSignal false) c = Some c')
        /\ (forall received c',
              step p (LSignal received) c = Some c' ->
              S (leaving c') = leaving c
              /\ shared c' = shared c
              /\ (pollingTasks c' <= pollingTasks c)%nat)).
Proof.
  split; [| split; [| split; [| split]]].
  - intros ls c Hrun.
    destruct (run_recoveryInvariant p ls initialConfig c Hrun recoveryInvariant_initial)
      as [Hle Hfb].
    split; [lia |]. intros Hone. apply Hfb. lia.
  - intros l c c'. apply step_spawn.
  - intros i c c' Hstep. cbn [step] in Hstep.
    destruct (threads c !! i) as [[cl []] |] eqn:Hi; try discriminate.
    destruct (shared c) as [st |] eqn:Hsh; [| discriminate].
    unfold switchToFallback_locked in Hstep. injection Hstep as <-.
    exists cl, st. split; [reflexivity |]. split; [reflexivity |]. cbn.
    split; [| reflexivity].
    apply list_lookup_insert_eq. eapply lookup_lt_Some. exact Hi.
  - intros l c c' st st' Hstep Hst Hfb Hst' Hfb'.
    destruct (step_leaves_fallback p l c c' st st' Hstep Hst Hfb Hst' Hfb')
      as [Hcli | (probe & tie & Hl & Hprobe & Hsw & Hpoll & Hleave)];
      [left; exact Hcli | right].
    destruct (isClipboardResponsive_true probe tie Hprobe) as (after & Hafter & Hin).
    exists probe, tie, after. repeat split; assumption.
  - intros c Hleaving. cbn [step].
    destruct (leaving c) as [| n] eqn:Hl; [lia |]. split; [eauto |].
    intros received c' Hstep. unfold pollingTasks.
    destruct received; [destruct (waiting c) as [| w] eqn:Hw; [discriminate |] |];
      injection Hstep as <-; cbn; repeat split; lia.
Qed.
End clipboard_proofs.

(** ** The theorems at concrete inputs *)
Module instances.
Import aux.

(** The small instance satisfies the laws. *)
Lemma toy_codec : CodecLaws toy.lib.
Proof.
  split.
  - intros b.
    unfold DecodeString, EncodeToString, toy.lib, toy.decode, toy.encode,
      bytes_of_string, string_of_bytes.
    simpl. cbv [String.append].
    rewrite String.list_byte_of_string_of_list_byte. reflexivity.
  - intros [k h]. reflexivity.
  - intros s. discriminate.
  - intros k. discriminate.
Qed.

Lemma toy_signature : SignatureLaws toy.lib.
Proof.
  split.
  - intros K rnd h sig [= <-]. cbn. unfold toy.verify.
    apply bool_decide_eq_true. reflexivity.
  - intros K rnd h h' sig [= <-]. cbn. unfold toy.verify.
    intros Hver. apply bool_decide_eq_true in Hver. congruence.
Qed.

(** The client of [toy.env] sends [toy.request] and the gate lets it
    through; the same request with another body gets 401. *)
Lemma signed_request_passes_gate_witness :
  commands.getSigner (L := toy.lib) toy.env = inl Byte.x07
  /\ toy.store !! toy.fingerprint Byte.x07 = Some Byte.x07
  /\ commands.doHTTPSRequest (L := toy.lib) toy.env tt toy.net
       "POST" "https://localhost:2850/copy" "hello"
     = (inr "connection refused", [toy.request Byte.x07 "hello"])
  /\ server.authMiddleware (L := toy.lib) toy.echo toy.store
       (toy.request Byte.x07 "hello") http.emptyResponse
     = http.mkResponseWriter (Some 200) "hello"
  /\ http.status
       (server.authMiddleware (L := toy.lib) toy.echo toy.store
          (withBody (toy.request Byte.x07 "hello") (bytes_of_string "hellp"))
          http.emptyResponse)
     = Some 401.
Proof.
  assert (commands.getSigner (L := toy.lib) toy.env = inl Byte.x07) as HK
    by (vm_compute; reflexivity).
  assert (toy.store !! toy.fingerprint Byte.x07 = Some Byte.x07) as Hks
    by (vm_compute; reflexivity).
  assert (commands.doHTTPSRequest (L := toy.lib) toy.env tt toy.net
            "POST" "https://localhost:2850/copy" "hello"
          = (inr "connection refused", [toy.request Byte.x07 "hello"])) as Hdo
    by (vm_compute; reflexivity).
  destruct (endtoend_proofs.signed_request_passes_gate (L := toy.lib)
              toy_codec toy_signature toy.env tt toy.net
              "POST" "https://localhost:2850/copy" "hello" toy.store Byte.x07
              (inr "connection refused") [toy.request Byte.x07 "hello"]
              (toy.request Byte.x07 "hello") HK Hks Hdo (list_elem_of_here _ _))
    as (sig & Hsig & Hbody & Hfp & Hsig64 & Hpass & Hgate & Htamper).
  split; [exact HK |]. split; [exact Hks |]. split; [exact Hdo |]. split.
  - rewrite Hpass. reflexivity.
  - rewrite (Htamper (bytes_of_string "hellp")); [reflexivity | discriminate].
Defined.

(** The four rejections of the gate, each at a request of its own. *)
Lemma authMiddleware_rejections_witness :
  http.status (server.authMiddleware (L := toy.lib) toy.echo toy.store
                 toy.request_bare http.emptyResponse) = Some 401
  /\ http.status (server.authMiddleware (L := toy.lib) toy.echo toy.store
                    toy.request_unknown http.emptyResponse) = Some 401
  /\ http.status (server.authMiddleware (L := toy.lib) toy.echo toy.store
                    toy.request_garbled http.emptyResponse) = Some 400
  /\ http.status (server.authMiddleware (L := toy.lib) toy.echo toy.store
                    (toy.request Byte.x08 "hello") http.emptyResponse) = Some 401.
Proof.
  split; [| split; [| split]].
  - pose proof (server_proofs.authMiddleware_rejections (L := toy.lib)
                  toy.store toy.request_bare) as H.
    cbv zeta in H. destruct H as (Hmissing & _).
    rewrite (Hmissing (or_introl eq_refl)). reflexivity.
  - pose proof (server_proofs.authMiddleware_rejections (L := toy.lib)
                  toy.store toy.request_unknown) as H.
    cbv zeta in H. destruct H as (_ & Hunknown & _).
    destruct Hunknown as (msg & Hmsg & _); [vm_compute; reflexivity |].
    rewrite Hmsg. reflexivity.
  - pose proof (server_proofs.authMiddleware_rejections (L := toy.lib)
                  toy.store toy.request_garbled) as H.
    cbv zeta in H. destruct H as (_ & _ & Hbad & _).
    destruct (Hbad Byte.x07 []) as (msg & Hmsg).
    + discriminate.
    + discriminate.
    + vm_compute. reflexivity.
    + reflexivity.
    + left. vm_compute. reflexivity.
    + rewrite Hmsg. reflexivity.
  - pose proof (server_proofs.authMiddleware_rejections (L := toy.lib)
                  toy.store (toy.request Byte.x08 "hello")) as H.
    cbv zeta in H. destruct H as (_ & _ & _ & Hforged).
    rewrite (Hforged Byte.x07 (bytes_of_string "hello")
               (toy.marshal (Byte.x08, bytes_of_string "hello"))
               (Byte.x08, bytes_of_string "hello")).
    + reflexivity.
    + discriminate.
    + discriminate.
    + vm_compute. reflexivity.
    + reflexivity.
    + vm_compute. reflexivity.
    + reflexivity.
    + vm_compute. reflexivity.
Defined.

(** Two keys and a line of garbage: a store of two entries. *)
Lemma loadAuthorizedKeys_total_witness :
  exists m,
    server.loadAuthorizedKeys (L := toy.lib) toy.fs_keys
      "/home/u/.config/pb/authorized_keys" = server.Loaded m
    /\ size m = 2%nat
    /\ server.Serve_authorizedKeys (L := toy.lib) (Some toy.home) toy.fs_keys = inl m
    /\ server.loadAuthorizedKeys (L := toy.lib) ∅ "/home/u/.config/pb/authorized_keys"
       = server.Loaded ∅.
Proof.
  destruct (server_proofs.loadAuthorizedKeys_total (L := toy.lib) toy.fs_keys
              "/home/u/.config/pb/authorized_keys") as (_ & Htwo & _ & Hserve).
  destruct (Htwo toy.keyLines [Byte.x6b; Byte.x01] [Byte.x6b; Byte.x02]
              (bytes_of_string "garbage") Byte.x01 Byte.x02)
    as (m & Hload & Hsize & _).
  - vm_compute. reflexivity.
  - apply perm_skip, perm_swap.
  - repeat constructor; vm_compute; intros Hin;
      repeat (apply elem_of_cons in Hin as [Hin | Hin]; [discriminate |]);
      inversion Hin.
  - reflexivity.
  - reflexivity.
  - reflexivity.
  - discriminate.
  - exists m. split; [exact Hload |]. split; [exact Hsize |]. split.
    + destruct (Hserve toy.home) as (store & Hstore & Hs).
      * reflexivity.
      * vm_compute. discriminate.
      * rewrite Hs. congruence.
    + destruct (server_proofs.loadAuthorizedKeys_total (L := toy.lib) ∅
                  "/home/u/.config/pb/authorized_keys") as (_ & _ & Habsent & _).
      apply Habsent. reflexivity.
Defined.

(** A request that passes the gate reaches the handler with its body. *)
Example authMiddleware_forwards :
  server.authMiddleware (L := toy.lib) toy.echo toy.store
    (toy.request Byte.x07 "hello") http.emptyResponse
  = toy.echo (toy.request Byte.x07 "hello") http.emptyResponse.
Proof. vm_compute. reflexivity. Qed.

(** Key resolution at three clients: an explicit path, the program key,
    no key at all. *)
Lemma getSigner_first_existing_witness :
  commands.getSigner (L := toy.lib) toy.env_explicit = inl Byte.x09
  /\ commands.getSigner (L := toy.lib) toy.env = inl Byte.x07
  /\ commands.doHTTPSRequest (L := toy.lib) toy.env_no_key tt toy.net
       "GET" "https://localhost:2850/paste" ""
     = (inr commands.noPrivateKeyFound, []).
Proof.
  split; [| split].
  - destruct (commands_proofs.getSigner_first_existing (L := toy.lib) toy.env_explicit)
      as (Hexplicit & _).
    rewrite Hexplicit; [vm_compute; reflexivity | discriminate].
  - destruct (commands_proofs.getSigner_first_existing (L := toy.lib) toy.env)
      as (_ & Hsearch & _).
    destruct (Hsearch toy.home eq_refl eq_refl) as (_ & Hget).
    rewrite Hget. vm_compute. reflexivity.
  - destruct (commands_proofs.getSigner_first_existing (L := toy.lib) toy.env_no_key)
      as (_ & _ & Hnet).
    apply Hnet. vm_compute. reflexivity.
Defined.

(** The program-specific key file exists and does not parse, a default SSH
    key file exists and parses: the first existing, parseable file is the
    latter, and the code fails on the former. *)
Lemma first_parseable_file_does_not_win :
  commands.spec_resolveKey (L := toy.lib) toy.env_unparseable_first = Some Byte.x07
  /\ commands.getSigner (L := toy.lib) toy.env_unparseable_first
     = inr "could not parse private key".
Proof. split; vm_compute; reflexivity. Qed.

(** With only [xclip] installed the argument lists are those of [xclip]. *)
Lemma cli_args_never_empty_witness :
  clipboard_cli.pasteCmdArgs
    (clipboard_cli.initCLIClipboard toy.host_xclip clipboard_cli.initialGlobals) <> []
  /\ clipboard_cli.ReadClipboardCLI toy.exec_ok clipboard_cli.initialGlobals
     = clipboard_cli.Returns (inr clipboard_cli.clipboardUnavailableErr)
  /\ exists res,
       clipboard_cli.WriteClipboardCLI toy.exec_ok
         (clipboard_cli.initCLIClipboard toy.host_xclip clipboard_cli.initialGlobals)
         [Byte.x41]
       = clipboard_cli.Returns res.
Proof.
  destruct (clipboard_cli_proofs.cli_args_never_empty toy.host_xclip toy.exec_ok)
    as (Hoff & Hset & Hinit & Hpres & Hsafe).
  split; [| split].
  - apply (Hset clipboard_cli.initialGlobals); reflexivity.
  - apply (Hoff clipboard_cli.initialGlobals [Byte.x41]). reflexivity.
  - apply (Hsafe _ [Byte.x41]). apply Hpres. exact Hinit.
Defined.

(** A [Copy] that hangs on the system clipboard, then a [Paste]. *)
Lemma timeout_fails_over_witness :
  clipboard.Copy clipboard.Hangs false [Byte.x41] toy.manager_system
  = (clipboard.Returns None,
     clipboard.mkManager
       (Some (clipboard.mkState (Some clipboard.InMemory)
                (clipboard.mkInMemory [Byte.x41]) true)) 1)
  /\ fst (clipboard.Paste clipboard.Hangs false
            (snd (clipboard.Copy clipboard.Hangs false [Byte.x41] toy.manager_system)))
     = clipboard.Returns ([Byte.x41], None)
  /\ fst (clipboard.Paste (clipboard.Responds 3000000000 ([Byte.x42], None)) true
            toy.manager_system)
     = clipboard.Returns ([], None).
Proof.
  destruct (clipboard_proofs.timeout_fails_over toy.manager_system
              (clipboard.mkState (Some clipboard.System) (clipboard.mkInMemory []) false)
              clipboard.System false eq_refl eq_refl ltac:(discriminate) eq_refl)
    as (Hcopy & _).
  destruct (Hcopy [Byte.x41] clipboard.Hangs I) as (Hc & _ & _ & Hp).
  split; [exact Hc |]. split.
  - rewrite Hc. cbn [snd]. rewrite Hp. reflexivity.
  - destruct (clipboard_proofs.timeout_fails_over toy.manager_system
                (clipboard.mkState (Some clipboard.System) (clipboard.mkInMemory []) false)
                clipboard.System true eq_refl eq_refl ltac:(discriminate) eq_refl)
      as (_ & Hpaste).
    destruct (Hpaste (clipboard.Responds 3000000000 ([Byte.x42], None))) as (Hp' & _).
    + cbn. unfold clipboard.Second. lia.
    + rewrite Hp'. reflexivity.
Defined.

(** The empty sequence and a sequence that is not UTF-8 come back from the
    fallback as they went in. *)
Lemma Copy_Paste_in_memory_witness :
  (exists m',
     clipboard.Copy clipboard.Hangs false [] toy.manager_fallback
     = (clipboard.Returns None, m')
     /\ clipboard.Paste clipboard.Hangs false m' = (clipboard.Returns ([], None), m'))
  /\ (exists m',
        clipboard.Copy clipboard.Hangs false [Byte.xff; Byte.xfe; Byte.x00]
          toy.manager_fallback
        = (clipboard.Returns None, m')
        /\ clipboard.Paste clipboard.Hangs false m'
           = (clipboard.Returns ([Byte.xff; Byte.xfe; Byte.x00], None), m')).
Proof.
  split.
  - destruct (clipboard_proofs.Copy_Paste_in_memory []) as (_ & Hfallback & _).
    destruct (Hfallback toy.manager_fallback _ clipboard.Hangs false eq_refl)
      as (m' & Hc & Hp).
    + split; reflexivity.
    + reflexivity.
    + exists m'. split; [exact Hc | apply Hp].
  - destruct (clipboard_proofs.Copy_Paste_in_memory [Byte.xff; Byte.xfe; Byte.x00])
      as (_ & Hfallback & _).
    destruct (Hfallback toy.manager_fallback _ clipboard.Hangs false eq_refl)
      as (m' & Hc & Hp).
    + split; reflexivity.
    + reflexivity.
    + exists m'. split; [exact Hc | apply Hp].
Defined.

(** [Copy(X)] is served by the system clipboard in time; the [Paste()] that
    follows hangs, fails over and returns what the fallback holds, which
    is not [X]. *)
Lemma round_trip_lost_on_failover :
  fst (clipboard.Copy (clipboard.Responds 1000 None) false [Byte.x41] toy.manager_system)
  = clipboard.Returns None
  /\ fst (clipboard.Paste clipboard.Hangs false
            (snd (clipboard.Copy (clipboard.Responds 1000 None) false [Byte.x41]
                    toy.manager_system)))
     = clipboard.Returns ([], None)
  /\ ([] : bytes) <> [Byte.x41].
Proof. split; [| split]; [vm_compute; reflexivity | vm_compute; reflexivity | discriminate]. Qed.

(** The state after the failure episode of [toy.trace_episode]. *)
Lemma usingFallback_iff_fallback_active_witness :
  exists c st,
    clipboard.run toy.desktop clipboard.anyStep toy.trace_episode clipboard.initialConfig
    = Some c
    /\ clipboard.shared c = Some st
    /\ (clipboard.usingFallback st = true <-> clipboard.active st = Some clipboard.InMemory).
Proof.
  destruct (clipboard_proofs.usingFallback_iff_fallback_active toy.desktop)
    as (_ & _ & _ & _ & _ & _ & _ & Hrun).
  destruct (clipboard.run toy.desktop clipboard.anyStep toy.trace_episode
              clipboard.initialConfig) as [c |] eqn:Hc;
    [| vm_compute in Hc; discriminate].
  destruct (clipboard.shared c) as [st |] eqn:Hst.
  - exists c, st. split; [reflexivity |]. split; [exact Hst |].
    exact (Hrun toy.trace_episode c Hc st Hst).
  - exfalso. vm_compute in Hc. injection Hc as <-. discriminate.
Defined.

(** While the recovery task of [toy.trace_episode] polls there is one such
    task, and the manager is on the fallback. *)
Lemma one_polling_task_witness :
  exists c,
    clipboard.run toy.desktop clipboard.cliOverrideWhenIdle
      (take 10 toy.trace_episode) clipboard.initialConfig = Some c
    /\ clipboard.pollingTasks c = 1%nat
    /\ (clipboard.pollingTasks c <= 1)%nat
    /\ exists st, clipboard.shared c = Some st /\ clipboard.usingFallback st = true.
Proof.
  destruct (clipboard_proofs.one_polling_task toy.desktop) as (Hone & _).
  destruct (clipboard.run toy.desktop clipboard.cliOverrideWhenIdle
              (take 10 toy.trace_episode) clipboard.initialConfig) as [c |] eqn:Hc;
    [| vm_compute in Hc; discriminate].
  destruct (Hone (take 10 toy.trace_episode) c Hc) as (Hle & Hfb).
  assert (clipboard.pollingTasks c = 1%nat) as Hpoll.
  { vm_compute in Hc. injection Hc as <-. reflexivity. }
  exists c. split; [reflexivity |]. split; [exact Hpoll |].
  split; [exact Hle |]. apply Hfb. rewrite Hpoll. lia.
Defined.

(** [UseCliClipboard] while a recovery task polls, then a second timeout:
    two recovery tasks poll at once, and the manager has left the fallback
    outside any recovery task. *)
Lemma two_polling_tasks_after_cli_override :
  exists c,
    clipboard.run toy.desktop clipboard.anyStep toy.trace_cli_override
      clipboard.initialConfig = Some c
    /\ clipboard.pollingTasks c = 2%nat
    /\ exists c8 c9 st8 st9,
         clipboard.run toy.desktop clipboard.anyStep (take 8 toy.trace_cli_override)
           clipboard.initialConfig = Some c8
         /\ clipboard.step toy.desktop clipboard.LUseCliClipboard c8 = Some c9
         /\ clipboard.shared c8 = Some st8 /\ clipboard.usingFallback st8 = true
         /\ clipboard.shared c9 = Some st9 /\ clipboard.usingFallback st9 = false
         /\ clipboard.pollingTasks c9 = 1%nat.
Proof.
  eexists. split; [vm_compute; reflexivity |]. split; [reflexivity |].
  eexists. eexists. eexists. eexists.
  split; [vm_compute; reflexivity |]. split; [vm_compute; reflexivity |].
  repeat split.
Qed.
End instances.

(** ** More on the clipboard manager *)
Module clipboard_more.
Import clipboard aux aux_clipboard.
Local Open Scope list_scope.

(** X1.  An error that a primary backend returns within the timeout is
    handed to the caller as it is: there is no failover, the manager stays
    as it was, and [Paste] returns no data with the error. *)
Theorem primary_error_is_returned (st : clipboardState) (n : nat) (a : clipboarder)
    (tie : bool) (after : Z) (err : error) :
  active st = Some a -> a <> InMemory -> usingFallback st = false ->
  (after < clipboardTimeout)%Z ->
  (forall d,
     Copy (Responds after (Some err)) tie d (mkManager (Some st) n)
     = (Returns (Some err), mkManager (Some st) n))
  /\ (forall partial,
        Paste (Responds after (partial, Some err)) tie (mkManager (Some st) n)
        = (Returns ([], Some err), mkManager (Some st) n)).
Proof.
  intros Ha Hprimary Hfb Hintime. split.
  - intros d. unfold Copy. cbn [state]. rewrite Ha.
    assert (clipboarder_Copy a d (Responds after (Some err)) st
            = (Responds after (Some err), st)) as ->.
    { destruct a; [congruence | reflexivity | reflexivity]. }
    cbn [isUsingFallback selectWithin]. rewrite Hfb.
    destruct (Z.ltb_spec after clipboardTimeout); [reflexivity | lia].
  - intros partial. unfold Paste. cbn [state]. rewrite Ha.
    assert (clipboarder_Paste a (Responds after (partial, Some err)) st
            = Responds after (partial, Some err)) as ->.
    { destruct a; [congruence | reflexivity | reflexivity]. }
    cbn [isUsingFallback selectWithin]. rewrite Hfb.
    destruct (Z.ltb_spec after clipboardTimeout); [reflexivity | lia].
Qed.

(** X2.  Recovery.  With a recovery task waiting, a tick followed by a
    probe that answers within the timeout puts the primary backend of the
    platform back as the active one, clears [usingFallback], keeps what the
    fallback holds and ends the task; a [Paste] that follows is answered
    by the primary backend.  A probe that does not answer in time changes
    nothing: the task waits for the next tick. *)
Theorem recovery_returns_to_primary (p : Platform) (c : config) (st : clipboardState)
    (w : nat) (tie : bool) :
  shared c = Some st -> waiting c = S w ->
  (forall after,
     (after < clipboardTimeout)%Z ->
     let st' := mkState (Some (getPrimaryClipboard p)) (fallback st) false in
     run p anyStep [LTick; LProbe (Responds after tt) tie; LSignal false] c
     = Some (mkConfig (Some st') w (probing c) (leaving c) (threads c))
     /\ forall t d tie',
          (t < clipboardTimeout)%Z ->
          Paste (Responds t (d, None)) tie' (mkManager (Some st') w)
          = (Returns (d, None), mkManager (Some st') w))
  /\ (forall probe,
        exceeds clipboardTimeout probe ->
        run p anyStep [LTick; LProbe probe tie] c = Some c).
Proof.
  intros Hst Hw. split.
  - intros after Hintime st'. split.
    + cbn [run anyStep step]. rewrite Hw. cbn [probing waiting shared leaving threads].
      unfold isClipboardResponsive. cbn [selectWithin].
      destruct (Z.ltb_spec after clipboardTimeout); [| lia].
      rewrite Hst. reflexivity.
    + intros t d tie' Ht. unfold Paste. cbn [state active st'].
      assert (clipboarder_Paste (getPrimaryClipboard p) (Responds t (d, None)) st'
              = Responds t (d, None)) as ->.
      { unfold getPrimaryClipboard. destruct (android p); reflexivity. }
      cbn [isUsingFallback usingFallback st' selectWithin].
      destruct (Z.ltb_spec t clipboardTimeout); [reflexivity | lia].
  - intros probe Hlate. cbn [run anyStep step]. rewrite Hw.
    cbn [probing waiting shared leaving threads].
    unfold isClipboardResponsive.
    rewrite (clipboard_proofs.selectWithin_exceeds clipboardTimeout probe tie Hlate).
    destruct c as [sh wt pr lv th]. cbn in *. subst. reflexivity.
Qed.

(** *** What the fallback holds *)

Lemma copied_insert (ts : list (call * pc)) : forall (i : nat) (cl : call) (pc0 pc1 : pc),
  ts !! i = Some (cl, pc0) ->
  omap (fun t : call * pc =>
          match fst t with CallCopy d => Some d | CallPaste => None end)
       (<[i := (cl, pc1)]> ts)
  = omap (fun t : call * pc =>
            match fst t with CallCopy d => Some d | CallPaste => None end) ts.
Proof.
  induction ts as [| t0 ts IH]; intros [| i] cl pc0 pc1 Hi; cbn in Hi; try discriminate.
  - injection Hi as ->. reflexivity.
  - change (<[S i := (cl, pc1)]> (t0 :: ts)) with (t0 :: <[i := (cl, pc1)]> ts).
    cbn [omap list_omap]. rewrite (IH i cl pc0 pc1 Hi). reflexivity.
Qed.

Lemma copied_setThread (c : config) (i : nat) (cl : call) (pc0 pc1 : pc)
    (sh : option clipboardState) (w : nat) :
  threads c !! i = Some (cl, pc0) ->
  copied (setThread c i (cl, pc1) sh w) = copied c.
Proof. intros Hi. unfold copied, setThread. cbn. eapply copied_insert. exact Hi. Qed.

Lemma copied_thread (c : config) (i : nat) (d : bytes) (pc0 : pc) :
  threads c !! i = Some (CallCopy d, pc0) -> d ∈ copied c.
Proof.
  intros Hi. unfold copied. apply list_elem_of_omap.
  exists (CallCopy d, pc0). split; [| reflexivity].
  eapply list_elem_of_lookup_2. exact Hi.
Qed.

(** What a call on a backend does to what the fallback holds. *)
Lemma perform_data (a : clipboarder) (cl : call) (sys : response result)
    (st st1 : clipboardState) (answer : response result) :
  perform a cl sys st = (answer, st1) ->
  data (fallback st1) = data (fallback st)
  \/ exists d, cl = CallCopy d /\ data (fallback st1) = d.
Proof.
  unfold perform, clipboarder_Copy. intros Hperf.
  destruct cl as [d |]; [| injection Hperf as _ <-; left; reflexivity].
  destruct a; cbn in Hperf; injection Hperf as _ <-;
    [right; exists d; split; reflexivity | left; reflexivity | left; reflexivity].
Qed.

Lemma retry_data (cl : call) (st st' : clipboardState) (res : result) :
  retry cl st = (res, st') ->
  data (fallback st') = data (fallback st)
  \/ exists d, cl = CallCopy d /\ data (fallback st') = d.
Proof.
  unfold retry. intros Hretry. destruct cl as [d |]; cbn in Hretry;
    injection Hretry as _ <-; [right; exists d; split; reflexivity | left; reflexivity].
Qed.

Lemma storedWasCopied_setThread (c : config) (i : nat) (cl : call) (pc0 pc1 : pc)
    (st st1 : clipboardState) (w : nat) :
  threads c !! i = Some (cl, pc0) -> shared c = Some st ->
  (data (fallback st1) = data (fallback st)
   \/ exists d, cl = CallCopy d /\ data (fallback st1) = d) ->
  storedWasCopied c -> storedWasCopied (setThread c i (cl, pc1) (Some st1) w).
Proof.
  intros Hi Hst Hdata Hinv st' Hst'. cbn in Hst'. injection Hst' as <-.
  rewrite (copied_setThread c i cl pc0 pc1 _ w Hi).
  destruct Hdata as [Hsame | (d & -> & Hd)].
  - rewrite Hsame. apply Hinv. exact Hst.
  - right. rewrite Hd. eapply copied_thread. exact Hi.
Qed.

Lemma step_storedWasCopied (p : Platform) (l : label) (c c' : config) :
  step p l c = Some c' -> storedWasCopied c -> storedWasCopied c'.
Proof.
  intros Hstep Hinv. destruct l; cbn [step] in Hstep.
  - injection Hstep as <-. intros st Hst. cbn in Hst.
    destruct (shared c) as [st0 |] eqn:Hsh; cbn in Hst.
    + injection Hst as <-. apply Hinv. exact Hsh.
    + injection Hst as <-. left. unfold initPlatformClipboard.
      destruct (android p), (nativeInit_ok p), (CLIClipboardAvailable p); reflexivity.
  - injection Hstep as <-. intros st Hst. cbn in Hst.
    destruct (shared c) as [st0 |] eqn:Hsh; cbn in Hst; [| discriminate].
    injection Hst as <-. apply (Hinv st0 Hsh).
  - injection Hstep as <-. intros st Hst. cbn in Hst.
    destruct (shared c) as [st0 |] eqn:Hsh; cbn in Hst; [| discriminate].
    injection Hst as <-. apply (Hinv st0 Hsh).
  - injection Hstep as <-. intros st Hst. cbn in Hst.
    destruct (Hinv st Hst) as [Hempty | Hin]; [left; exact Hempty | right].
    unfold copied in *. cbn. rewrite omap_app. apply elem_of_app. left. exact Hin.
  - destruct (threads c !! i) as [[cl []] |] eqn:Hi; try discriminate.
    destruct (getActiveClipboard (shared c)); injection Hstep as <-;
      intros st Hst; cbn in Hst;
      rewrite (copied_setThread c i cl _ _ _ _ Hi); apply Hinv; exact Hst.
  - destruct (threads c !! i) as [[cl []] |] eqn:Hi; try discriminate.
    destruct (isUsingFallback (shared c)); injection Hstep as <-;
      intros st Hst; cbn in Hst;
      rewrite (copied_setThread c i cl _ _ _ _ Hi); apply Hinv; exact Hst.
  - destruct (threads c !! i) as [[cl []] |] eqn:Hi; try discriminate.
    destruct (shared c) as [st |] eqn:Hsh; [| discriminate].
    destruct (perform a cl sys st) as [[after res |] st1] eqn:Hperf; [| discriminate].
    injection Hstep as <-.
    eapply storedWasCopied_setThread; eauto. eapply perform_data; eauto.
  - destruct (threads c !! i) as [[cl []] |] eqn:Hi; try discriminate.
    destruct (shared c) as [st |] eqn:Hsh; [| discriminate].
    destruct (perform a cl sys st) as [answer st1] eqn:Hperf.
    destruct (selectWithin clipboardTimeout answer tie); injection Hstep as <-.
    + eapply storedWasCopied_setThread; eauto. eapply perform_data; eauto.
    + eapply storedWasCopied_setThread; eauto.
  - destruct (threads c !! i) as [[cl []] |] eqn:Hi; try discriminate.
    destruct (shared c) as [st |] eqn:Hsh; [| discriminate].
    unfold switchToFallback_locked in Hstep. injection Hstep as <-.
    eapply storedWasCopied_setThread; eauto.
  - destruct (threads c !! i) as [[cl []] |] eqn:Hi; try discriminate.
    injection Hstep as <-. intros st Hst. cbn in Hst.
    rewrite (copied_setThread c i cl _ _ _ _ Hi). apply Hinv. exact Hst.
  - destruct (threads c !! i) as [[cl []] |] eqn:Hi; try discriminate.
    destruct (shared c) as [st |] eqn:Hsh; [| discriminate].
    destruct (retry cl st) as [res st'] eqn:Hretry. injection Hstep as <-.
    eapply storedWasCopied_setThread; eauto. eapply retry_data; eauto.
  - destruct (waiting c); [discriminate |]. injection Hstep as <-. exact Hinv.
  - destruct (probing c); [discriminate |].
    destruct (isClipboardResponsive probe tie).
    + destruct (shared c) as [st0 |] eqn:Hsh; injection Hstep as <-;
        intros st Hst; cbn in Hst; [| discriminate].
      injection Hst as <-. apply (Hinv st0 Hsh).
    + injection Hstep as <-. exact Hinv.
  - destruct (leaving c); [discriminate |].
    destruct received; [destruct (waiting c); [discriminate |] |];
      injection Hstep as <-; exact Hinv.
Qed.

(** X3.  In every interleaving of calls, recovery tasks and manual
    switches, what the in-memory clipboard holds is either empty (it was
    never written) or exactly the byte sequence that one of the [Copy]
    calls was given: [Paste], failover, recovery, [Init] and the manual
    switches never put anything else there. *)
Theorem stored_bytes_were_copied (p : Platform) (guard : label -> config -> bool)
    (ls : list label) (c : config) (st : clipboardState) :
  run p guard ls initialConfig = Some c -> shared c = Some st ->
  data (fallback st) = []
  \/ exists i pc0, threads c !! i = Some (CallCopy (data (fallback st)), pc0).
Proof.
  intros Hrun Hst.
  assert (forall ls c0 c1, run p guard ls c0 = Some c1 ->
            storedWasCopied c0 -> storedWasCopied c1) as Hruns.
  { clear. induction ls as [| l ls IH]; intros c0 c1 Hrun Hc0; cbn [run] in Hrun.
    - injection Hrun as <-. exact Hc0.
    - destruct (guard l c0); [| discriminate].
      destruct (step p l c0) as [c' |] eqn:Hstep; [| discriminate].
      eapply IH; [exact Hrun |]. eapply step_storedWasCopied; eauto. }
  assert (storedWasCopied initialConfig) as Hinit by (intros st0 Hst0; discriminate).
  destruct (Hruns ls initialConfig c Hrun Hinit st Hst) as [Hempty | Hin];
    [left; exact Hempty | right].
  unfold copied in Hin. apply list_elem_of_omap in Hin as ([cl pc0] & Hin & Hcl).
  apply list_elem_of_lookup in Hin as [i Hi]. cbn in Hcl.
  destruct cl as [d |]; [| discriminate]. injection Hcl as ->.
  exists i, pc0. exact Hi.
Qed.

(** *** Calls that race on the fallback *)

Lemma elem_of_insert_inv {A : Type} (l : list A) : forall (i : nat) (x y : A),
  x ∈ <[i := y]> l -> x = y \/ x ∈ l.
Proof.
  induction l as [| z l IH]; intros [| i] x y Hin; cbn in Hin; try (right; exact Hin).
  - apply elem_of_cons in Hin as [-> | Hin]; [left; reflexivity | right].
    apply elem_of_cons. right. exact Hin.
  - change (<[S i := y]> (z :: l)) with (z :: <[i := y]> l) in Hin.
    apply elem_of_cons in Hin as [-> | Hin].
    + right. apply elem_of_cons. left. reflexivity.
    + destruct (IH i x y Hin) as [-> | Hin']; [left; reflexivity | right].
      apply elem_of_cons. right. exact Hin'.
Qed.

(** A goroutine moves while the manager stays on the fallback. *)
Lemma fallbackOnly_move (c : config) (i : nat) (cl : call) (pc0 pc1 : pc)
    (st st1 : clipboardState) :
  threads c !! i = Some (cl, pc0) -> shared c = Some st ->
  active st1 = Some InMemory -> usingFallback st1 = true ->
  servedByFallback (cl, pc1) ->
  (data (fallback st1) = data (fallback st)
   /\ (forall d res, (cl, pc1) <> (CallCopy d, Finished res))
   \/ exists d, cl = CallCopy d /\ data (fallback st1) = d) ->
  fallbackOnly c -> fallbackOnly (setThread c i (cl, pc1) (Some st1) (waiting c)).
Proof.
  intros Hi Hsh Hact1 Hfb1 Hserved Hdata (st0 & Hsh0 & _ & _ & Hw & Hp & Hl & Hall & Hold).
  rewrite Hsh in Hsh0. injection Hsh0 as <-.
  exists st1. cbn. repeat split; try assumption.
  - apply Forall_insert; assumption.
  - intros (d & res & Hin). change (data (fallback st1) ∈ copied
      (setThread c i (cl, pc1) (Some st1) (waiting c))).
    rewrite (copied_setThread c i cl pc0 pc1 _ _ Hi).
    destruct Hdata as [[Hsame Hnot] | (d' & -> & Hd')].
    + rewrite Hsame. apply Hold.
      apply elem_of_insert_inv in Hin as [Heq | Hin]; [| eauto].
      exfalso. exact (Hnot d res (eq_sym Heq)).
    + rewrite Hd'. eapply copied_thread. exact Hi.
Qed.

Lemma step_fallbackOnly (p : Platform) (l : label) (c c' : config) :
  callsOnly l c = true -> step p l c = Some c' -> fallbackOnly c -> fallbackOnly c'.
Proof.
  intros Hguard Hstep Hinv.
  pose proof Hinv as (st & Hsh & Hact & Hfb & Hw & Hp & Hl & Hall & Hold).
  destruct l; cbn [step] in Hstep; try discriminate Hguard.
  - (* a new call *)
    injection Hstep as <-. exists st. cbn. repeat split; try assumption.
    + apply Forall_app. split; [exact Hall |]. constructor; [| constructor].
      destruct cl; exact I.
    + intros (d & res & Hin). unfold copied. cbn. rewrite omap_app.
      apply elem_of_app. left. apply Hold.
      apply elem_of_app in Hin as [Hin | Hin]; [eauto |].
      apply list_elem_of_singleton in Hin. discriminate.
  - (* getActiveClipboard *)
    destruct (threads c !! i) as [[cl []] |] eqn:Hi; try discriminate.
    rewrite Hsh in Hstep. cbn in Hstep. rewrite Hact in Hstep. injection Hstep as <-.
    apply (fallbackOnly_move c i cl AtStart (GotActive InMemory) st st Hi Hsh Hact Hfb);
      [destruct cl; exact I | | exact Hinv].
    left. split; [reflexivity |]. intros d res Habs. discriminate.
  - (* isUsingFallback *)
    destruct (threads c !! i) as [[cl []] |] eqn:Hi; try discriminate.
    rewrite Hsh in Hstep. cbn in Hstep. rewrite Hfb in Hstep. injection Hstep as <-.
    pose proof (Forall_lookup_1 _ _ _ _ Hall Hi) as Hthread.
    apply (fallbackOnly_move c i cl (GotActive a) (Direct a) st st Hi Hsh Hact Hfb);
      [destruct cl, a; try exact I; destruct Hthread | | exact Hinv].
    left. split; [reflexivity |]. intros d res Habs. discriminate.
  - (* the direct call *)
    destruct (threads c !! i) as [[cl []] |] eqn:Hi; try discriminate.
    rewrite Hsh in Hstep.
    pose proof (Forall_lookup_1 _ _ _ _ Hall Hi) as Hthread.
    assert (a = InMemory) as -> by (destruct cl, a; try reflexivity; destruct Hthread).
    destruct cl as [d |]; cbn in Hstep; injection Hstep as <-.
    + apply (fallbackOnly_move c i (CallCopy d) (Direct InMemory) (Finished ([], None))
               st (mkState (active st) (mkInMemory d) (usingFallback st)) Hi Hsh Hact Hfb);
        [reflexivity | | exact Hinv].
      right. exists d. split; reflexivity.
    + apply (fallbackOnly_move c i CallPaste (Direct InMemory)
               (Finished (inMemoryClipboard_Paste (fallback st))) st st Hi Hsh Hact Hfb);
        [reflexivity | | exact Hinv].
      left. split; [reflexivity |]. intros d res Habs. discriminate.
  - (* the race: not reached on the fallback *)
    destruct (threads c !! i) as [[cl []] |] eqn:Hi; try discriminate.
    pose proof (Forall_lookup_1 _ _ _ _ Hall Hi) as Hthread.
    destruct cl; destruct Hthread.
  - destruct (threads c !! i) as [[cl []] |] eqn:Hi; try discriminate.
    pose proof (Forall_lookup_1 _ _ _ _ Hall Hi) as Hthread.
    destruct cl; destruct Hthread.
  - destruct (threads c !! i) as [[cl []] |] eqn:Hi; try discriminate.
    pose proof (Forall_lookup_1 _ _ _ _ Hall Hi) as Hthread.
    destruct cl; destruct Hthread.
  - destruct (threads c !! i) as [[cl []] |] eqn:Hi; try discriminate.
    pose proof (Forall_lookup_1 _ _ _ _ Hall Hi) as Hthread.
    destruct cl; destruct Hthread.
  - rewrite Hw in Hstep. discriminate.
  - rewrite Hp in Hstep. discriminate.
  - rewrite Hl in Hstep. discriminate.
Qed.

Lemma run_fallbackOnly (p : Platform) (ls : list label) :
  forall c c', run p callsOnly ls c = Some c' -> fallbackOnly c -> fallbackOnly c'.
Proof.
  induction ls as [| l ls IH]; intros c c' Hrun Hc; cbn [run] in Hrun.
  - injection Hrun as <-. exact Hc.
  - destruct (callsOnly l c) eqn:Hguard; [| discriminate].
    destruct (step p l c) as [c1 |] eqn:Hstep; [| discriminate].
    eapply IH; [exact Hrun |]. eapply step_fallbackOnly; eauto.
Qed.

(** X4.  Calls that run concurrently while the manager is on the fallback:
    in every interleaving each [Copy] that has returned has returned a nil
    error, and once two calls [Copy(A)] and [Copy(B)] have both returned
    the fallback holds exactly [A] or exactly [B]. *)
Theorem concurrent_copies_on_fallback (p : Platform) (d0 : bytes) (ls : list label)
    (c : config) (st : clipboardState) :
  run p callsOnly ls (onFallback d0) = Some c -> shared c = Some st ->
  (forall d res, (CallCopy d, Finished res) ∈ threads c -> res = ([], None))
  /\ (forall A B rA rB,
        threads c = [(CallCopy A, Finished rA); (CallCopy B, Finished rB)] ->
        data (fallback st) = A \/ data (fallback st) = B).
Proof.
  intros Hrun Hst.
  assert (fallbackOnly (onFallback d0)) as Hinit.
  { exists (mkState (Some InMemory) (mkInMemory d0) true). cbn.
    repeat split; try reflexivity; [constructor |].
    intros (d & res & Hin). inversion Hin. }
  destruct (run_fallbackOnly p ls _ c Hrun Hinit)
    as (st0 & Hsh & _ & _ & _ & _ & _ & Hall & Hold).
  rewrite Hst in Hsh. injection Hsh as <-. split.
  - intros d res Hin. rewrite Forall_forall in Hall. exact (Hall _ Hin).
  - intros A B rA rB Hthreads.
    assert (data (fallback st) ∈ copied c) as Hin.
    { apply Hold. exists A, rA. rewrite Hthreads. left. }
    unfold copied in Hin. rewrite Hthreads in Hin. cbn in Hin.
    apply elem_of_cons in Hin as [-> | Hin]; [left; reflexivity |].
    apply elem_of_cons in Hin as [-> | Hin]; [right; reflexivity |].
    inversion Hin.
Qed.

(** *** A call that misses the timeout *)

(** X5.  [getActiveClipboard] and [isUsingFallback] are two critical
    sections.  A call that has read a primary backend as the active one
    and then finds [usingFallback] true (a failover took place in between)
    calls that backend directly, outside the race against the timeout.
    From there on nothing but an answer of the backend moves the call: when
    the backend hangs the call does not return, whatever the other
    goroutines do. *)
Theorem direct_call_has_no_timeout (p : Platform) (i : nat) (cl : call)
    (a : clipboarder) :
  a <> InMemory ->
  (forall c st,
     threads c !! i = Some (cl, GotActive a) -> shared c = Some st ->
     usingFallback st = true ->
     exists c1, step p (LIsUsingFallback i) c = Some c1
       /\ threads c1 !! i = Some (cl, Direct a))
  /\ (forall c, threads c !! i = Some (cl, Direct a) ->
        step p (LDirect i Hangs) c = None)
  /\ (forall c l c',
        threads c !! i = Some (cl, Direct a) -> step p l c = Some c' ->
        threads c' !! i = Some (cl, Direct a)
        \/ exists after res, l = LDirect i (Responds after res)).
Proof.
  intros Hprimary. split; [| split].
  - intros c st Hi Hsh Hfb. cbn [step]. rewrite Hi, Hsh. cbn. rewrite Hfb.
    eexists. split; [reflexivity |]. cbn.
    apply list_lookup_insert_eq. eapply lookup_lt_Some. exact Hi.
  - intros c Hi. cbn [step]. rewrite Hi.
    destruct (shared c) as [st |]; [| reflexivity].
    destruct cl as [d |]; destruct a; try congruence; reflexivity.
  - intros c l c' Hi Hstep.
    assert (forall j t sh w, j <> i ->
              threads (setThread c j t sh w) !! i = Some (cl, Direct a)) as Hother.
    { intros j t sh w Hne. cbn. rewrite list_lookup_insert_ne by exact Hne. exact Hi. }
    destruct l; cbn [step] in Hstep;
      try (injection Hstep as <-; left; exact Hi).
    + injection Hstep as <-. left. cbn.
      rewrite lookup_app_l by (eapply lookup_lt_Some; exact Hi). exact Hi.
    + destruct (decide (i0 = i)) as [-> | Hne]; [rewrite Hi in Hstep; discriminate |].
      destruct (threads c !! i0) as [[cl0 []] |]; try discriminate.
      destruct (getActiveClipboard (shared c)); injection Hstep as <-;
        left; apply Hother; exact Hne.
    + destruct (decide (i0 = i)) as [-> | Hne]; [rewrite Hi in Hstep; discriminate |].
      destruct (threads c !! i0) as [[cl0 []] |]; try discriminate.
      destruct (isUsingFallback (shared c)); injection Hstep as <-;
        left; apply Hother; exact Hne.
    + destruct (decide (i0 = i)) as [-> | Hne].
      * rewrite Hi in Hstep. destruct (shared c) as [st |]; [| discriminate].
        destruct sys as [after res |]; [right; eauto |].
        exfalso. destruct cl as [d |]; destruct a; try congruence; discriminate.
      * destruct (threads c !! i0) as [[cl0 []] |]; try discriminate.
        destruct (shared c) as [st |]; [| discriminate].
        destruct (perform a0 cl0 sys st) as [[after res |] st1]; [| discriminate].
        injection Hstep as <-. left. apply Hother. exact Hne.
    + destruct (decide (i0 = i)) as [-> | Hne]; [rewrite Hi in Hstep; discriminate |].
      destruct (threads c !! i0) as [[cl0 []] |]; try discriminate.
      destruct (shared c) as [st |]; [| discriminate].
      destruct (perform a0 cl0 sys st) as [answer st1].
      destruct (selectWithin clipboardTimeout answer tie); injection Hstep as <-;
        left; apply Hother; exact Hne.
    + destruct (decide (i0 = i)) as [-> | Hne]; [rewrite Hi in Hstep; discriminate |].
      destruct (threads c !! i0) as [[cl0 []] |]; try discriminate.
      destruct (shared c) as [st |]; [| discriminate].
      unfold switchToFallback_locked in Hstep. injection Hstep as <-.
      left. apply Hother. exact Hne.
    + destruct (decide (i0 = i)) as [-> | Hne]; [rewrite Hi in Hstep; discriminate |].
      destruct (threads c !! i0) as [[cl0 []] |]; try discriminate.
      injection Hstep as <-. left. apply Hother. exact Hne.
    + destruct (decide (i0 = i)) as [-> | Hne]; [rewrite Hi in Hstep; discriminate |].
      destruct (threads c !! i0) as [[cl0 []] |]; try discriminate.
      destruct (shared c) as [st |]; [| discriminate].
      destruct (retry cl0 st) as [res st']. injection Hstep as <-.
      left. apply Hother. exact Hne.
    + destruct (waiting c); [discriminate |]. injection Hstep as <-. left. exact Hi.
    + destruct (probing c); [discriminate |].
      destruct (isClipboardResponsive probe tie); [destruct (shared c) |];
        injection Hstep as <-; left; exact Hi.
    + destruct (leaving c); [discriminate |].
      destruct received; [destruct (waiting c); [discriminate |] |];
        injection Hstep as <-; left; exact Hi.
Qed.
End clipboard_more.

(** ** More on the command-line tools *)
Module clipboard_cli_more.
Import clipboard_cli aux_cli.

(** X6.  [initCLIClipboard], run on the initial values, turns the flag on
    exactly when a complete set of tools is installed; the two commands it
    then selects are programs that were found on the PATH; when nothing is
    found the variables keep their initial values; running it again
    changes nothing; [xclip] is taken whenever it is installed and no
    complete Wayland set applies. *)
Theorem initCLIClipboard_selects_installed (h : Host) :
  let g := initCLIClipboard h initialGlobals in
  CLIClipboardAvailable g = toolFound h
  /\ (CLIClipboardAvailable g = true ->
      exists pasteCmd pasteArgs copyCmd copyArgs,
        pasteCmdArgs g = pasteCmd :: pasteArgs
        /\ copyCmdArgs g = copyCmd :: copyArgs
        /\ hasCommand h pasteCmd = true /\ hasCommand h copyCmd = true)
  /\ (CLIClipboardAvailable g = false -> g = initialGlobals)
  /\ initCLIClipboard h g = g
  /\ (hasCommand h cliXclip = true ->
      Getenv h "WAYLAND_DISPLAY" = "" \/ hasCommand h cliWlcopy = false
      \/ hasCommand h cliWlpaste = false ->
      g = mkGlobals true xclipPasteArgs xclipCopyArgs).
Proof.
  unfold initCLIClipboard, toolFound.
  destruct (String.eqb (Getenv h "WAYLAND_DISPLAY") "") eqn:Hway;
    destruct (hasCommand h cliWlcopy) eqn:Hwc;
    destruct (hasCommand h cliWlpaste) eqn:Hwp;
    destruct (hasCommand h cliXclip) eqn:Hxc;
    destruct (hasCommand h cliXsel) eqn:Hxs;
    destruct (hasCommand h cliTermuxClipboardSet) eqn:Hts;
    destruct (hasCommand h cliTermuxClipboardGet) eqn:Htg;
    cbn -[String.eqb]; rewrite ?Hway, ?Hwc, ?Hwp, ?Hxc, ?Hxs, ?Hts, ?Htg;
    cbn -[String.eqb];
    (split; [reflexivity |]); (split; [| split; [| split; [reflexivity |]]]);
    try (intros Habs; discriminate Habs); try reflexivity;
    try (intros _; do 4 eexists; repeat split; eassumption);
    try (intros _; reflexivity);
    try (intros Hx [Hw | [Hw | Hw]]; try discriminate; try reflexivity;
         apply String.eqb_neq in Hway; congruence).
Qed.
End clipboard_cli_more.

(** ** More on the client *)
Module commands_more.
Import commands aux.

Section Request.
Context {L : SSHLib}.

(** X7.  [doHTTPSRequest] hands at most one request to the network (it
    never retries), with the method and URL it was given.  It returns a
    body only when the answer has status 200 and could be read to its end,
    and then returns that body unchanged; an answer with another status
    and an error of the transport are returned as errors. *)
Theorem doHTTPSRequest_single_request (env : Env) (rnd : Entropy) (net : Network)
    (method url data : string) (res : string + error) (sent : list http.Request) :
  doHTTPSRequest env rnd net method url data = (res, sent) ->
  (length sent <= 1)%nat
  /\ (forall req, req ∈ sent -> http.Method req = method /\ http.URL req = url)
  /\ (forall body, res = inl body ->
        exists req resp b,
          sent = [req] /\ Do net req = inl resp /\ StatusCode resp = 200
          /\ http.ReadAll (RespBody resp) = (b, None) /\ body = string_of_bytes b)
  /\ (forall req resp,
        req ∈ sent -> Do net req = inl resp -> StatusCode resp <> 200 ->
        exists err, res = inr err)
  /\ (forall req err, req ∈ sent -> Do net req = inr err -> res = inr err).
Proof.
  unfold doHTTPSRequest. intros Hdo.
  destruct (getSigner env) as [signer | e0].
  2:{ injection Hdo as <- <-.
      split; [cbn; lia |]. split; [intros req Hin; inversion Hin |].
      split; [intros body Habs; discriminate |].
      split; [intros req resp Hin; inversion Hin | intros req err Hin; inversion Hin]. }
  destruct (Signer_Sign signer rnd (Sum256 (bytes_of_string data))) as [sig |].
  2:{ injection Hdo as <- <-.
      split; [cbn; lia |]. split; [intros req Hin; inversion Hin |].
      split; [intros body Habs; discriminate |].
      split; [intros req resp Hin; inversion Hin | intros req err Hin; inversion Hin]. }
  destruct (NewRequest_err net method url) as [e1 |].
  1:{ injection Hdo as <- <-.
      split; [cbn; lia |]. split; [intros req Hin; inversion Hin |].
      split; [intros body Habs; discriminate |].
      split; [intros req resp Hin; inversion Hin | intros req err Hin; inversion Hin]. }
  cbn [http.Method http.URL http.Hdr http.Body] in Hdo.
  set (req0 := http.mkRequest method url _ _) in Hdo.
  assert (sent = [req0]) as ->.
  { destruct (Do net req0) as [resp | err]; [| injection Hdo as _ <-; reflexivity].
    destruct (http.ReadAll (RespBody resp)) as [b [e |]];
      [injection Hdo as _ <-; reflexivity |].
    destruct (negb _); injection Hdo as _ <-; reflexivity. }
  split; [cbn; lia |]. split.
  { intros req Hin. apply list_elem_of_singleton in Hin as ->. split; reflexivity. }
  destruct (Do net req0) as [resp | err] eqn:Hnet.
  - destruct (http.ReadAll (RespBody resp)) as [b [e |]] eqn:Hread.
    + injection Hdo as <-. split; [intros body Habs; discriminate |]. split.
      * intros req resp' Hin Hdo' Hstatus. eauto.
      * intros req err Hin Hdo'. apply list_elem_of_singleton in Hin as ->. congruence.
    + destruct (Z.eqb_spec (StatusCode resp) http.StatusOK) as [Hok | Hnot];
        cbn [negb] in Hdo; injection Hdo as <-.
      * split.
        { intros body [= <-]. exists req0, resp, b. repeat split; assumption. }
        split.
        { intros req resp' Hin Hdo' Hstatus.
          apply list_elem_of_singleton in Hin as ->. exfalso.
          rewrite Hnet in Hdo'. injection Hdo' as <-. exact (Hstatus Hok). }
        intros req err Hin Hdo'. apply list_elem_of_singleton in Hin as ->. congruence.
      * split; [intros body Habs; discriminate |]. split.
        { intros req resp' Hin Hdo' Hstatus. eauto. }
        intros req err Hin Hdo'. apply list_elem_of_singleton in Hin as ->. congruence.
  - injection Hdo as <-. split; [intros body Habs; discriminate |]. split.
    + intros req resp' Hin Hdo'. apply list_elem_of_singleton in Hin as ->. congruence.
    + intros req err' Hin Hdo'. apply list_elem_of_singleton in Hin as ->. congruence.
Qed.
End Request.
End commands_more.

(** ** More on the TrustStore *)
Module trust_more.
Import server commands aux server_proofs endtoend_proofs.

Section Store.
Context {L : SSHLib}.
Local Open Scope list_scope.

(** Where an entry of a store built by [enter] comes from. *)
Lemma fold_enter_lookup (ks : list PublicKey) :
  forall (m : gmap string PublicKey) (fp : string) (k : PublicKey),
  fold_left enter ks m !! fp = Some k ->
  (k ∈ ks /\ FingerprintSHA256 k = fp) \/ m !! fp = Some k.
Proof.
  induction ks as [| k0 ks IH]; intros m fp k Hlook; cbn [fold_left] in Hlook.
  - right. exact Hlook.
  - destruct (IH _ _ _ Hlook) as [[Hin Hfp] | Hm].
    + left. split; [right; exact Hin | exact Hfp].
    + unfold enter in Hm. rewrite lookup_insert in Hm. case_decide as Hk.
      * injection Hm as <-. left. split; [left | exact Hk].
      * right. exact Hm.
Qed.

(** A fingerprint that is in, stays in. *)
Lemma fold_enter_keeps (ks : list PublicKey) :
  forall (m : gmap string PublicKey) (fp : string),
  is_Some (m !! fp) -> is_Some (fold_left enter ks m !! fp).
Proof.
  induction ks as [| k0 ks IH]; intros m fp Hin; cbn [fold_left]; [exact Hin |].
  apply IH. unfold enter. rewrite lookup_insert. case_decide; [eauto | exact Hin].
Qed.

Lemma fold_enter_member (ks : list PublicKey) :
  forall (m : gmap string PublicKey) (k : PublicKey),
  k ∈ ks -> is_Some (fold_left enter ks m !! FingerprintSHA256 k).
Proof.
  induction ks as [| k0 ks IH]; intros m k Hin; [inversion Hin |].
  cbn [fold_left]. apply elem_of_cons in Hin as [-> | Hin].
  - apply fold_enter_keeps. unfold enter. rewrite lookup_insert_eq. eauto.
  - apply IH. exact Hin.
Qed.

Lemma loadAuthorizedKeys_Loaded (fs : gmap string os.node) (path : string)
    (m : gmap string PublicKey) :
  loadAuthorizedKeys fs path = Loaded m ->
  (exists content, fs !! path = Some (os.File content) /\ m = storeOf (lines content))
  \/ (fs !! path = None /\ m = ∅).
Proof.
  intros Hload. destruct (fs !! path) as [[content |] |] eqn:Hlook.
  - left. exists content. split; [reflexivity |].
    rewrite (loadAuthorizedKeys_file fs path content Hlook) in Hload. congruence.
  - unfold loadAuthorizedKeys, os.ReadFile in Hload. rewrite Hlook in Hload.
    discriminate.
  - right. split; [reflexivity |].
    rewrite (loadAuthorizedKeys_absent fs path Hlook) in Hload. congruence.
Qed.

(** The store of a file holds a key under its fingerprint when a line of
    the file holds it and no line holds another key of that fingerprint. *)
Lemma storeOf_lookup_unique (ls : list bytes) (line : bytes) (k : PublicKey) :
  line ∈ ls -> parseKeyLine line = Some k ->
  (forall line' k', line' ∈ ls -> parseKeyLine line' = Some k' ->
     FingerprintSHA256 k' = FingerprintSHA256 k -> k' = k) ->
  storeOf ls !! FingerprintSHA256 k = Some k.
Proof.
  intros Hin Hparse Hunique. unfold storeOf.
  assert (k ∈ omap parseKeyLine ls) as Hk.
  { apply list_elem_of_omap. exists line. split; assumption. }
  destruct (fold_enter_member (omap parseKeyLine ls) ∅ k Hk) as [k' Hk'].
  rewrite Hk'. f_equal.
  destruct (fold_enter_lookup _ _ _ _ Hk') as [[Hin' Hfp] | Habs];
    [| rewrite lookup_empty in Habs; discriminate].
  apply list_elem_of_omap in Hin' as (line' & Hline' & Hparse').
  exact (Hunique line' k' Hline' Hparse' Hfp).
Qed.

(** X8.  Every entry of the TrustStore that [loadAuthorizedKeys] returns
    stands under the fingerprint of its own key, and the key is the key of
    some line of the file; the fingerprint of every line that holds a key
    is in the store; and a key whose fingerprint no other key of the file
    shares is stored under its fingerprint. *)
Theorem loaded_store_keyed_by_fingerprint (fs : gmap string os.node) (path : string)
    (m : gmap string PublicKey) :
  loadAuthorizedKeys fs path = Loaded m ->
  (forall fp k, m !! fp = Some k ->
     FingerprintSHA256 k = fp
     /\ exists content line,
          fs !! path = Some (os.File content)
          /\ line ∈ lines content /\ parseKeyLine line = Some k)
  /\ (forall content line k,
        fs !! path = Some (os.File content) ->
        line ∈ lines content -> parseKeyLine line = Some k ->
        (exists k', m !! FingerprintSHA256 k = Some k'
                    /\ FingerprintSHA256 k' = FingerprintSHA256 k)
        /\ ((forall line' k', line' ∈ lines content -> parseKeyLine line' = Some k' ->
               FingerprintSHA256 k' = FingerprintSHA256 k -> k' = k) ->
            m !! FingerprintSHA256 k = Some k)).
Proof.
  intros Hload.
  destruct (loadAuthorizedKeys_Loaded fs path m Hload)
    as [(content & Hfile & ->) | (Hnone & ->)].
  - split.
    + intros fp k Hlook. unfold storeOf in Hlook.
      destruct (fold_enter_lookup _ _ _ _ Hlook) as [[Hin Hfp] | Habs];
        [| rewrite lookup_empty in Habs; discriminate].
      split; [exact Hfp |].
      apply list_elem_of_omap in Hin as (line & Hline & Hparse).
      exists content, line. repeat split; assumption.
    + intros content' line k Hfile' Hline Hparse.
      rewrite Hfile in Hfile'. injection Hfile' as <-. split.
      * assert (k ∈ omap parseKeyLine (lines content)) as Hk.
        { apply list_elem_of_omap. exists line. split; assumption. }
        destruct (fold_enter_member _ ∅ k Hk) as [k' Hk'].
        exists k'. split; [exact Hk' |].
        destruct (fold_enter_lookup _ _ _ _ Hk') as [[_ Hfp] | Habs];
          [exact Hfp | rewrite lookup_empty in Habs; discriminate].
      * intros Hunique. eapply storeOf_lookup_unique; eauto.
  - split.
    + intros fp k Hlook. rewrite lookup_empty in Hlook. discriminate.
    + intros content line k Hfile. congruence.
Qed.

(** The gate forwards the request that [doHTTPSRequest] builds. *)
Lemma gate_forwards_signed (CL : CodecLaws L) (SL : SignatureLaws L)
    (ks : gmap string PublicKey) (K : Signer) (rnd : Entropy) (sig : Signature)
    (method url data : string) (next : http.Handler) (w : http.ResponseWriter) :
  ks !! FingerprintSHA256 (Signer_PublicKey K) = Some (Signer_PublicKey K) ->
  Signer_Sign K rnd (Sum256 (bytes_of_string data)) = Some sig ->
  let req := http.mkRequest method url
               (http.Header_Set
                  (http.Header_Set ∅ util.HeaderFingerprint
                     (FingerprintSHA256 (Signer_PublicKey K)))
                  util.HeaderSignature (EncodeToString (Marshal sig)))
               (http.NopCloser_NewBuffer (bytes_of_string data)) in
  authMiddleware next ks req w = next req w.
Proof.
  intros Hks Hsig req.
  rewrite (authMiddleware_known next ks req w (Signer_PublicKey K)).
  - cbn [req http.Hdr http.Body http.ReadAll http.NopCloser_NewBuffer
         http.pending http.failure].
    rewrite Header_Get_signature.
    rewrite DecodeString_EncodeToString, Unmarshal_Marshal.
    rewrite (Verify_Sign K rnd _ sig Hsig). reflexivity.
  - cbn [req http.Hdr]. rewrite Header_Get_fingerprint.
    apply FingerprintSHA256_nonempty.
  - cbn [req http.Hdr]. rewrite Header_Get_signature.
    apply EncodeToString_Marshal_nonempty.
  - cbn [req http.Hdr]. rewrite Header_Get_fingerprint. exact Hks.
Qed.

(** X9.  From the file to the gate.  Let the server load its TrustStore
    from an authorized-keys file.  A client whose public key is the key of
    a line of that file, with no other key of the same fingerprint in the
    file, gets every request it sends through the gate.  A request whose
    fingerprint header is the fingerprint of no key of the file is answered
    with 401 and the wrapped handler is not called. *)
Theorem keys_of_the_file_are_trusted (CL : CodecLaws L) (SL : SignatureLaws L)
    (fs : gmap string os.node) (path : string) (content : bytes)
    (store : gmap string PublicKey) :
  fs !! path = Some (os.File content) ->
  loadAuthorizedKeys fs path = Loaded store ->
  (forall env rnd net method url data K line res sent req,
     line ∈ lines content -> parseKeyLine line = Some (Signer_PublicKey K) ->
     (forall line' k', line' ∈ lines content -> parseKeyLine line' = Some k' ->
        FingerprintSHA256 k' = FingerprintSHA256 (Signer_PublicKey K) ->
        k' = Signer_PublicKey K) ->
     getSigner env = inl K ->
     doHTTPSRequest env rnd net method url data = (res, sent) -> req ∈ sent ->
     forall next w, authMiddleware next store req w = next req w)
  /\ (forall r,
        (forall line k, line ∈ lines content -> parseKeyLine line = Some k ->
           FingerprintSHA256 k <> http.Header_Get (http.Hdr r) util.HeaderFingerprint) ->
        exists msg, forall next w, authMiddleware next store r w = http.Error w msg 401).
Proof.
  intros Hfile Hload.
  rewrite (loadAuthorizedKeys_file fs path content Hfile) in Hload.
  injection Hload as <-. split.
  - intros env rnd net method url data K line res sent req
      Hline Hparse Hunique HK Hdo Hin next w.
    destruct (doHTTPSRequest_sent env rnd net method url data K res sent req HK Hdo Hin)
      as (sig & Hsig & ->).
    apply (gate_forwards_signed CL SL _ K rnd sig method url data next w);
      [| exact Hsig].
    eapply storeOf_lookup_unique; eauto.
  - intros r Hnone.
    assert (storeOf (lines content)
              !! http.Header_Get (http.Hdr r) util.HeaderFingerprint = None) as Hunknown.
    { destruct (storeOf (lines content) !! _) as [k |] eqn:Hlook; [| reflexivity].
      exfalso. unfold storeOf in Hlook.
      destruct (fold_enter_lookup _ _ _ _ Hlook) as [[Hin Hfp] | Habs];
        [| rewrite lookup_empty in Habs; discriminate].
      apply list_elem_of_omap in Hin as (line & Hline & Hparse).
      exact (Hnone line k Hline Hparse Hfp). }
    unfold authMiddleware.
    destruct (String.eqb _ "" || String.eqb _ "");
      [exists "Missing authentication headers"; reflexivity |].
    rewrite Hunknown. exists "Unknown public key". reflexivity.
Qed.
End Store.
End trust_more.

(** ** The further statements at concrete inputs *)
Module instances_more.
Import aux.

(** The system clipboard answers with an error after a microsecond. *)
Lemma primary_error_is_returned_witness :
  clipboard.Copy (clipboard.Responds 1000 (Some "denied")) false [Byte.x41]
    toy.manager_system
  = (clipboard.Returns (Some "denied"), toy.manager_system)
  /\ clipboard.Paste (clipboard.Responds 1000 ([Byte.x42], Some "denied")) false
       toy.manager_system
     = (clipboard.Returns ([], Some "denied"), toy.manager_system).
Proof.
  assert (1000 < clipboard.clipboardTimeout)%Z as Hintime by reflexivity.
  destruct (clipboard_more.primary_error_is_returned
              (clipboard.mkState (Some clipboard.System) (clipboard.mkInMemory []) false)
              0 clipboard.System false 1000 "denied"
              eq_refl ltac:(discriminate) eq_refl Hintime) as (Hcopy & Hpaste).
  split; [apply Hcopy | apply Hpaste].
Defined.

(** After the failover of [toy.trace_episode] the recovery task waits; a
    probe that is answered brings the system clipboard back, a probe that
    hangs leaves everything as it is. *)
Lemma recovery_returns_to_primary_witness :
  exists c c',
    clipboard.run toy.desktop clipboard.anyStep (take 8 toy.trace_episode)
      clipboard.initialConfig = Some c
    /\ clipboard.run toy.desktop clipboard.anyStep
         [clipboard.LTick; clipboard.LProbe (clipboard.Responds 1000 tt) false;
          clipboard.LSignal false] c = Some c'
    /\ clipboard.shared c'
       = Some (clipboard.mkState (Some clipboard.System)
                 (clipboard.mkInMemory [Byte.x41]) false)
    /\ clipboard.waiting c' = 0%nat
    /\ clipboard.run toy.desktop clipboard.anyStep
         [clipboard.LTick; clipboard.LProbe clipboard.Hangs false] c = Some c.
Proof.
  destruct (clipboard.run toy.desktop clipboard.anyStep (take 8 toy.trace_episode)
              clipboard.initialConfig) as [c |] eqn:Hc;
    [| vm_compute in Hc; discriminate].
  vm_compute in Hc. injection Hc as <-.
  assert (1000 < clipboard.clipboardTimeout)%Z as Hintime by reflexivity.
  match goal with
  | |- exists c0 c', Some ?c = Some c0 /\ _ =>
    destruct (clipboard_more.recovery_returns_to_primary toy.desktop c
                (clipboard.mkState (Some clipboard.InMemory)
                   (clipboard.mkInMemory [Byte.x41]) true)
                0 false eq_refl eq_refl) as (Hback & Hstay);
    destruct (Hback 1000 Hintime) as (Hrun & _);
    exists c; eexists; split; [reflexivity |]; split; [exact Hrun |];
    split; [reflexivity |]; split; [reflexivity |];
    exact (Hstay clipboard.Hangs I)
  end.
Defined.

(** At the end of [toy.trace_episode] the fallback holds the bytes of the
    one [Copy] call. *)
Lemma stored_bytes_were_copied_witness :
  exists c st,
    clipboard.run toy.desktop clipboard.anyStep toy.trace_episode clipboard.initialConfig
    = Some c
    /\ clipboard.shared c = Some st
    /\ clipboard.data (clipboard.fallback st) = [Byte.x41]
    /\ exists i pc0,
         clipboard.threads c !! i
         = Some (clipboard.CallCopy (clipboard.data (clipboard.fallback st)), pc0).
Proof.
  destruct (clipboard.run toy.desktop clipboard.anyStep toy.trace_episode
              clipboard.initialConfig) as [c |] eqn:Hc;
    [| vm_compute in Hc; discriminate].
  destruct (clipboard.shared c) as [st |] eqn:Hst.
  - assert (clipboard.data (clipboard.fallback st) = [Byte.x41]) as Hdata.
    { vm_compute in Hc. injection Hc as <-. injection Hst as <-. reflexivity. }
    exists c, st. split; [reflexivity |]. split; [exact Hst |]. split; [exact Hdata |].
    destruct (clipboard_more.stored_bytes_were_copied toy.desktop clipboard.anyStep
                toy.trace_episode c st Hc Hst) as [Hempty | Hcopied].
    + rewrite Hdata in Hempty. discriminate.
    + exact Hcopied.
  - exfalso. vm_compute in Hc. injection Hc as <-. discriminate.
Defined.

(** Two concurrent [Copy] calls on the fallback: both return nil and the
    fallback holds the bytes of the call that was served last. *)
Lemma concurrent_copies_on_fallback_witness :
  exists c st,
    clipboard.run toy.desktop aux_clipboard.callsOnly toy_more.trace_two_copies
      (aux_clipboard.onFallback []) = Some c
    /\ clipboard.shared c = Some st
    /\ clipboard.threads c
       = [(clipboard.CallCopy [Byte.x41], clipboard.Finished ([], None));
          (clipboard.CallCopy [Byte.x42], clipboard.Finished ([], None))]
    /\ (clipboard.data (clipboard.fallback st) = [Byte.x41]
        \/ clipboard.data (clipboard.fallback st) = [Byte.x42]).
Proof.
  destruct (clipboard.run toy.desktop aux_clipboard.callsOnly toy_more.trace_two_copies
              (aux_clipboard.onFallback [])) as [c |] eqn:Hc;
    [| vm_compute in Hc; discriminate].
  destruct (clipboard.shared c) as [st |] eqn:Hst.
  - assert (clipboard.threads c
            = [(clipboard.CallCopy [Byte.x41], clipboard.Finished ([], None));
               (clipboard.CallCopy [Byte.x42], clipboard.Finished ([], None))])
      as Hthreads.
    { vm_compute in Hc. injection Hc as <-. reflexivity. }
    destruct (clipboard_more.concurrent_copies_on_fallback toy.desktop []
                toy_more.trace_two_copies c st Hc Hst) as (_ & Hlast).
    exists c, st. split; [reflexivity |]. split; [exact Hst |].
    split; [exact Hthreads |]. exact (Hlast _ _ _ _ Hthreads).
  - exfalso. vm_compute in Hc. injection Hc as <-. discriminate.
Defined.

(** The [Paste] of [toy_more.trace_stale_backend] goes to the system
    clipboard directly, and does not return when that clipboard hangs. *)
Lemma direct_call_has_no_timeout_witness :
  exists c c1,
    clipboard.run toy.desktop clipboard.anyStep toy_more.trace_stale_backend
      clipboard.initialConfig = Some c
    /\ clipboard.step toy.desktop (clipboard.LIsUsingFallback 0) c = Some c1
    /\ clipboard.threads c1 !! 0%nat
       = Some (clipboard.CallPaste, clipboard.Direct clipboard.System)
    /\ clipboard.step toy.desktop (clipboard.LDirect 0 clipboard.Hangs) c1 = None.
Proof.
  assert (clipboard.System <> clipboard.InMemory) as Hprimary by discriminate.
  destruct (clipboard_more.direct_call_has_no_timeout toy.desktop 0
              clipboard.CallPaste clipboard.System Hprimary) as (Hdirect & Hhangs & _).
  destruct (clipboard.run toy.desktop clipboard.anyStep toy_more.trace_stale_backend
              clipboard.initialConfig) as [c |] eqn:Hc;
    [| vm_compute in Hc; discriminate].
  destruct (Hdirect c
              (clipboard.mkState (Some clipboard.InMemory) (clipboard.mkInMemory []) true))
    as (c1 & Hstep & Hthread).
  - vm_compute in Hc. injection Hc as <-. reflexivity.
  - vm_compute in Hc. injection Hc as <-. reflexivity.
  - reflexivity.
  - exists c, c1. split; [reflexivity |]. split; [exact Hstep |].
    split; [exact Hthread |]. exact (Hhangs c1 Hthread).
Defined.

(** With only [xclip] installed, [xclip] is selected. *)
Lemma initCLIClipboard_selects_installed_witness :
  clipboard_cli.initCLIClipboard toy.host_xclip clipboard_cli.initialGlobals
  = clipboard_cli.mkGlobals true clipboard_cli.xclipPasteArgs clipboard_cli.xclipCopyArgs
  /\ aux_cli.toolFound toy.host_xclip = true.
Proof.
  pose proof (clipboard_cli_more.initCLIClipboard_selects_installed toy.host_xclip) as H.
  cbv zeta in H. destruct H as (Hflag & _ & _ & _ & Hxclip).
  assert (clipboard_cli.initCLIClipboard toy.host_xclip clipboard_cli.initialGlobals
          = clipboard_cli.mkGlobals true clipboard_cli.xclipPasteArgs
              clipboard_cli.xclipCopyArgs) as Hg.
  { apply Hxclip; [reflexivity | left; reflexivity]. }
  split; [exact Hg |]. rewrite <- Hflag, Hg. reflexivity.
Defined.

(** One request goes out, and the body of the 200 answer comes back. *)
Lemma doHTTPSRequest_single_request_witness :
  exists sent,
    commands.doHTTPSRequest (L := toy.lib) toy.env tt toy_more.net_ok
      "GET" "https://localhost:2850/paste" "" = (inl "pasted", sent)
    /\ (length sent <= 1)%nat
    /\ (forall req, req ∈ sent ->
          http.Method req = "GET" /\ http.URL req = "https://localhost:2850/paste")
    /\ exists req, sent = [req].
Proof.
  destruct (commands.doHTTPSRequest (L := toy.lib) toy.env tt toy_more.net_ok
              "GET" "https://localhost:2850/paste" "") as [res sent] eqn:Hdo.
  destruct (commands_more.doHTTPSRequest_single_request (L := toy.lib) toy.env tt
              toy_more.net_ok "GET" "https://localhost:2850/paste" "" res sent Hdo)
    as (Hlen & Hsame & Hbody & _).
  assert (res = inl "pasted") as Hres.
  { vm_compute in Hdo. injection Hdo as <- _. reflexivity. }
  destruct (Hbody "pasted" Hres) as (req & _ & _ & Hsent & _).
  exists sent. split; [rewrite Hres; reflexivity |]. split; [exact Hlen |].
  split; [exact Hsame |]. exists req. exact Hsent.
Defined.

(** In the small instance the keys of [toy.fs_keys] have fingerprints of
    their own. *)
Lemma fs_keys_unique (k : Byte.byte) (line' : bytes) (k' : Byte.byte) :
  line' ∈ lines (joinLines toy.keyLines) ->
  toy.parseLine line' = Some k' ->
  toy.fingerprint k' = toy.fingerprint k -> k' = k.
Proof.
  intros _ _ Hfp. unfold toy.fingerprint, string_of_bytes in Hfp.
  cbv [String.append] in Hfp. injection Hfp as Hfp.
  assert (String.list_byte_of_string (String.string_of_list_byte [k'])
          = String.list_byte_of_string (String.string_of_list_byte [k])) as Hb
    by (cbn; rewrite Hfp; reflexivity).
  rewrite !String.list_byte_of_string_of_list_byte in Hb. congruence.
Qed.

(** The store loaded from [toy.fs_keys] holds key 1 under its
    fingerprint, and every entry under the fingerprint of its key. *)
Lemma loaded_store_keyed_by_fingerprint_witness :
  exists m,
    server.loadAuthorizedKeys (L := toy.lib) toy.fs_keys
      "/home/u/.config/pb/authorized_keys" = server.Loaded m
    /\ m !! toy.fingerprint Byte.x01 = Some Byte.x01
    /\ forall fp k, m !! fp = Some k -> toy.fingerprint k = fp.
Proof.
  assert (toy.fs_keys !! "/home/u/.config/pb/authorized_keys"
          = Some (os.File (joinLines toy.keyLines))) as Hfile
    by (vm_compute; reflexivity).
  pose proof (server_proofs.loadAuthorizedKeys_file (L := toy.lib) toy.fs_keys
                "/home/u/.config/pb/authorized_keys" (joinLines toy.keyLines) Hfile)
    as Hload.
  destruct (trust_more.loaded_store_keyed_by_fingerprint (L := toy.lib) toy.fs_keys
              "/home/u/.config/pb/authorized_keys" _ Hload) as (Hkeyed & Hall).
  eexists. split; [exact Hload |]. split.
  - destruct (Hall (joinLines toy.keyLines) [Byte.x6b; Byte.x01] Byte.x01)
      as (_ & Hunique).
    + exact Hfile.
    + vm_compute. left.
    + reflexivity.
    + apply Hunique. intros line' k'. apply fs_keys_unique.
  - intros fp k Hk. destruct (Hkeyed fp k Hk) as (Hfp & _). exact Hfp.
Defined.

(** The client that holds key 1 passes the gate of a server that has
    loaded [toy.fs_keys]; a request under the fingerprint of key 8 gets
    401. *)
Lemma keys_of_the_file_are_trusted_witness :
  exists store req,
    server.loadAuthorizedKeys (L := toy.lib) toy.fs_keys
      "/home/u/.config/pb/authorized_keys" = server.Loaded store
    /\ commands.doHTTPSRequest (L := toy.lib) toy_more.env_key1 tt toy.net
         "POST" "https://localhost:2850/copy" "hello"
       = (inr "connection refused", [req])
    /\ server.authMiddleware (L := toy.lib) toy.echo store req http.emptyResponse
       = toy.echo req http.emptyResponse
    /\ http.status (server.authMiddleware (L := toy.lib) toy.echo store
                      toy.request_unknown http.emptyResponse) = Some 401.
Proof.
  assert (toy.fs_keys !! "/home/u/.config/pb/authorized_keys"
          = Some (os.File (joinLines toy.keyLines))) as Hfile
    by (vm_compute; reflexivity).
  pose proof (server_proofs.loadAuthorizedKeys_file (L := toy.lib) toy.fs_keys
                "/home/u/.config/pb/authorized_keys" (joinLines toy.keyLines) Hfile)
    as Hload.
  destruct (commands.doHTTPSRequest (L := toy.lib) toy_more.env_key1 tt toy.net
              "POST" "https://localhost:2850/copy" "hello") as [res sent] eqn:Hdo.
  assert (exists req, res = inr "connection refused" /\ sent = [req]) as (req & -> & ->).
  { vm_compute in Hdo. injection Hdo as <- <-. eexists. split; reflexivity. }
  destruct (trust_more.keys_of_the_file_are_trusted (L := toy.lib) instances.toy_codec
              instances.toy_signature toy.fs_keys "/home/u/.config/pb/authorized_keys"
              (joinLines toy.keyLines) _ Hfile Hload) as (Htrusted & Hunknown).
  eexists. exists req. split; [exact Hload |]. split; [reflexivity |]. split.
  - apply (Htrusted toy_more.env_key1 tt toy.net "POST" "https://localhost:2850/copy"
             "hello" Byte.x01 [Byte.x6b; Byte.x01] (inr "connection refused") [req] req).
    + vm_compute. left.
    + reflexivity.
    + intros line' k'. apply fs_keys_unique.
    + vm_compute. reflexivity.
    + exact Hdo.
    + left.
  - destruct (Hunknown toy.request_unknown) as (msg & Hmsg).
    + intros line k Hin Hparse Hfp.
      vm_compute in Hin.
      repeat (apply elem_of_cons in Hin as [-> | Hin];
              [vm_compute in Hparse; try discriminate;
               injection Hparse as <-; vm_compute in Hfp; discriminate |]).
      inversion Hin.
    + rewrite Hmsg. reflexivity.
Defined.
End instances_more.

(** ** Line endings *)
Module lineendings_more.
Import lineendings aux_lineendings.

Lemma prefix_empty (s : string) : String.prefix "" s = true.
Proof. destruct s; reflexivity. Qed.

Lemma ReplaceAll_from_0 (old new : string) (c : Ascii.ascii) (s : string) :
  strings.ReplaceAll_from old new 0 (String c s)
  = if String.prefix old (String c s)
    then new ++ strings.ReplaceAll_from old new (String.length old - 1) s
    else String c (strings.ReplaceAll_from old new 0 s).
Proof. reflexivity. Qed.

Lemma ReplaceAll_from_S (old new : string) (k : nat) (c : Ascii.ascii) (s : string) :
  strings.ReplaceAll_from old new (S k) (String c s) = strings.ReplaceAll_from old new k s.
Proof. reflexivity. Qed.

Lemma replace_cr_cons (c : Ascii.ascii) (s : string) :
  strings.ReplaceAll_from (String CR "") (String LF "") 0 (String c s)
  = String (if Ascii.eqb c CR then LF else c)
      (strings.ReplaceAll_from (String CR "") (String LF "") 0 s).
Proof.
  rewrite ReplaceAll_from_0. cbn [String.prefix].
  destruct (Ascii.ascii_dec CR c) as [<- | Hne].
  - rewrite prefix_empty, Ascii.eqb_refl. reflexivity.
  - destruct (Ascii.eqb_spec c CR) as [-> | _]; [congruence | reflexivity].
Qed.

Lemma replace_crlf_cons (c : Ascii.ascii) (s : string) :
  strings.ReplaceAll_from (String CR (String LF "")) (String LF "") 0 (String c s)
  = if Ascii.eqb c CR then
      match s with
      | String d s'' =>
        if Ascii.eqb d LF
        then String LF
               (strings.ReplaceAll_from (String CR (String LF "")) (String LF "") 0 s'')
        else String c
               (strings.ReplaceAll_from (String CR (String LF "")) (String LF "") 0 s)
      | EmptyString => String c ""
      end
    else String c
           (strings.ReplaceAll_from (String CR (String LF "")) (String LF "") 0 s).
Proof.
  rewrite ReplaceAll_from_0. cbn [String.prefix].
  destruct (Ascii.ascii_dec CR c) as [<- | Hne].
  - rewrite Ascii.eqb_refl. destruct s as [| d s'']; [reflexivity |].
    cbn [String.prefix].
    destruct (Ascii.ascii_dec LF d) as [<- | Hd].
    + rewrite prefix_empty, Ascii.eqb_refl.
      cbn [String.length Nat.sub]. rewrite ReplaceAll_from_S. reflexivity.
    + destruct (Ascii.eqb_spec d LF) as [-> | _]; [congruence | reflexivity].
  - destruct (Ascii.eqb_spec c CR) as [-> | _]; [congruence | reflexivity].
Qed.

Lemma replace_twice_toLF (n : nat) : forall s : string,
  (String.length s <= n)%nat ->
  strings.ReplaceAll
    (strings.ReplaceAll s (String CR (String LF "")) (String LF ""))
    (String CR "") (String LF "")
  = toLF s.
Proof.
  unfold strings.ReplaceAll.
  induction n as [| n IH]; intros [| c s] Hlen; cbn [String.length] in Hlen;
    try reflexivity; try lia.
  rewrite replace_crlf_cons. cbn [toLF].
  destruct (Ascii.eqb_spec c CR) as [-> | Hc].
  - destruct s as [| d s''].
    + reflexivity.
    + destruct (Ascii.eqb_spec d LF) as [-> | Hd].
      * rewrite replace_cr_cons. cbn [String.length] in Hlen.
        rewrite IH by lia. reflexivity.
      * rewrite replace_cr_cons, Ascii.eqb_refl, IH by lia. reflexivity.
  - rewrite replace_cr_cons.
    destruct (Ascii.eqb_spec c CR) as [-> | _]; [congruence |].
    rewrite IH by lia. reflexivity.
Qed.

Lemma replace_cr_hasCR (s : string) :
  hasCR (strings.ReplaceAll s (String CR "") (String LF "")) = false.
Proof.
  unfold strings.ReplaceAll.
  induction s as [| c s IH]; [reflexivity |].
  rewrite replace_cr_cons. cbn [hasCR]. rewrite IH.
  destruct (Ascii.eqb_spec c CR) as [-> | Hc]; [reflexivity |].
  destruct (Ascii.eqb_spec c CR) as [-> | _]; [congruence | reflexivity].
Qed.

Lemma toLF_without_CR (s : string) : hasCR s = false -> toLF s = s.
Proof.
  induction s as [| c s IH]; [reflexivity |]. cbn [hasCR toLF]. intros Hcr.
  apply orb_false_iff in Hcr as [-> Hs]. rewrite (IH Hs). reflexivity.
Qed.

Lemma toLF_lineEnds (n : nat) : forall s : string,
  (String.length s <= n)%nat -> lineEnds (toLF s) = lineEnds s.
Proof.
  induction n as [| n IH]; intros [| c s] Hlen; cbn [String.length] in Hlen;
    try reflexivity; try lia.
  cbn [toLF lineEnds].
  destruct (Ascii.eqb_spec c CR) as [-> | Hc].
  - cbn [lineEnds]. change (Ascii.eqb LF CR) with false. rewrite Ascii.eqb_refl.
    destruct s as [| d s'']; [reflexivity |].
    cbn [String.length] in Hlen.
    destruct (Ascii.eqb d LF); rewrite IH by (cbn [String.length]; lia); reflexivity.
  - cbn [lineEnds]. destruct (Ascii.eqb_spec c CR) as [-> | _]; [congruence |].
    rewrite IH by lia. reflexivity.
Qed.

(** X10.  [ConvertLE] with the operation ["lf"], in any case of letters:
    each CR LF pair and each other CR of the text becomes one LF.  The
    result holds no CR and has as many line ends as the text; a text
    without CR comes back as it is; converting twice is converting once. *)
Theorem ConvertLE_lf (ReplaceAllString : string -> string -> string -> string)
    (text op : string) :
  strings.EqualFold "lf" op = true ->
  ConvertLE ReplaceAllString text op = toLF text
  /\ hasCR (ConvertLE ReplaceAllString text op) = false
  /\ lineEnds (ConvertLE ReplaceAllString text op) = lineEnds text
  /\ (hasCR text = false -> ConvertLE ReplaceAllString text op = text)
  /\ ConvertLE ReplaceAllString (ConvertLE ReplaceAllString text op) op
     = ConvertLE ReplaceAllString text op.
Proof.
  intros Hop.
  assert (forall t, ConvertLE ReplaceAllString t op
                    = strings.ReplaceAll
                        (strings.ReplaceAll t (String CR (String LF "")) (String LF ""))
                        (String CR "") (String LF "")) as Hlf.
  { intros t. unfold ConvertLE. rewrite Hop. reflexivity. }
  assert (forall t, ConvertLE ReplaceAllString t op = toLF t) as Hto.
  { intros t. rewrite Hlf. apply (replace_twice_toLF (String.length t)). lia. }
  assert (hasCR (ConvertLE ReplaceAllString text op) = false) as Hclean.
  { rewrite Hlf. apply replace_cr_hasCR. }
  split; [apply Hto |]. split; [exact Hclean |]. split; [| split].
  - rewrite Hto. apply (toLF_lineEnds (String.length text)). lia.
  - intros Hcr. rewrite Hto. apply toLF_without_CR. exact Hcr.
  - rewrite (Hto (ConvertLE ReplaceAllString text op)).
    apply toLF_without_CR. exact Hclean.
Qed.

(** A text with the three kinds of line ends, and the operation in capital
    letters. *)
Lemma ConvertLE_lf_witness :
  ConvertLE (fun _ src _ => src)
    ("a" ++ String CR (String LF ("b" ++ String CR ("c" ++ String LF "")))) "LF"
  = "a" ++ String LF ("b" ++ String LF ("c" ++ String LF "")).
Proof.
  destruct (ConvertLE_lf (fun _ src _ => src)
              ("a" ++ String CR (String LF ("b" ++ String CR ("c" ++ String LF ""))))
              "LF" eq_refl) as (Hto & _).
  rewrite Hto. reflexivity.
Defined.
End lineendings_more.

(** ** The handlers of the server *)
Module server_more.
Import server_clipboard server_handlers aux aux_server.

Section Handlers.
Context {L : SSHLib} {H : HostLib}.
Variable URL_Path : string -> string.
Variable unmatched : http.Handler.
Local Open Scope list_scope.

(** The gate around a handler that acts on the world answers as the gate
    of [server.authMiddleware] around what that handler answers. *)
Lemma authMiddleware_agrees (next : Handler) (ks : gmap string PublicKey)
    (r : http.Request) (w : http.ResponseWriter) (world : World) :
  fst (server_handlers.authMiddleware next ks r w world)
  = server.authMiddleware (fun r' w' => fst (next r' w' world)) ks r w.
Proof.
  unfold server_handlers.authMiddleware, server.authMiddleware.
  destruct (String.eqb _ "" || String.eqb _ ""); [reflexivity |].
  destruct (ks !! _) as [pubKey |]; [| reflexivity].
  destruct (http.ReadAll (http.Body r)) as [body [e |]]; [reflexivity |].
  destruct (DecodeString _) as [signatureBytes |]; [| reflexivity].
  destruct (Unmarshal signatureBytes) as [sshSig |]; [| reflexivity].
  destruct (PublicKey_Verify pubKey (Sum256 body) sshSig); reflexivity.
Qed.

(** The gate either leaves the world as it is, or calls the handler after
    it has verified the signature. *)
Lemma authMiddleware_cases (next : Handler) (ks : gmap string PublicKey)
    (r : http.Request) (w : http.ResponseWriter) (world : World) :
  snd (server_handlers.authMiddleware next ks r w world) = world
  \/ exists pubKey body signatureBytes sshSig,
       ks !! http.Header_Get (http.Hdr r) util.HeaderFingerprint = Some pubKey
       /\ http.ReadAll (http.Body r) = (body, None)
       /\ DecodeString (http.Header_Get (http.Hdr r) util.HeaderSignature)
          = Some signatureBytes
       /\ Unmarshal signatureBytes = Some sshSig
       /\ PublicKey_Verify pubKey (Sum256 body) sshSig = true
       /\ server_handlers.authMiddleware next ks r w world
          = next (withBody r body) w world.
Proof.
  unfold server_handlers.authMiddleware.
  destruct (String.eqb _ "" || String.eqb _ ""); [left; reflexivity |].
  destruct (ks !! _) as [pubKey |] eqn:Hk; [| left; reflexivity].
  destruct (http.ReadAll (http.Body r)) as [body [e |]] eqn:Hbody; [left; reflexivity |].
  destruct (DecodeString _) as [signatureBytes |] eqn:Hdec; [| left; reflexivity].
  destruct (Unmarshal signatureBytes) as [sshSig |] eqn:Hun; [| left; reflexivity].
  destruct (PublicKey_Verify pubKey (Sum256 body) sshSig) eqn:Hver; [| left; reflexivity].
  right. exists pubKey, body, signatureBytes, sshSig. repeat split; assumption.
Qed.

(** [pasteHandler] and the answer to an unmatched path leave the world as
    it is. *)
Lemma mux_changes (r : http.Request) (w : http.ResponseWriter) (world : World) :
  snd (mux URL_Path unmatched r w world) <> world ->
  URL_Path (http.URL r) ∈ [util.RequestCopy; util.RequestOpen; util.RequestQuit].
Proof.
  unfold mux.
  destruct (String.eqb_spec (URL_Path (http.URL r)) util.RequestCopy) as [-> | _];
    [intros _; set_solver |].
  destruct (String.eqb_spec (URL_Path (http.URL r)) util.RequestPaste) as [_ | _].
  { unfold pasteHandler. destruct (PasteFromClipboard world) as [content [e |]];
      intros Hne; exfalso; apply Hne; reflexivity. }
  destruct (String.eqb_spec (URL_Path (http.URL r)) util.RequestOpen) as [-> | _];
    [intros _; set_solver |].
  destruct (String.eqb_spec (URL_Path (http.URL r)) util.RequestQuit) as [-> | _];
    [intros _; set_solver |].
  intros Hne. exfalso. apply Hne. reflexivity.
Qed.

(** X11.  Nothing happens on the server without a verified signature.  The
    handler that [Serve] installs changes the world (the clipboard, the
    URLs opened, the exit of the process) only at a request whose
    signature header decodes to a signature that verifies, under the key
    the TrustStore holds for the fingerprint header, over the SHA-256
    digest of the whole body, and only when the path is that of copy, open
    or quit.  What it answers is what the gate answers around the four
    handlers. *)
Theorem world_changes_only_when_verified (ks : gmap string PublicKey)
    (r : http.Request) (w w' : http.ResponseWriter) (world world' : World) :
  Serve_Handler URL_Path unmatched ks r w world = (w', world') ->
  (world' <> world ->
   exists pubKey body signatureBytes sshSig,
     ks !! http.Header_Get (http.Hdr r) util.HeaderFingerprint = Some pubKey
     /\ http.ReadAll (http.Body r) = (body, None)
     /\ DecodeString (http.Header_Get (http.Hdr r) util.HeaderSignature)
        = Some signatureBytes
     /\ Unmarshal signatureBytes = Some sshSig
     /\ PublicKey_Verify pubKey (Sum256 body) sshSig = true
     /\ URL_Path (http.URL r) ∈ [util.RequestCopy; util.RequestOpen; util.RequestQuit]
     /\ (w', world') = mux URL_Path unmatched (withBody r body) w world)
  /\ w' = server.authMiddleware
            (fun r0 w0 => fst (mux URL_Path unmatched r0 w0 world)) ks r w.
Proof.
  unfold Serve_Handler. intros Hserve. split.
  - intros Hchanged.
    destruct (authMiddleware_cases (mux URL_Path unmatched) ks r w world)
      as [Hsame | (pubKey & body & signatureBytes & sshSig
                   & Hk & Hbody & Hdec & Hun & Hver & Hnext)].
    + rewrite Hserve in Hsame. cbn in Hsame. congruence.
    + exists pubKey, body, signatureBytes, sshSig.
      rewrite Hserve in Hnext.
      repeat (split; [assumption |]). split; [| exact Hnext].
      apply (mux_changes (withBody r body) w world).
      rewrite <- Hnext. exact Hchanged.
  - rewrite <- authMiddleware_agrees. rewrite Hserve. reflexivity.
Qed.

(** The two handlers of the clipboard once the active clipboard is set. *)
Lemma copyHandler_active (world : World) (c : clipboarder) (r : http.Request)
    (w : http.ResponseWriter) (body : bytes) :
  activeClipboard world = Some c ->
  http.ReadAll (http.Body r) = (body, None) ->
  copyHandler r w world
  = (http.WriteHeader w http.StatusOK, snd (CopyToClipboard body world))
  /\ is_Some (activeClipboard (snd (CopyToClipboard body world))).
Proof.
  intros Hactive Hbody. unfold copyHandler, CopyToClipboard.
  rewrite Hbody, Hactive. destruct c as [d0 |]; cbn; split; eauto.
Qed.

Lemma pasteHandler_active (world : World) (c : clipboarder) (r : http.Request)
    (w : http.ResponseWriter) :
  activeClipboard world = Some c ->
  pasteHandler r w world
  = (http.Write w (string_of_bytes (fst (PasteFromClipboard world))), world).
Proof.
  intros Hactive. unfold pasteHandler, PasteFromClipboard. rewrite Hactive.
  destruct c as [d0 |]; reflexivity.
Qed.

(** X12.  Copy, then paste, at the handlers.  Once [init] has run the
    active clipboard is not nil.  From then on a copy request whose body
    can be read is answered with 200 and never with the 500 of a
    clipboard failure; it leaves the opened URLs and the process alone;
    and every paste request that follows is answered with what the
    clipboard returns after that copy: exactly the body of the copy
    request when the in-memory clipboard is active, what the system
    clipboard reads after the write otherwise.  A copy request whose body
    cannot be read gets 500 and changes nothing. *)
Theorem copyHandler_then_pasteHandler (world : World) (c : clipboarder) :
  activeClipboard world = Some c ->
  (forall r w body,
     http.ReadAll (http.Body r) = (body, None) ->
     exists world',
       copyHandler r w world = (http.WriteHeader w http.StatusOK, world')
       /\ world' = snd (CopyToClipboard body world)
       /\ opened world' = opened world /\ exited world' = exited world
       /\ is_Some (activeClipboard world')
       /\ (forall r' w',
             pasteHandler r' w' world'
             = (http.Write w' (string_of_bytes (pastedAfterCopy body world)), world'))
       /\ pastedAfterCopy body world
          = match c with
            | inMemoryClipboard _ => body
            | systemClipboard => clipboard_Read (clipboard_Write body (system world))
            end)
  /\ (forall r w partial e,
        http.ReadAll (http.Body r) = (partial, Some e) ->
        copyHandler r w world
        = (http.Error w "Failed to read request body" http.StatusInternalServerError,
           world))
  /\ (forall e world0, is_Some (activeClipboard (init e world0))).
Proof.
  intros Hactive. split; [| split].
  - intros r w body Hbody. exists (snd (CopyToClipboard body world)).
    unfold copyHandler, pasteHandler, pastedAfterCopy, PasteFromClipboard,
      CopyToClipboard.
    rewrite Hbody, Hactive.
    destruct c as [d0 |]; cbn; repeat split; eauto.
  - intros r w partial e Hbody. unfold copyHandler. rewrite Hbody. reflexivity.
  - intros [e |] world0; cbn; eauto.
Qed.
End Handlers.
End server_more.

(** ** From the [copy] command to the [paste] command, through the server *)
Module endtoend_more.
Import server_clipboard server_handlers commands commands_run aux aux_server.
Import server_proofs endtoend_proofs.

Section Remote.
Context {L : SSHLib} {H : HostLib}.
Variable URL_Path : string -> string.
Variable unmatched : http.Handler.
Local Open Scope list_scope.

(** The gate of the server lets the request of a trusted key through. *)
Lemma gate_forwards_signed_world (CL : CodecLaws L) (SL : SignatureLaws L)
    (ks : gmap string PublicKey) (K : Signer) (rnd : Entropy) (sig : Signature)
    (method url data : string) (next : Handler) (w : http.ResponseWriter)
    (world : World) :
  ks !! FingerprintSHA256 (Signer_PublicKey K) = Some (Signer_PublicKey K) ->
  Signer_Sign K rnd (Sum256 (bytes_of_string data)) = Some sig ->
  server_handlers.authMiddleware next ks (signedRequest K sig method url data) w world
  = next (signedRequest K sig method url data) w world.
Proof.
  intros Hks Hsig. unfold server_handlers.authMiddleware, signedRequest.
  cbn [http.Hdr http.Body http.Method http.URL].
  rewrite Header_Get_fingerprint, Header_Get_signature.
  rewrite (eqb_empty_false _ (FingerprintSHA256_nonempty _)).
  rewrite (eqb_empty_false _ (EncodeToString_Marshal_nonempty _)).
  cbn [orb]. rewrite Hks.
  cbn [http.ReadAll http.NopCloser_NewBuffer http.pending http.failure].
  rewrite DecodeString_EncodeToString, Unmarshal_Marshal.
  rewrite (Verify_Sign K rnd _ sig Hsig). reflexivity.
Qed.

(** A request of a trusted key to the server: what comes back is what the
    handler of its path wrote. *)
Lemma doHTTPSRequest_to_server (CL : CodecLaws L) (SL : SignatureLaws L)
    (env : Env) (rnd : Entropy) (ks : gmap string PublicKey) (world : World)
    (K : Signer) (sig : Signature) (method url data : string) :
  getSigner env = inl K ->
  ks !! FingerprintSHA256 (Signer_PublicKey K) = Some (Signer_PublicKey K) ->
  Signer_Sign K rnd (Sum256 (bytes_of_string data)) = Some sig ->
  let req := signedRequest K sig method url data in
  let w := fst (mux URL_Path unmatched req http.emptyResponse world) in
  serve URL_Path unmatched ks world req
  = (mkResponse (default http.StatusOK (http.status w))
       (http.NopCloser_NewBuffer (bytes_of_string (http.written w))),
     snd (mux URL_Path unmatched req http.emptyResponse world))
  /\ doHTTPSRequest env rnd (networkTo URL_Path unmatched ks world) method url data
     = (if negb (Z.eqb (default http.StatusOK (http.status w)) http.StatusOK)
        then inr ("server returned non-200 status" ++ http.written w)%string
        else inl (http.written w),
        [req]).
Proof.
  intros HK Hks Hsig req w.
  assert (serve URL_Path unmatched ks world req
          = (mkResponse (default http.StatusOK (http.status w))
               (http.NopCloser_NewBuffer (bytes_of_string (http.written w))),
             snd (mux URL_Path unmatched req http.emptyResponse world))) as Hserve.
  { unfold serve, Serve_Handler, req.
    rewrite (gate_forwards_signed_world CL SL ks K rnd sig method url data _ _ _ Hks Hsig).
    fold req. unfold w.
    destruct (mux URL_Path unmatched req http.emptyResponse world) as [w0 world0].
    reflexivity. }
  split; [exact Hserve |].
  unfold doHTTPSRequest. rewrite HK, Hsig.
  cbn [networkTo NewRequest_err Do http.Method http.URL http.Hdr http.Body].
  fold (signedRequest K sig method url data). fold req. rewrite Hserve.
  cbn [fst RespBody StatusCode http.ReadAll http.NopCloser_NewBuffer
       http.pending http.failure].
  unfold string_of_bytes, bytes_of_string.
  rewrite String.string_of_list_byte_of_string.
  destruct (negb _); reflexivity.
Qed.

(** X13.  The [copy] command, then the [paste] command, against the
    server.  Let the key of the client be in the TrustStore of the server,
    the data be within the size limit (or [--rosebud] be given), and the
    network deliver requests and answers as they are.  Then [copy] sends
    one request and returns nil without touching the clipboard of the
    client; the server's clipboard has taken the data; and a [paste] that
    follows prints what the server's clipboard returns after that copy:
    exactly the bytes that were copied when the in-memory clipboard is
    active on the server. *)
Theorem remote_copy_then_paste (CL : CodecLaws L) (SL : SignatureLaws L)
    (env : Env) (rnd rnd' : Entropy) (ks : gmap string PublicKey) (world : World)
    (K : Signer) (c : clipboarder) (p : clipboard.Platform)
    (sys : clipboard.response (option error))
    (sys' : clipboard.response (bytes * option error)) (tie tie' : bool)
    (f : Flags) (m : clipboard.manager) (args : list string) (stdin : http.ReadCloser)
    (b : bytes) :
  getSigner env = inl K ->
  ks !! FingerprintSHA256 (Signer_PublicKey K) = Some (Signer_PublicKey K) ->
  is_Some (Signer_Sign K rnd (Sum256 b)) ->
  is_Some (Signer_Sign K rnd' (Sum256 [])) ->
  URL_Path (requestURL f util.RequestCopy) = util.RequestCopy ->
  URL_Path (requestURL f util.RequestPaste) = util.RequestPaste ->
  activeClipboard world = Some c ->
  dataToCopy args stdin = inl b ->
  (Z.of_nat (length b) <= maxClipboardSize)%Z \/ rosebudFlag f = true ->
  let o1 := copy_RunE env rnd (networkTo URL_Path unmatched ks world) p sys tie f
              args stdin m in
  returned o1 = clipboard.Returns None /\ manager_ o1 = m
  /\ exists req,
       requests o1 = [req]
       /\ let world1 := snd (serve URL_Path unmatched ks world req) in
          world1 = snd (CopyToClipboard b world)
          /\ let o2 := paste_RunE env rnd' (networkTo URL_Path unmatched ks world1)
                         p sys' tie' f m in
             returned o2 = clipboard.Returns None /\ manager_ o2 = m
             /\ printed o2 = string_of_bytes (pastedAfterCopy b world)
             /\ ((exists d0, c = inMemoryClipboard d0) ->
                 printed o2 = string_of_bytes b).
Proof.
  intros HK Hks [sig Hsig] [sig' Hsig'] Hcopy Hpaste Hactive Hdata Hsize o1.
  assert (bytes_of_string (string_of_bytes b) = b) as Hb.
  { unfold bytes_of_string, string_of_bytes.
    apply String.list_byte_of_string_of_list_byte. }
  assert (Signer_Sign K rnd (Sum256 (bytes_of_string (string_of_bytes b))) = Some sig)
    as Hsig1 by (rewrite Hb; exact Hsig).
  destruct (doHTTPSRequest_to_server CL SL env rnd ks world K sig "POST"
              (requestURL f util.RequestCopy) (string_of_bytes b) HK Hks Hsig1)
    as (Hserve & Hdo).
  cbv zeta in Hserve, Hdo.
  set (req := signedRequest K sig "POST" (requestURL f util.RequestCopy)
                (string_of_bytes b)) in *.
  destruct (server_more.copyHandler_active world c req http.emptyResponse b Hactive)
    as (Hhandler & Hactive1).
  { cbn. rewrite Hb. reflexivity. }
  assert (mux URL_Path unmatched req http.emptyResponse world
          = (http.WriteHeader http.emptyResponse http.StatusOK,
             snd (CopyToClipboard b world))) as Hmux.
  { unfold mux. cbn [req signedRequest http.URL]. rewrite Hcopy. cbn [String.eqb].
    exact Hhandler. }
  rewrite Hmux in Hserve, Hdo. cbn in Hdo.
  assert ((Z.of_nat (length b) >? maxClipboardSize)%Z && negb (rosebudFlag f) = false)
    as Hguard.
  { destruct Hsize as [Hle | ->]; [| apply andb_false_r].
    destruct (Z.gtb_spec (Z.of_nat (length b)) maxClipboardSize); [lia | reflexivity]. }
  unfold o1, copy_RunE. rewrite Hdata, Hguard, Hdo. cbn [returned manager_ requests].
  split; [reflexivity |]. split; [reflexivity |].
  exists req. split; [reflexivity |]. rewrite Hserve. cbn [snd].
  split; [reflexivity |].
  destruct Hactive1 as [c1 Hactive1].
  destruct (doHTTPSRequest_to_server CL SL env rnd' ks (snd (CopyToClipboard b world))
              K sig' "GET" (requestURL f util.RequestPaste) "" HK Hks Hsig')
    as (_ & Hdo').
  cbv zeta in Hdo'.
  set (req' := signedRequest K sig' "GET" (requestURL f util.RequestPaste) "") in *.
  assert (mux URL_Path unmatched req' http.emptyResponse (snd (CopyToClipboard b world))
          = (http.Write http.emptyResponse (string_of_bytes (pastedAfterCopy b world)),
             snd (CopyToClipboard b world))) as Hmux'.
  { unfold mux. cbn [req' signedRequest http.URL]. rewrite Hpaste.
    change (String.eqb util.RequestPaste util.RequestCopy) with false.
    change (String.eqb util.RequestPaste util.RequestPaste) with true. cbv iota.
    apply (server_more.pasteHandler_active _ c1). exact Hactive1. }
  rewrite Hmux' in Hdo'. cbn in Hdo'.
  unfold paste_RunE. rewrite Hdo'. cbn [returned manager_ printed].
  split; [reflexivity |]. split; [reflexivity |]. split; [reflexivity |].
  intros [d0 ->]. unfold pastedAfterCopy, PasteFromClipboard, CopyToClipboard.
  rewrite Hactive. reflexivity.
Qed.
End Remote.
End endtoend_more.

(** ** The [copy] command on its own *)
Module commands_run_more.
Import commands commands_run clipboard.

Section Copy.
Context {L : SSHLib}.
Local Open Scope list_scope.

(** What [Init] makes of the nil state: the fallback, or a primary backend
    with the empty fallback beside it. *)
Lemma Init_fresh (p : Platform) :
  Init p None = Some (mkState (Some InMemory) (mkInMemory []) true)
  \/ exists a, a <> InMemory
       /\ Init p None = Some (mkState (Some a) (mkInMemory []) false).
Proof.
  unfold Init, initPlatformClipboard.
  destruct (android p), (nativeInit_ok p), (CLIClipboardAvailable p); cbn;
    first [left; reflexivity | right; eexists; split; [| reflexivity]; discriminate].
Qed.

(** X14.  The [copy] command in a fresh process.  Data above the size
    limit is refused before anything is sent, unless [--rosebud] is given.
    When the request succeeds the command returns nil and the clipboard of
    the client is not touched.  When the request fails for whatever reason
    (no key, no connection, a 401 of the server) the error is dropped and
    the data goes to the clipboard of the client: the command returns nil
    when that clipboard is the in-memory one, when its backend answers nil
    in time, and when its backend misses the timeout (the data is then in
    the in-memory fallback); only an error that the backend returns in time
    is reported. *)
Theorem copy_RunE_hides_remote_failure (env : Env) (rnd : Entropy) (net : Network)
    (p : Platform) (sys : response (option error)) (tie : bool) (f : Flags)
    (args : list string) (stdin : http.ReadCloser) (n : nat) (b : bytes) :
  dataToCopy args stdin = inl b ->
  let m := mkManager None n in
  let o := copy_RunE env rnd net p sys tie f args stdin m in
  let sending :=
    doHTTPSRequest env rnd net "POST" (requestURL f util.RequestCopy) (string_of_bytes b) in
  let onFallback := mkState (Some InMemory) (mkInMemory b) true in
  ((Z.of_nat (length b) > maxClipboardSize)%Z -> rosebudFlag f = false ->
   requests o = [] /\ manager_ o = m /\ exists msg, returned o = Returns (Some msg))
  /\ ((Z.of_nat (length b) <= maxClipboardSize)%Z \/ rosebudFlag f = true ->
      (forall body sent,
         sending = (inl body, sent) ->
         returned o = Returns None /\ manager_ o = m /\ requests o = sent)
      /\ (forall e sent,
            sending = (inr e, sent) ->
            requests o = sent
            /\ (getActiveClipboard (Init p None) = Some InMemory ->
                returned o = Returns None
                /\ manager_ o = mkManager (Some onFallback) n)
            /\ (getActiveClipboard (Init p None) <> Some InMemory ->
                (exceeds clipboardTimeout sys ->
                 returned o = Returns None
                 /\ manager_ o = mkManager (Some onFallback) (S n))
                /\ (forall after,
                      (after < clipboardTimeout)%Z -> sys = Responds after None ->
                      returned o = Returns None
                      /\ manager_ o = mkManager (Init p None) n)
                /\ (forall after err,
                      (after < clipboardTimeout)%Z -> sys = Responds after (Some err) ->
                      returned o
                      = Returns
                          (Some ("server unreachable and failed to write to local clipboard: "
                                 ++ err)%string))))).
Proof.
  intros Hdata m o sending onFallback. unfold o, copy_RunE. rewrite Hdata. split.
  - intros Hbig Hrosebud. rewrite Hrosebud.
    destruct (Z.gtb_spec (Z.of_nat (length b)) maxClipboardSize); [| lia].
    cbn. eauto.
  - intros Hsize.
    assert ((Z.of_nat (length b) >? maxClipboardSize)%Z && negb (rosebudFlag f) = false)
      as ->.
    { destruct Hsize as [Hle | ->]; [| apply andb_false_r].
      destruct (Z.gtb_spec (Z.of_nat (length b)) maxClipboardSize); [lia | reflexivity]. }
    fold sending. split.
    + intros body sent ->. cbn. auto.
    + intros e sent ->. cbn [m state healthChecks]. split; [| split].
      * destruct (Copy sys tie b _) as [[[err |] |] m']; reflexivity.
      * intros Hactive.
        destruct (Init_fresh p) as [Hinit | (a & Hprimary & Hinit)];
          rewrite Hinit in *; [| cbn in Hactive; congruence].
        cbn. split; reflexivity.
      * intros Hactive.
        destruct (Init_fresh p) as [Hinit | (a & Hprimary & Hinit)];
          rewrite Hinit in *; [cbn in Hactive; congruence |].
        split; [| split].
        -- intros Hlate.
           rewrite (clipboard_proofs.Copy_timeout
                      (mkManager (Some (mkState (Some a) (mkInMemory []) false)) n)
                      (mkState (Some a) (mkInMemory []) false) a tie b sys
                      eq_refl eq_refl Hprimary eq_refl Hlate).
           cbn. split; reflexivity.
        -- intros after Hintime ->. unfold Copy. cbn [state active].
           assert (clipboarder_Copy a b (Responds after None)
                     (mkState (Some a) (mkInMemory []) false)
                   = (Responds after None, mkState (Some a) (mkInMemory []) false)) as ->.
           { destruct a; [congruence | reflexivity | reflexivity]. }
           cbn [isUsingFallback usingFallback selectWithin].
           destruct (Z.ltb_spec after clipboardTimeout); [| lia].
           cbn. split; reflexivity.
        -- intros after err Hintime ->. unfold Copy. cbn [state active].
           assert (clipboarder_Copy a b (Responds after (Some err))
                     (mkState (Some a) (mkInMemory []) false)
                   = (Responds after (Some err), mkState (Some a) (mkInMemory []) false))
             as ->.
           { destruct a; [congruence | reflexivity | reflexivity]. }
           cbn [isUsingFallback usingFallback selectWithin].
           destruct (Z.ltb_spec after clipboardTimeout); [| lia].
           reflexivity.
Qed.
End Copy.
End commands_run_more.

(** ** The [key-add] command and the keys the server loads *)
Module keyadd_more.
Import server commands commands_run aux aux_keys server_proofs.

Section KeyAdd.
Context {L : SSHLib}.
Local Open Scope list_scope.

Lemma append_assoc (a b c : string) : ((a ++ b) ++ c = a ++ (b ++ c))%string.
Proof.
  induction a as [| x a IH]; [reflexivity |].
  change (String x ((a ++ b) ++ c) = String x (a ++ (b ++ c)))%string.
  rewrite IH. reflexivity.
Qed.

Lemma bytes_of_string_app (s t : string) :
  bytes_of_string (s ++ t)%string = bytes_of_string s ++ bytes_of_string t.
Proof.
  unfold bytes_of_string, String.list_byte_of_string.
  induction s as [| x s IH]; [reflexivity |].
  change (String x s ++ t)%string with (String x (s ++ t)%string).
  cbn [String.list_ascii_of_string List.map]. rewrite IH. reflexivity.
Qed.

(** The path [key-add] writes is the path [Serve] reads. *)
Lemma Join_authorized_keys (home : string) :
  home <> "" ->
  commands_run.Join [commands_run.Join [home; ".config"; util.ProgramName];
                     "authorized_keys"]
  = os.Join [home; ".config"; util.ProgramName; "authorized_keys"].
Proof.
  destruct home as [| c h]; [congruence |]. intros _.
  unfold commands_run.Join, util.ProgramName.
  cbn [List.filter String.eqb negb os.Join].
  change (String c h ++ "/" ++ ".config" ++ "/" ++ "pb")%string
    with (String c (h ++ "/" ++ ".config" ++ "/" ++ "pb"))%string.
  cbn [List.filter String.eqb negb os.Join].
  change (String c (h ++ "/" ++ ".config" ++ "/" ++ "pb"))%string
    with (String c h ++ "/.config/pb")%string.
  rewrite append_assoc. reflexivity.
Qed.

(** Lines of a text that is put behind a text that ends in a newline. *)
Lemma lines_from_after_newline (old rest : bytes) : forall line : bytes,
  lines_from line ((old ++ [Byte.x0a]) ++ rest)
  = lines_from line (old ++ [Byte.x0a]) ++ lines_from [] rest.
Proof.
  induction old as [| b old IH]; intros line.
  - reflexivity.
  - cbn [app lines_from]. destruct (Byte.eqb b Byte.x0a).
    + rewrite IH. reflexivity.
    + apply IH.
Qed.

(** A newline at the end takes no line away. *)
Lemma lines_from_snoc (input : bytes) : forall line l : bytes,
  l ∈ lines_from line input -> l ∈ lines_from line (input ++ [Byte.x0a]).
Proof.
  induction input as [| b input IH]; intros line l Hin.
  - cbn [app lines_from] in *. destruct line as [| c line]; [inversion Hin |].
    cbn. exact Hin.
  - cbn [app lines_from] in *. destruct (Byte.eqb b Byte.x0a).
    + apply elem_of_cons in Hin as [-> | Hin]; [left | right; apply IH; exact Hin].
    + apply IH. exact Hin.
Qed.

(** The key that [ParseAuthorizedKey] returns is the key of a line. *)
Lemma ParseAuthorizedKey_line (input rest : bytes) (k : PublicKey) :
  ParseAuthorizedKey input = inl (k, rest) ->
  exists l, l ∈ lines input /\ parseKeyLine l = Some k.
Proof.
  unfold ParseAuthorizedKey. intros Hparse.
  pose proof (scan_lines input []) as Hscan.
  destruct (ParseAuthorizedKey_scan [] input) as [[k0 rest0] |]; [| discriminate].
  injection Hparse as -> ->. destruct Hscan as (Hkeys & _).
  assert (k ∈ omap parseKeyLine (lines_from [] input)) as Hin
    by (rewrite Hkeys; left).
  apply list_elem_of_omap in Hin as (l & Hl & Hk). exists l. split; assumption.
Qed.

(** X15.  From [key-add] to the server.  A run of [key-add] that returns
    an error leaves every file as it was (unless the write itself failed).
    A run that returns nil has changed the authorized-keys file only;
    when that file was absent, empty or ended in a newline, the server
    loads the new file without error, the key that
    [ssh.ParseAuthorizedKey] found in the trimmed input is in the loaded
    store under its fingerprint, and every fingerprint that was trusted
    before is still trusted. *)
Theorem key_add_then_load (TrimSpace : string -> string) (home : string)
    (MkdirAll : string -> option error) (WriteString_err : option error)
    (fs : os.FileSystem) (args : list string) (stdin : http.ReadCloser) :
  let path := os.Join [home; ".config"; util.ProgramName; "authorized_keys"] in
  let run := addKey_RunE TrimSpace (Some home) MkdirAll WriteString_err fs args stdin in
  (forall err, fst run = Some err -> WriteString_err = None -> snd run = fs)
  /\ (home <> "" -> endsInNewline fs path -> fst run = None ->
      exists keyToAdd k rest store',
        (forall arg, args = [arg] -> keyToAdd = TrimSpace arg)
        /\ ParseAuthorizedKey (bytes_of_string keyToAdd) = inl (k, rest)
        /\ (forall path', path' <> path -> snd run !! path' = fs !! path')
        /\ loadAuthorizedKeys (snd run) path = Loaded store'
        /\ Serve_authorizedKeys (Some home) (snd run) = inl store'
        /\ is_Some (store' !! FingerprintSHA256 k)
        /\ (forall store fp,
              loadAuthorizedKeys fs path = Loaded store ->
              is_Some (store !! fp) -> is_Some (store' !! fp))).
Proof.
  intros path run. split.
  - intros err Herr Hwrite. subst run. unfold addKey_RunE in *. rewrite Hwrite in *.
    destruct (match args with
              | [arg] => inl arg
              | _ => match http.ReadAll stdin with
                     | (_, Some e) => inr e
                     | (b, None) => inl (string_of_bytes b)
                     end
              end) as [keyToAdd | e]; [| reflexivity].
    destruct (ParseAuthorizedKey _) as [parsed | e]; [| reflexivity].
    destruct (MkdirAll _) as [e |]; [reflexivity |].
    destruct (fs !! _) as [[old |] |]; cbn in Herr; try discriminate; reflexivity.
  - intros Hhome Hold Hnil. subst run. unfold addKey_RunE in *.
    assert (exists input,
              (forall arg, args = [arg] -> input = arg)
              /\ match args with
                 | [arg] => inl arg
                 | _ => match http.ReadAll stdin with
                        | (_, Some e) => inr e
                        | (b, None) => inl (string_of_bytes b)
                        end
                 end = (inl input : string + error)) as (input & Hinput & Heq).
    { destruct args as [| arg [| arg' args']].
      - destruct (http.ReadAll stdin) as [b [e |]]; [discriminate |].
        eexists. split; [| reflexivity]. intros arg Habs. discriminate.
      - exists arg. split; [| reflexivity]. intros arg0 [= <-]. reflexivity.
      - destruct (http.ReadAll stdin) as [b [e |]]; [discriminate |].
        eexists. split; [| reflexivity]. intros arg0 Habs. discriminate. }
    rewrite Heq in *. clear Heq.
    destruct (ParseAuthorizedKey (bytes_of_string (TrimSpace input)))
      as [[k rest] | e] eqn:Hparse; [| discriminate].
    change (default "" (Some home)) with home in Hnil |- *.
    rewrite (Join_authorized_keys home Hhome) in Hnil |- *. fold path in Hnil |- *.
    destruct (MkdirAll _) as [e |]; [discriminate |].
    assert (exists old,
              (fs !! path = None \/ fs !! path = Some (os.File old))
              /\ (old = [] \/ exists old0, old = old0 ++ [Byte.x0a])
              /\ match fs !! path with
                 | Some (os.File content) => content
                 | _ => []
                 end = old) as (old & Hfile & Hends & Hcontent).
    { destruct Hold as [Hnone | [Hempty | (old0 & Hfile)]].
      - exists []. rewrite Hnone.
        split; [left; reflexivity | split; [left; reflexivity | reflexivity]].
      - exists []. rewrite Hempty.
        split; [right; reflexivity | split; [left; reflexivity | reflexivity]].
      - exists (old0 ++ [Byte.x0a]). rewrite Hfile.
        split; [right; reflexivity | split; [right; exists old0 | ]; reflexivity]. }
    assert (fs !! path <> Some os.Dir) as Hnodir
      by (destruct Hfile as [-> | ->]; discriminate).
    destruct (fs !! path) as [[content |] |] eqn:Hlook; [| congruence |];
      (destruct WriteString_err as [e |]; [discriminate |]); cbn [snd]; subst old.
    + clear Hfile.
      exists (TrimSpace input), k, rest. eexists.
      split; [intros arg Harg; rewrite (Hinput arg Harg); reflexivity |].
      split; [exact Hparse |].
      split; [intros path' Hne; apply lookup_insert_ne; congruence |].
      rewrite (loadAuthorizedKeys_file _ path _ (lookup_insert_eq _ _ _)).
      split; [reflexivity |].
      assert (forall st, st = storeOf
                (lines (content ++ bytes_of_string
                          (TrimSpace input ++ String (Ascii.ascii_of_nat 10) "")%string)) ->
              is_Some (st !! FingerprintSHA256 k)
              /\ forall store fp,
                   loadAuthorizedKeys fs path = Loaded store ->
                   is_Some (store !! fp) -> is_Some (st !! fp)) as Hstore.
      { intros st ->. rewrite bytes_of_string_app.
        change (bytes_of_string (String (Ascii.ascii_of_nat 10) "")) with [Byte.x0a].
        assert (lines (content ++ bytes_of_string (TrimSpace input) ++ [Byte.x0a])
                = lines content
                  ++ lines (bytes_of_string (TrimSpace input) ++ [Byte.x0a])) as ->.
        { unfold lines. destruct Hends as [-> | (old0 & ->)]; [reflexivity |].
          apply lines_from_after_newline. }
        unfold storeOf. rewrite omap_app, fold_left_app. split.
        - apply trust_more.fold_enter_member.
          destruct (ParseAuthorizedKey_line _ _ _ Hparse) as (l & Hl & Hk).
          apply list_elem_of_omap. exists l. split; [| exact Hk].
          apply lines_from_snoc. exact Hl.
        - intros store fp Hload Hin.
          rewrite (loadAuthorizedKeys_file fs path content Hlook) in Hload.
          injection Hload as <-. apply trust_more.fold_enter_keeps. exact Hin. }
      destruct (Hstore _ eq_refl) as (Hnew & Hkept).
      split; [| split; [exact Hnew | exact Hkept]].
      unfold Serve_authorizedKeys. fold path.
      rewrite (loadAuthorizedKeys_file _ path _ (lookup_insert_eq _ _ _)). reflexivity.
    + exists (TrimSpace input), k, rest. eexists.
      split; [intros arg Harg; rewrite (Hinput arg Harg); reflexivity |].
      split; [exact Hparse |].
      split; [intros path' Hne; apply lookup_insert_ne; congruence |].
      rewrite (loadAuthorizedKeys_file _ path _ (lookup_insert_eq _ _ _)).
      split; [reflexivity |].
      split; [unfold Serve_authorizedKeys; fold path;
              rewrite (loadAuthorizedKeys_file _ path _ (lookup_insert_eq _ _ _));
              reflexivity |].
      rewrite app_nil_l, bytes_of_string_app.
      change (bytes_of_string (String (Ascii.ascii_of_nat 10) "")) with [Byte.x0a].
      split.
      * unfold storeOf. apply trust_more.fold_enter_member.
        destruct (ParseAuthorizedKey_line _ _ _ Hparse) as (l & Hl & Hk).
        apply list_elem_of_omap. exists l. split; [| exact Hk].
        apply lines_from_snoc. exact Hl.
      * intros store fp Hload Hin.
        rewrite (loadAuthorizedKeys_absent fs path Hlook) in Hload.
        injection Hload as <-. rewrite lookup_empty in Hin. destruct Hin as [? Hin].
        discriminate.
Qed.
End KeyAdd.
End keyadd_more.

(** ** The statements about the server and the commands at concrete inputs *)
Module instances_server.
Import aux.

(** A signed copy request changes the clipboard of the server, and its
    signature verifies; a request without headers changes nothing. *)
Lemma world_changes_only_when_verified_witness :
  exists w' world',
    server_handlers.Serve_Handler (L := toy.lib) (H := toy_more.host)
      toy_more.pathOf toy_more.notFound toy.store (toy.request Byte.x07 "hello")
      http.emptyResponse toy_more.world_fallback = (w', world')
    /\ world' <> toy_more.world_fallback
    /\ toy.verify Byte.x07 (bytes_of_string "hello")
         (Byte.x07, bytes_of_string "hello") = true
    /\ snd (server_handlers.Serve_Handler (L := toy.lib) (H := toy_more.host)
              toy_more.pathOf toy_more.notFound toy.store toy.request_bare
              http.emptyResponse toy_more.world_fallback) = toy_more.world_fallback.
Proof.
  destruct (server_handlers.Serve_Handler (L := toy.lib) (H := toy_more.host)
              toy_more.pathOf toy_more.notFound toy.store (toy.request Byte.x07 "hello")
              http.emptyResponse toy_more.world_fallback) as [w' world'] eqn:Hserve.
  assert (world' <> toy_more.world_fallback) as Hchanged.
  { vm_compute in Hserve. injection Hserve as _ <-. discriminate. }
  destruct (server_more.world_changes_only_when_verified (L := toy.lib)
              (H := toy_more.host) toy_more.pathOf toy_more.notFound toy.store
              (toy.request Byte.x07 "hello") http.emptyResponse w'
              toy_more.world_fallback world' Hserve) as (Hverified & _).
  destruct (Hverified Hchanged)
    as (pubKey & body & signatureBytes & sshSig & Hk & Hbody & Hdec & Hun & Hver & _).
  exists w', world'. split; [reflexivity |]. split; [exact Hchanged |]. split.
  - vm_compute in Hk. injection Hk as <-. vm_compute in Hbody. injection Hbody as <-.
    vm_compute in Hdec. injection Hdec as <-. vm_compute in Hun. injection Hun as <-.
    exact Hver.
  - vm_compute. reflexivity.
Defined.

(** A copy request with the body "hello", then a paste request. *)
Lemma copyHandler_then_pasteHandler_witness :
  exists world',
    server_handlers.copyHandler (H := toy_more.host) (toy.request Byte.x07 "hello")
      http.emptyResponse toy_more.world_fallback
    = (http.mkResponseWriter (Some 200) "", world')
    /\ server_handlers.pasteHandler (H := toy_more.host) toy.request_bare
         http.emptyResponse world'
       = (http.mkResponseWriter (Some 200) "hello", world').
Proof.
  destruct (server_more.copyHandler_then_pasteHandler (H := toy_more.host)
              toy_more.world_fallback (server_clipboard.inMemoryClipboard []) eq_refl)
    as (Hcopy & _).
  destruct (Hcopy (toy.request Byte.x07 "hello") http.emptyResponse
              (bytes_of_string "hello") eq_refl)
    as (world' & Hc & _ & _ & _ & _ & Hpaste & Hdata).
  exists world'. split; [exact Hc |].
  rewrite (Hpaste toy.request_bare http.emptyResponse), Hdata. reflexivity.
Defined.

(** [pb copy hello], then [pb paste], against a server that trusts key 7
    and runs on the in-memory clipboard. *)
Lemma remote_copy_then_paste_witness :
  exists req,
    commands_run.requests
      (commands_run.copy_RunE (L := toy.lib) toy.env tt
         (aux_server.networkTo (L := toy.lib) (H := toy_more.host) toy_more.pathOf
            toy_more.notFound toy.store toy_more.world_fallback)
         toy.desktop clipboard.Hangs false toy_more.flags ["hello"]
         (http.NopCloser_NewBuffer []) toy.manager_system) = [req]
    /\ commands_run.printed
         (commands_run.paste_RunE (L := toy.lib) toy.env tt
            (aux_server.networkTo (L := toy.lib) (H := toy_more.host) toy_more.pathOf
               toy_more.notFound toy.store
               (snd (aux_server.serve (L := toy.lib) (H := toy_more.host)
                       toy_more.pathOf toy_more.notFound toy.store
                       toy_more.world_fallback req)))
            toy.desktop clipboard.Hangs false toy_more.flags toy.manager_system)
       = "hello".
Proof.
  assert (commands.getSigner (L := toy.lib) toy.env = inl Byte.x07) as HK
    by (vm_compute; reflexivity).
  assert (toy.store !! toy.fingerprint Byte.x07 = Some Byte.x07) as Hks
    by (vm_compute; reflexivity).
  assert (toy_more.pathOf (commands_run.requestURL toy_more.flags util.RequestCopy)
          = util.RequestCopy) as Hcopy by (vm_compute; reflexivity).
  assert (toy_more.pathOf (commands_run.requestURL toy_more.flags util.RequestPaste)
          = util.RequestPaste) as Hpaste by (vm_compute; reflexivity).
  assert (Z.of_nat (length (bytes_of_string "hello")) <= commands_run.maxClipboardSize)%Z
    as Hsize by (vm_compute; discriminate).
  destruct (endtoend_more.remote_copy_then_paste (L := toy.lib) (H := toy_more.host)
              toy_more.pathOf toy_more.notFound instances.toy_codec
              instances.toy_signature toy.env tt tt toy.store toy_more.world_fallback
              Byte.x07 (server_clipboard.inMemoryClipboard []) toy.desktop
              clipboard.Hangs clipboard.Hangs false false toy_more.flags
              toy.manager_system ["hello"] (http.NopCloser_NewBuffer [])
              (bytes_of_string "hello") HK Hks
              (ex_intro _ (Byte.x07, bytes_of_string "hello") eq_refl)
              (ex_intro _ (Byte.x07, []) eq_refl)
              Hcopy Hpaste eq_refl eq_refl (or_introl Hsize))
    as (_ & _ & req & Hreq & _ & _ & _ & _ & Hsame).
  exists req. split; [exact Hreq |].
  rewrite (Hsame (ex_intro _ [] eq_refl)). reflexivity.
Defined.

(** A client without a key whose system clipboard hangs: [copy] returns
    nil, and the data is in the in-memory fallback of the process. *)
Lemma copy_RunE_hides_remote_failure_witness :
  commands_run.returned
    (commands_run.copy_RunE (L := toy.lib) toy.env_no_key tt toy.net toy.desktop
       clipboard.Hangs false toy_more.flags ["hello"] (http.NopCloser_NewBuffer [])
       (clipboard.mkManager None 0))
  = clipboard.Returns None
  /\ commands_run.manager_
       (commands_run.copy_RunE (L := toy.lib) toy.env_no_key tt toy.net toy.desktop
          clipboard.Hangs false toy_more.flags ["hello"] (http.NopCloser_NewBuffer [])
          (clipboard.mkManager None 0))
     = clipboard.mkManager
         (Some (clipboard.mkState (Some clipboard.InMemory)
                  (clipboard.mkInMemory (bytes_of_string "hello")) true)) 1.
Proof.
  assert (Z.of_nat (length (bytes_of_string "hello")) <= commands_run.maxClipboardSize)%Z
    as Hsize by (vm_compute; discriminate).
  pose proof (commands_run_more.copy_RunE_hides_remote_failure (L := toy.lib)
                toy.env_no_key tt toy.net toy.desktop clipboard.Hangs false
                toy_more.flags ["hello"] (http.NopCloser_NewBuffer []) 0%nat
                (bytes_of_string "hello") eq_refl) as Hcopy.
  cbv zeta in Hcopy. destruct Hcopy as (_ & Hsmall).
  destruct (Hsmall (or_introl Hsize)) as (_ & Hfails).
  destruct (Hfails commands.noPrivateKeyFound []) as (_ & _ & Hprimary).
  - vm_compute. reflexivity.
  - destruct Hprimary as (Hlate & _).
    + vm_compute. discriminate.
    + exact (Hlate I).
Defined.

(** Key 3 is added to the file of [toy.fs_keys]: the server then trusts
    key 3, and key 1 as before. *)
Lemma key_add_then_load_witness :
  exists store',
    server.loadAuthorizedKeys (L := toy.lib)
      (snd (commands_run.addKey_RunE (L := toy.lib) (fun s => s) (Some toy.home)
              (fun _ => None) None toy.fs_keys [toy_more.key3_line]
              (http.NopCloser_NewBuffer [])))
      "/home/u/.config/pb/authorized_keys" = server.Loaded store'
    /\ is_Some (store' !! toy.fingerprint Byte.x03)
    /\ is_Some (store' !! toy.fingerprint Byte.x01).
Proof.
  pose proof (keyadd_more.key_add_then_load (L := toy.lib) (fun s => s) toy.home
                (fun _ => None) None toy.fs_keys [toy_more.key3_line]
                (http.NopCloser_NewBuffer [])) as Hadd.
  cbv zeta in Hadd. destruct Hadd as (_ & Hadded).
  destruct Hadded as (keyToAdd & k & rest & store' & Hkey & Hparse & _ & Hload & _
                      & Hnew & Hkept).
  - discriminate.
  - right. right.
    exists ([Byte.x6b; Byte.x01; Byte.x0a] ++ bytes_of_string "garbage"
            ++ [Byte.x0a; Byte.x6b; Byte.x02])%list.
    vm_compute. reflexivity.
  - vm_compute. reflexivity.
  - exists store'. split; [exact Hload |].
    rewrite (Hkey toy_more.key3_line eq_refl) in Hparse.
    vm_compute in Hparse. injection Hparse as <- _.
    split; [exact Hnew |].
    apply (Hkept (storeOf (L := toy.lib) (lines (joinLines toy.keyLines)))).
    + apply server_proofs.loadAuthorizedKeys_file. vm_compute. reflexivity.
    + vm_compute. eexists. reflexivity.
Defined.

(** The file does not end in a newline: the key that [key-add] appends
    runs into the last line, and the server does not trust it. *)
Example key_add_after_unterminated_line :
  let run :=
    commands_run.addKey_RunE (L := toy.lib) (fun s => s) (Some toy.home)
      (fun _ => None) None
      {[ "/home/u/.config/pb/authorized_keys" := os.File [Byte.x6b; Byte.x01] ]}
      [toy_more.key3_line] (http.NopCloser_NewBuffer []) in
  let store' :=
    storeOf (L := toy.lib) (lines [Byte.x6b; Byte.x01; Byte.x6b; Byte.x03; Byte.x0a]) in
  fst run = None
  /\ server.loadAuthorizedKeys (L := toy.lib) (snd run)
       "/home/u/.config/pb/authorized_keys" = server.Loaded store'
  /\ store' !! toy.fingerprint Byte.x03 = None
  /\ store' !! toy.fingerprint Byte.x01 = None.
Proof.
  cbv zeta. split; [vm_compute; reflexivity |]. split; [| split; vm_compute; reflexivity].
  apply server_proofs.loadAuthorizedKeys_file. vm_compute. reflexivity.
Qed.
End instances_server.

(** ** The [key-gen] command and the key the client signs with *)
Module keygen_more.
Import commands commands_run keygen.

Section KeyGen.
Context {L : SSHLib} {G : KeyGenLib}.

(** A file of the configuration directory, as the commands name it and as
    [findPrivateKey] names it. *)
Lemma Join_config (home name : string) :
  home <> "" -> name <> "" ->
  commands_run.Join [commands_run.Join [home; ".config"; util.ProgramName]; name]
  = os.Join [home; ".config"; util.ProgramName; name].
Proof.
  destruct home as [| c h]; [congruence |].
  destruct name as [| c' n']; [congruence |]. intros _ _.
  unfold commands_run.Join, util.ProgramName.
  cbn [List.filter String.eqb negb os.Join].
  change (String c h ++ "/" ++ ".config" ++ "/" ++ "pb")%string
    with (String c (h ++ "/" ++ ".config" ++ "/" ++ "pb"))%string.
  cbn [List.filter String.eqb negb os.Join].
  change (String c (h ++ "/" ++ ".config" ++ "/" ++ "pb"))%string
    with (String c h ++ "/.config/pb")%string.
  rewrite keyadd_more.append_assoc. reflexivity.
Qed.

Lemma pub_path_differs (home : string) :
  os.Join [home; ".config"; util.ProgramName; "id_ed25519.pub"]
  <> os.Join [home; ".config"; util.ProgramName; "id_ed25519"].
Proof.
  cbn [os.Join]. intros Heq. apply (inj (String.append home)) in Heq. discriminate.
Qed.

(** [key-gen] does not overwrite a key. *)
Lemma genkey_RunE_exists (h : Host) (rnd : Entropy) (home : string)
    (fs : os.FileSystem) :
  home <> "" ->
  is_Some (fs !! os.Join [home; ".config"; util.ProgramName; "id_ed25519"]) ->
  fst (genkey_RunE h rnd (Some home) fs) <> None
  /\ snd (genkey_RunE h rnd (Some home) fs) = fs.
Proof.
  intros Hhome [node Hnode]. unfold genkey_RunE.
  change (default "" (Some home)) with home.
  rewrite (Join_config home "id_ed25519" Hhome) by discriminate.
  unfold os.Stat. rewrite Hnode. split; [discriminate | reflexivity].
Qed.

(** What a run of [key-gen] leaves: nothing, the private key, or both
    keys. *)
Lemma genkey_RunE_cases (h : Host) (rnd : Entropy) (home : string)
    (fs : os.FileSystem) :
  home <> "" ->
  let keyPath := os.Join [home; ".config"; util.ProgramName; "id_ed25519"] in
  let pubPath := os.Join [home; ".config"; util.ProgramName; "id_ed25519.pub"] in
  let run := genkey_RunE h rnd (Some home) fs in
  (fst run <> None /\ snd run = fs)
  \/ (exists privatePEM,
        fs !! keyPath = None /\ fst run <> None
        /\ snd run = <[keyPath := os.File privatePEM]> fs)
  \/ (exists privatePEM pubKeyBytes,
        fs !! keyPath = None /\ fst run = None
        /\ snd run = <[pubPath := os.File pubKeyBytes]>
                       (<[keyPath := os.File privatePEM]> fs)).
Proof.
  intros Hhome keyPath pubPath run. subst run. unfold genkey_RunE.
  change (default "" (Some home)) with home.
  rewrite (Join_config home "id_ed25519" Hhome) by discriminate. fold keyPath.
  unfold os.Stat.
  destruct (fs !! keyPath) as [node |] eqn:Hkey;
    [left; split; [discriminate | reflexivity] |].
  unfold GenerateSSHKeys.
  rewrite (Join_config home "id_ed25519" Hhome) by discriminate.
  rewrite (Join_config home "id_ed25519.pub" Hhome) by discriminate.
  fold keyPath pubPath.
  destruct (MkdirAll h _) as [e |]; [left; split; [discriminate | reflexivity] |].
  destruct (ed25519_GenerateKey rnd) as [[pubKey privKey] |];
    [| left; split; [discriminate | reflexivity]].
  destruct (x509_MarshalPKCS8PrivateKey privKey) as [pkcs8Key |];
    [| left; split; [discriminate | reflexivity]].
  assert (forall data, WriteFile h fs keyPath data
                       = match WriteFile_err h keyPath with
                         | Some err => inr err
                         | None => inl (<[keyPath := os.File data]> fs)
                         end) as Hwrite.
  { intros data. unfold WriteFile. rewrite Hkey. reflexivity. }
  rewrite !Hwrite.
  destruct (WriteFile_err h keyPath) as [e |];
    [left; split; [discriminate | reflexivity] |].
  destruct (ssh_NewPublicKey pubKey) as [publicKey |].
  2:{ right. left. eexists. split; [reflexivity |].
      split; [discriminate | reflexivity]. }
  destruct (WriteFile h _ pubPath _) as [fs1 | e] eqn:Hpub.
  - right. right. eexists. eexists. split; [reflexivity |]. split; [reflexivity |].
    cbn [snd]. unfold WriteFile in Hpub.
    destruct (<[keyPath := _]> fs !! pubPath) as [[content |] |];
      try discriminate;
      (destruct (WriteFile_err h pubPath) as [e |]; [discriminate |]);
      injection Hpub as <-; reflexivity.
  - right. left. eexists. split; [reflexivity |].
    split; [discriminate | reflexivity].
Qed.

(** X16.  [key-gen] and the key of the client.  A run of [key-gen] touches
    no file but the two key files.  It refuses to run when the private key
    file exists, and leaves everything as it is.  When it returns nil it
    has written both files, and from then on [findPrivateKey] chooses the
    new private key, whatever keys stand in [~/.ssh], and [getSigner]
    parses exactly the bytes that were written.  Whenever a run leaves a
    private key file (also a run that failed after writing it, before the
    public key was written), every later run refuses. *)
Theorem key_gen_then_getSigner (h : Host) (rnd : Entropy) (home : string)
    (fs : os.FileSystem) :
  home <> "" ->
  let keyPath := os.Join [home; ".config"; util.ProgramName; "id_ed25519"] in
  let pubPath := os.Join [home; ".config"; util.ProgramName; "id_ed25519.pub"] in
  let run := genkey_RunE h rnd (Some home) fs in
  (is_Some (fs !! keyPath) -> fst run <> None /\ snd run = fs)
  /\ (fst run = None ->
      exists privatePEM pubKeyBytes,
        fs !! keyPath = None
        /\ snd run = <[pubPath := os.File pubKeyBytes]>
                       (<[keyPath := os.File privatePEM]> fs)
        /\ findPrivateKey (mkEnv (Some home) (snd run) "") = inl keyPath
        /\ getSigner (mkEnv (Some home) (snd run) "")
           = match ParsePrivateKey privatePEM with
             | Some signer => inl signer
             | None => inr "could not parse private key"
             end)
  /\ (forall path', path' <> keyPath -> path' <> pubPath -> snd run !! path' = fs !! path')
  /\ (is_Some (snd run !! keyPath) ->
      forall rnd',
        fst (genkey_RunE h rnd' (Some home) (snd run)) <> None
        /\ snd (genkey_RunE h rnd' (Some home) (snd run)) = snd run).
Proof.
  intros Hhome keyPath pubPath run.
  pose proof (genkey_RunE_cases h rnd home fs Hhome) as Hcases.
  cbv zeta in Hcases. fold keyPath pubPath run in Hcases.
  split; [| split; [| split]].
  - intros Hexists. apply genkey_RunE_exists; assumption.
  - intros Hnil.
    destruct Hcases as [(Herr & _) | [(pem & _ & Herr & _) | (pem & pub & Hkey & _ & Hrun)]];
      [congruence | congruence |].
    exists pem, pub. split; [exact Hkey |]. split; [exact Hrun |].
    assert (snd run !! keyPath = Some (os.File pem)) as Hlook.
    { rewrite Hrun. rewrite lookup_insert_ne by apply pub_path_differs.
      apply lookup_insert_eq. }
    assert (findPrivateKey (mkEnv (Some home) (snd run) "") = inl keyPath) as Hfind.
    { unfold findPrivateKey. cbn [UserHomeDir commands.fs]. fold keyPath.
      unfold os.Stat. rewrite Hlook. reflexivity. }
    split; [exact Hfind |].
    unfold getSigner. cbn [commands.keyPath String.eqb]. rewrite Hfind.
    cbn [commands.fs]. unfold os.ReadFile. rewrite Hlook. reflexivity.
  - intros path' Hkey Hpub.
    destruct Hcases as [(_ & ->) | [(pem & _ & _ & ->) | (pem & pub & _ & _ & ->)]].
    + reflexivity.
    + apply lookup_insert_ne. congruence.
    + rewrite lookup_insert_ne by congruence. apply lookup_insert_ne. congruence.
  - intros Hleft rnd'. apply genkey_RunE_exists; assumption.
Qed.
End KeyGen.
End keygen_more.

(** ** [key-gen] at concrete inputs *)
Module instances_keygen.

(** In a home directory with an SSH key of its own, [key-gen] writes key 5
    and the client signs with key 5 from then on.  With a library that
    cannot make the public key the run fails after the private key was
    written, and the next run refuses. *)
Lemma key_gen_then_getSigner_witness :
  fst (keygen.genkey_RunE (L := toy.lib) (G := toy_more.keygen_lib)
         toy_more.keygen_host tt (Some toy.home) toy_more.fs_ssh_key) = None
  /\ commands.getSigner (L := toy.lib)
       (commands.mkEnv (Some toy.home)
          (snd (keygen.genkey_RunE (L := toy.lib) (G := toy_more.keygen_lib)
                  toy_more.keygen_host tt (Some toy.home) toy_more.fs_ssh_key)) "")
     = inl Byte.x05
  /\ fst (keygen.genkey_RunE (L := toy.lib) (G := toy_more.keygen_lib_failing)
            toy_more.keygen_host tt (Some toy.home) toy_more.fs_ssh_key) <> None
  /\ fst (keygen.genkey_RunE (L := toy.lib) (G := toy_more.keygen_lib_failing)
            toy_more.keygen_host tt (Some toy.home)
            (snd (keygen.genkey_RunE (L := toy.lib) (G := toy_more.keygen_lib_failing)
                    toy_more.keygen_host tt (Some toy.home) toy_more.fs_ssh_key)))
     <> None.
Proof.
  assert (toy.home <> "") as Hhome by discriminate.
  assert (fst (keygen.genkey_RunE (L := toy.lib) (G := toy_more.keygen_lib)
                 toy_more.keygen_host tt (Some toy.home) toy_more.fs_ssh_key) = None)
    as Hnil by (vm_compute; reflexivity).
  split; [exact Hnil |]. split; [| split].
  - pose proof (keygen_more.key_gen_then_getSigner (L := toy.lib)
                  (G := toy_more.keygen_lib) toy_more.keygen_host tt toy.home
                  toy_more.fs_ssh_key Hhome) as Hgen.
    cbv zeta in Hgen. destruct Hgen as (_ & Hwritten & _).
    destruct (Hwritten Hnil) as (pem & pub & _ & Hrun & _ & Hsigner).
    rewrite Hsigner.
    assert (pem = [Byte.x4b; Byte.x05]) as ->.
    { assert (snd (keygen.genkey_RunE (L := toy.lib) (G := toy_more.keygen_lib)
                     toy_more.keygen_host tt (Some toy.home) toy_more.fs_ssh_key)
              !! "/home/u/.config/pb/id_ed25519" = Some (os.File [Byte.x4b; Byte.x05]))
        as Hlook by (vm_compute; reflexivity).
      rewrite Hrun in Hlook.
      rewrite lookup_insert_ne in Hlook by (vm_compute; discriminate).
      change (os.Join [toy.home; ".config"; util.ProgramName; "id_ed25519"])
        with "/home/u/.config/pb/id_ed25519" in Hlook.
      rewrite lookup_insert_eq in Hlook. congruence. }
    reflexivity.
  - vm_compute. discriminate.
  - pose proof (keygen_more.key_gen_then_getSigner (L := toy.lib)
                  (G := toy_more.keygen_lib_failing) toy_more.keygen_host tt toy.home
                  toy_more.fs_ssh_key Hhome) as Hgen.
    cbv zeta in Hgen. destruct Hgen as (_ & _ & _ & Hagain).
    apply (Hagain ltac:(vm_compute; eexists; reflexivity) tt).
Defined.
End instances_keygen.
